(** * Recipe-Rabbit: the favorites and grocery-list sync controllers

    A shallow embedding of [context/FavoritesContext.tsx] and
    [context/GroceryContext.tsx]: the list operations exposed to the UI,
    the date normalisation [safeToDate], the realtime-snapshot handlers
    and the manual "sync now" operations, followed by the properties of
    the specification that concern them.

    Modelling conventions.
    - A JavaScript array is a [list]; a React state updater is the pure
      function from the current list to the next one, paired with the
      list it hands to the debounced save.
    - A JavaScript string is a [string]: its text in UTF-8, as a
      string literal of this file is.  The controllers only compare
      strings, test them for emptiness and hand them to
      [toLowerCase] and [trim]; these two belong to the engine and are
      the operations of an interface, so that every property holds for
      the case mappings and the white space of the whole of Unicode.
    - An [async] function is a state transformer over a [World] that
      either returns or throws; one handler runs to completion before
      the next event is looked at.  Whether an I/O call rejects and
      what the clock reads are oracles carried by the world. *)

From Stdlib Require Import List String Ascii ZArith Bool Lia QArith.
Import ListNotations.

Open Scope string_scope.
Open Scope list_scope.

Set Implicit Arguments.

(** ** JavaScript strings: [toLowerCase] and [trim] *)

Module JsString.

(** [!s] for a string: only the empty string is falsy. *)
Definition isEmpty (s : string) : bool :=
  match s with EmptyString => true | String _ _ => false end.

(** [String.prototype.toLowerCase] and [String.prototype.trim].  What
    they return is fixed by the tables of the engine: the lower-case
    mapping of every cased letter of Unicode with its final-sigma rule,
    and the WhiteSpace and LineTerminator code points (TAB, LF, VT, FF,
    CR, SPACE, U+00A0, U+1680, U+2000 to U+200A, U+2028, U+2029,
    U+202F, U+205F, U+3000, U+FEFF).  The controllers are written
    against the two methods, and so is the model. *)
Class Engine : Type := mkEngine {
  toLowerCase : string -> string;
  trim : string -> string
}.

(** What ECMA-262 and the Unicode tables guarantee of the two methods
    and the properties rely on.  [trim] removes nothing from the empty
    string, and nothing from its own result, which neither starts nor
    ends with white space.  Lower-casing leaves every white space
    character as it is, maps no other character to white space, and
    the context it looks at (final sigma) is made of cased letters and
    never of white space at the ends; so the lower-cased text has its
    leading and trailing white space where the text has it, and
    trimming before lower-casing gives the same key as lower-casing
    alone. *)
Class EngineLaws (Js : Engine) : Prop := mkEngineLaws {
  trim_empty : trim "" = "";
  trim_idempotent : forall s, trim (trim s) = trim s;
  lowerTrim_trim :
    forall s, trim (toLowerCase (trim s)) = trim (toLowerCase s)
}.

(** The comparison key used all over the grocery controller:
    [s.toLowerCase().trim()]. *)
Definition lowerTrim {Js : Engine} (s : string) : string :=
  trim (toLowerCase s).

End JsString.

(** The engine on ASCII text, where it moves 'A'..'Z' to 'a'..'z' and
    strips TAB, LF, VT, FF, CR and SPACE: the instance the examples
    run on.  Every engine agrees with it on the strings of the
    examples. *)
Module AsciiText.

Definition lowerChar (c : ascii) : ascii :=
  let n := nat_of_ascii c in
  if (65 <=? n)%nat && (n <=? 90)%nat then ascii_of_nat (n + 32) else c.

Definition isWhiteSpace (c : ascii) : bool :=
  let n := nat_of_ascii c in
  ((9 <=? n)%nat && (n <=? 13)%nat) || (n =? 32)%nat.

Fixpoint lower (s : string) : string :=
  match s with
  | EmptyString => EmptyString
  | String c r => String (lowerChar c) (lower r)
  end.

Fixpoint trimStart (s : string) : string :=
  match s with
  | EmptyString => EmptyString
  | String c r => if isWhiteSpace c then trimStart r else s
  end.

Fixpoint trimEnd (s : string) : string :=
  match s with
  | EmptyString => EmptyString
  | String c r =>
      let r' := trimEnd r in
      if isWhiteSpace c && JsString.isEmpty r' then EmptyString
      else String c r'
  end.

Definition strip (s : string) : string := trimEnd (trimStart s).

Definition engine : JsString.Engine := JsString.mkEngine lower strip.

End AsciiText.

Import JsString.

(** ** Favorites: the data and the list operations *)

(** [export type Recipe = { id: number; name; details; image }]; the
    identifier is the integer the recipe API hands out. *)
Record Recipe : Type := mkRecipe {
  recipeId : Z;
  recipeName : string;
  recipeDetails : string;
  recipeImage : string
}.

(** What a state updater produces: the next list, and the list passed
    to the save routine when the updater calls it ([immediate] is the
    second argument of [saveGroceryList]). *)
Record Update (A : Type) : Type := mkUpdate {
  next : list A;
  saved : option (list A * bool)
}.

Arguments mkUpdate {A} _ _.

Definition unchanged {A} (l : list A) : Update A := mkUpdate l None.
Definition debounced {A} (l : list A) : Update A := mkUpdate l (Some (l, false)).
Definition immediately {A} (l : list A) : Update A := mkUpdate l (Some (l, true)).

Module Favorites.

(** [currentFavorites.some(fav => fav.id === id)] *)
Definition hasId (id : Z) (favs : list Recipe) : bool :=
  existsb (fun fav => recipeId fav =? id)%Z favs.

Definition addFavorite (recipe : Recipe) (currentFavorites : list Recipe)
  : Update Recipe :=
  if hasId (recipeId recipe) currentFavorites
  then unchanged currentFavorites
  else debounced (currentFavorites ++ [recipe]).

Definition removeFavorite (id : Z) (currentFavorites : list Recipe)
  : Update Recipe :=
  debounced (filter (fun r => negb (recipeId r =? id)%Z) currentFavorites).

Definition toggleFavorite (recipe : Recipe) (currentFavorites : list Recipe)
  : Update Recipe :=
  let isAlreadyFavorite := hasId (recipeId recipe) currentFavorites in
  if isAlreadyFavorite
  then debounced (filter (fun r => negb (recipeId r =? recipeId recipe)%Z)
                         currentFavorites)
  else debounced (currentFavorites ++ [recipe]).

(** [favorites.some((r) => r.id === id)] *)
Definition isFavorited (id : Z) (favorites : list Recipe) : bool :=
  existsb (fun r => recipeId r =? id)%Z favorites.

(** The merge of [syncFavorites]: start from a copy of the remote list
    and, when there are anonymous favorites, push every one whose id is
    not yet in the list being built. *)
Definition mergeFavorites (firestoreFavorites anonymousFavorites : list Recipe)
  : list Recipe :=
  if (0 <? List.length anonymousFavorites)%nat
  then
    fold_left
      (fun mergedFavorites localFav =>
         if existsb (fun fav => recipeId fav =? recipeId localFav)%Z mergedFavorites
         then mergedFavorites
         else mergedFavorites ++ [localFav])
      anonymousFavorites firestoreFavorites
  else firestoreFavorites.

(** The calls a UI can make on the favorites list. *)
Inductive FavoritesOp : Type :=
| AddFavorite (recipe : Recipe)
| RemoveFavorite (id : Z)
| ToggleFavorite (recipe : Recipe).

Definition favoritesStep (favs : list Recipe) (op : FavoritesOp) : list Recipe :=
  match op with
  | AddFavorite r => next (addFavorite r favs)
  | RemoveFavorite id => next (removeFavorite id favs)
  | ToggleFavorite r => next (toggleFavorite r favs)
  end.

Definition favoritesRun (ops : list FavoritesOp) (favs : list Recipe) : list Recipe :=
  fold_left favoritesStep ops favs.

End Favorites.

(** ** Dates as they reach [safeToDate] *)

(** A JavaScript number: NaN, an infinity, or a finite value (every
    finite double is a rational). *)
Inductive JsNumber : Type :=
| NumNaN
| NumInfinity (negative : bool)
| NumFinite (q : Q).

(** The run-time values an [addedAt] field can hold.  A [Date] carries
    its time value, [None] standing for NaN (an "Invalid Date").  An
    object is described by its [toDate] property: absent (or not
    callable), or a method that throws or returns a value. *)
Inductive JsValue : Type :=
| JDate (timeValue : option Z)
| JString (s : string)
| JNumber (n : JsNumber)
| JBoolean (b : bool)
| JNull
| JUndefined
| JObject (toDate : option ToDate)
with ToDate : Type :=
| ToDateThrows
| ToDateReturns (v : JsValue).

Module Dates.

(** [TimeClip] of ECMA-262: the time value of [new Date(number)]. *)
Definition timeClip (n : JsNumber) : option Z :=
  match n with
  | NumNaN => None
  | NumInfinity _ => None
  | NumFinite q =>
      if Qle_bool (inject_Z (-8640000000000000)) q
         && Qle_bool q (inject_Z 8640000000000000)
      then Some (Z.quot (Qnum q) (Zpos (Qden q)))
      else None
  end.

(** [isNaN(d.getTime())] *)
Definition isNaNTime (tv : option Z) : bool :=
  match tv with None => true | Some _ => false end.

Section SafeToDate.

(** [Date.parse]: the time value of [new Date(string)], NaN when
    the string is not recognised.  The accepted formats are left to
    the engine, so the parser is a parameter. *)
Variable parseDate : string -> option Z.

(** [safeToDate(dateValue)], with [now] the time value [new Date()]
    would read. *)
Definition safeToDate (now : Z) (dateValue : JsValue) : JsValue :=
  match dateValue with
  | JDate tv => if isNaNTime tv then JDate (Some now) else dateValue
  | JString s =>
      let date := parseDate s in
      if isNaNTime date then JDate (Some now) else JDate date
  | JNumber n =>
      let date := timeClip n in
      if isNaNTime date then JDate (Some now) else JDate date
  | JObject (Some ToDateThrows) => JDate (Some now)
  | JObject (Some (ToDateReturns v)) => v
  | JObject None => JDate (Some now)
  | JBoolean _ => JDate (Some now)
  | JNull => JDate (Some now)
  | JUndefined => JDate (Some now)
  end.

End SafeToDate.

(** A valid [Date]: a Date object whose time value is not NaN. *)
Definition isValidDate (v : JsValue) : bool :=
  match v with
  | JDate (Some _) => true
  | _ => false
  end.

End Dates.

Import Dates.

(** ** Grocery items: the data and the list operations *)

(** [export type GroceryItem = { id: string; name: string;
    checked: boolean; addedAt: Date }]; at run time [addedAt] holds
    whatever the store handed back. *)
Record GroceryItem : Type := mkItem {
  itemId : string;
  itemName : string;
  checked : bool;
  addedAt : JsValue
}.

Module Grocery.

Section WithEngine.

Context {Js : Engine}.

Definition setChecked (b : bool) (item : GroceryItem) : GroceryItem :=
  mkItem (itemId item) (itemName item) b (addedAt item).

Definition setAddedAt (d : JsValue) (item : GroceryItem) : GroceryItem :=
  mkItem (itemId item) (itemName item) (checked item) d.

(** [item.name.toLowerCase().trim()] *)
Definition key (item : GroceryItem) : string := lowerTrim (itemName item).

(** [item.name.toLowerCase().trim() === s.toLowerCase().trim()] *)
Definition sameName (s : string) (item : GroceryItem) : bool :=
  (key item =? lowerTrim s)%string.

(** [addGroceryItem(ingredient)]; [freshId] is the value of
    [Date.now().toString() + Math.random().toString(36).substr(2, 9)]
    and [now] the time value of [new Date()]. *)
Definition addGroceryItem (freshId : string) (now : Z) (ingredient : string)
           (currentItems : list GroceryItem) : Update GroceryItem :=
  if isEmpty ingredient || isEmpty (trim ingredient)
  then unchanged currentItems
  else
    match find (sameName ingredient) currentItems with
    | Some existingItem =>
        if checked existingItem
        then debounced
               (map (fun item =>
                       if (itemId item =? itemId existingItem)%string
                       then setChecked false item else item)
                    currentItems)
        else unchanged currentItems
    | None =>
        let newItem := mkItem freshId (trim ingredient) false (JDate (Some now)) in
        debounced (currentItems ++ [newItem])
    end.

Definition removeGroceryItem (id : string) (currentItems : list GroceryItem)
  : Update GroceryItem :=
  debounced (filter (fun item => negb (itemId item =? id)%string) currentItems).

Definition removeGroceryItemByName (name : string)
           (currentItems : list GroceryItem) : Update GroceryItem :=
  debounced (filter (fun item => negb (sameName name item)) currentItems).

Definition toggleGroceryItem (id : string) (currentItems : list GroceryItem)
  : Update GroceryItem :=
  debounced
    (map (fun item =>
            if (itemId item =? id)%string
            then setChecked (negb (checked item)) item else item)
         currentItems).

Definition clearCheckedItems (currentItems : list GroceryItem)
  : Update GroceryItem :=
  immediately (filter (fun item => negb (checked item)) currentItems).

Definition clearAllItems (currentItems : list GroceryItem)
  : Update GroceryItem :=
  immediately [].

(** The merge of [syncGroceryList]: as for favorites, with the
    lowercased trimmed name as identity. *)
Definition mergeGrocery (firestoreGrocery anonymousGrocery : list GroceryItem)
  : list GroceryItem :=
  if (0 <? List.length anonymousGrocery)%nat
  then
    fold_left
      (fun mergedGrocery localItem =>
         if existsb (fun item => (key item =? key localItem)%string) mergedGrocery
         then mergedGrocery
         else mergedGrocery ++ [localItem])
      anonymousGrocery firestoreGrocery
  else firestoreGrocery.

(** The calls a UI can make on the grocery list. *)
Inductive GroceryOp : Type :=
| AddItem (freshId : string) (now : Z) (ingredient : string)
| RemoveItem (id : string)
| RemoveItemByName (name : string)
| ToggleItem (id : string)
| ClearChecked
| ClearAll.

Definition groceryStep (items : list GroceryItem) (op : GroceryOp) : list GroceryItem :=
  match op with
  | AddItem freshId now ingredient => next (addGroceryItem freshId now ingredient items)
  | RemoveItem id => next (removeGroceryItem id items)
  | RemoveItemByName name => next (removeGroceryItemByName name items)
  | ToggleItem id => next (toggleGroceryItem id items)
  | ClearChecked => next (clearCheckedItems items)
  | ClearAll => next (clearAllItems items)
  end.

Definition groceryRun (ops : list GroceryOp) (items : list GroceryItem) : list GroceryItem :=
  fold_left groceryStep ops items.

End WithEngine.

End Grocery.

(** ** The world a controller runs in *)

(** The state of one sync controller together with the collaborators
    it talks to.  [Item] is [Recipe] for the favorites controller and
    [GroceryItem] for the grocery controller; [remote uid] is the view
    of the document [users/uid] restricted to the controller's field:
    [None] when the document does not exist, [Some None] when it exists
    without a (truthy) field, [Some (Some l)] when the field holds [l]. *)
Record World (Item : Type) : Type := mkWorld {
  (* React state and refs *)
  items : list Item;
  loading : bool;
  currentUserIdRef : option string;
  isUpdatingFromFirestore : bool;
  isInitialized : bool;
  listener : option string;          (* the uid the live subscription watches *)
  pendingSave : option (list Item);  (* saveTimeoutRef: the debounced save *)
  flagResets : nat;                  (* scheduled [setTimeout] resets of the flag *)
  (* collaborators *)
  currentUser : option string;       (* auth.currentUser?.uid *)
  remote : string -> option (option (list Item));
  anonymous : option (list Item);    (* AsyncStorage under the anonymous key *)
  alerts : list string;              (* titles passed to Alert.alert *)
  (* oracles *)
  ioCount : nat;
  ioFails : nat -> bool;             (* does the n-th I/O call reject? *)
  clockReads : nat;
  clock : nat -> Z                   (* what the n-th clock reading returns *)
}.

Section WorldUpdates.

Context {Item : Type}.
Implicit Type w : World Item.

Definition setItems (l : list Item) w : World Item :=
  mkWorld l (loading w) (currentUserIdRef w) (isUpdatingFromFirestore w)
          (isInitialized w) (listener w) (pendingSave w) (flagResets w)
          (currentUser w) (remote w) (anonymous w) (alerts w)
          (ioCount w) (ioFails w) (clockReads w) (clock w).

Definition setLoading (b : bool) w : World Item :=
  mkWorld (items w) b (currentUserIdRef w) (isUpdatingFromFirestore w)
          (isInitialized w) (listener w) (pendingSave w) (flagResets w)
          (currentUser w) (remote w) (anonymous w) (alerts w)
          (ioCount w) (ioFails w) (clockReads w) (clock w).

Definition setCurrentUserIdRef (u : option string) w : World Item :=
  mkWorld (items w) (loading w) u (isUpdatingFromFirestore w)
          (isInitialized w) (listener w) (pendingSave w) (flagResets w)
          (currentUser w) (remote w) (anonymous w) (alerts w)
          (ioCount w) (ioFails w) (clockReads w) (clock w).

Definition setUpdating (b : bool) w : World Item :=
  mkWorld (items w) (loading w) (currentUserIdRef w) b
          (isInitialized w) (listener w) (pendingSave w) (flagResets w)
          (currentUser w) (remote w) (anonymous w) (alerts w)
          (ioCount w) (ioFails w) (clockReads w) (clock w).

Definition setInitialized (b : bool) w : World Item :=
  mkWorld (items w) (loading w) (currentUserIdRef w) (isUpdatingFromFirestore w)
          b (listener w) (pendingSave w) (flagResets w)
          (currentUser w) (remote w) (anonymous w) (alerts w)
          (ioCount w) (ioFails w) (clockReads w) (clock w).

Definition setListener (u : option string) w : World Item :=
  mkWorld (items w) (loading w) (currentUserIdRef w) (isUpdatingFromFirestore w)
          (isInitialized w) u (pendingSave w) (flagResets w)
          (currentUser w) (remote w) (anonymous w) (alerts w)
          (ioCount w) (ioFails w) (clockReads w) (clock w).

Definition setPendingSave (p : option (list Item)) w : World Item :=
  mkWorld (items w) (loading w) (currentUserIdRef w) (isUpdatingFromFirestore w)
          (isInitialized w) (listener w) p (flagResets w)
          (currentUser w) (remote w) (anonymous w) (alerts w)
          (ioCount w) (ioFails w) (clockReads w) (clock w).

Definition setFlagResets (n : nat) w : World Item :=
  mkWorld (items w) (loading w) (currentUserIdRef w) (isUpdatingFromFirestore w)
          (isInitialized w) (listener w) (pendingSave w) n
          (currentUser w) (remote w) (anonymous w) (alerts w)
          (ioCount w) (ioFails w) (clockReads w) (clock w).

Definition setCurrentUser (u : option string) w : World Item :=
  mkWorld (items w) (loading w) (currentUserIdRef w) (isUpdatingFromFirestore w)
          (isInitialized w) (listener w) (pendingSave w) (flagResets w)
          u (remote w) (anonymous w) (alerts w)
          (ioCount w) (ioFails w) (clockReads w) (clock w).

Definition setRemote (r : string -> option (option (list Item))) w : World Item :=
  mkWorld (items w) (loading w) (currentUserIdRef w) (isUpdatingFromFirestore w)
          (isInitialized w) (listener w) (pendingSave w) (flagResets w)
          (currentUser w) r (anonymous w) (alerts w)
          (ioCount w) (ioFails w) (clockReads w) (clock w).

Definition setAnonymous (a : option (list Item)) w : World Item :=
  mkWorld (items w) (loading w) (currentUserIdRef w) (isUpdatingFromFirestore w)
          (isInitialized w) (listener w) (pendingSave w) (flagResets w)
          (currentUser w) (remote w) a (alerts w)
          (ioCount w) (ioFails w) (clockReads w) (clock w).

Definition pushAlert (title : string) w : World Item :=
  mkWorld (items w) (loading w) (currentUserIdRef w) (isUpdatingFromFirestore w)
          (isInitialized w) (listener w) (pendingSave w) (flagResets w)
          (currentUser w) (remote w) (anonymous w) (alerts w ++ [title])
          (ioCount w) (ioFails w) (clockReads w) (clock w).

Definition setIoCount (n : nat) w : World Item :=
  mkWorld (items w) (loading w) (currentUserIdRef w) (isUpdatingFromFirestore w)
          (isInitialized w) (listener w) (pendingSave w) (flagResets w)
          (currentUser w) (remote w) (anonymous w) (alerts w)
          n (ioFails w) (clockReads w) (clock w).

Definition setClockReads (n : nat) w : World Item :=
  mkWorld (items w) (loading w) (currentUserIdRef w) (isUpdatingFromFirestore w)
          (isInitialized w) (listener w) (pendingSave w) (flagResets w)
          (currentUser w) (remote w) (anonymous w) (alerts w)
          (ioCount w) (ioFails w) n (clock w).

(** The field of the document [users/uid], [None] when the document
    is missing or has no such field. *)
Definition remoteField w (uid : string) : option (list Item) :=
  match remote w uid with
  | Some (Some l) => Some l
  | _ => None
  end.

(** What a successful read of the anonymous key parses to. *)
Definition anonymousItems w : list Item :=
  match anonymous w with
  | Some l => l
  | None => []
  end.

End WorldUpdates.

(** ** Asynchronous code: a state transformer that returns or throws *)

Inductive Outcome (A : Type) : Type :=
| Returned (a : A)
| Thrown.

Arguments Thrown {A}.

Definition Async (W A : Type) : Type := W -> Outcome A * W.

Section AsyncMonad.

Context {W : Type}.

Definition ret {A} (a : A) : Async W A := fun w => (Returned a, w).

Definition bind {A B} (m : Async W A) (f : A -> Async W B) : Async W B :=
  fun w =>
    match m w with
    | (Returned a, w') => f a w'
    | (Thrown, w') => (Thrown, w')
    end.

Definition throw {A} : Async W A := fun w => (Thrown, w).

(** [modify f]: a synchronous effect that cannot throw. *)
Definition modify (f : W -> W) : Async W unit := fun w => (Returned tt, f w).

Definition gets {A} (f : W -> A) : Async W A := fun w => (Returned (f w), w).

(** [try { body } catch { handler }] *)
Definition tryCatch {A} (body handler : Async W A) : Async W A :=
  fun w =>
    match body w with
    | (Returned a, w') => (Returned a, w')
    | (Thrown, w') => handler w'
    end.

(** [try { body } finally { cleanup }]: the cleanup runs either way;
    the outcome of the body stands unless the cleanup throws. *)
Definition tryFinally {A} (body : Async W A) (cleanup : Async W unit)
  : Async W A :=
  fun w =>
    match body w with
    | (r, w') =>
        match cleanup w' with
        | (Returned _, w'') => (r, w'')
        | (Thrown, w'') => (Thrown, w'')
        end
    end.

Definition when (b : bool) (m : Async W unit) : Async W unit :=
  if b then m else ret tt.

End AsyncMonad.

Declare Scope async_scope.
Delimit Scope async_scope with async.
Notation "x <- m ;; k" := (bind m (fun x => k))
  (at level 61, m at next level, right associativity) : async_scope.
Notation "m ;; k" := (bind m (fun _ => k))
  (at level 61, right associativity) : async_scope.
Open Scope async_scope.

(** The world after running a handler, and whether it threw. *)
Definition exec {W A} (m : Async W A) (w : W) : W := snd (m w).

Definition threw {W A} (m : Async W A) (w : W) : bool :=
  match fst (m w) with Thrown => true | Returned _ => false end.

(** ** The collaborators: Firestore, AsyncStorage, alerts, timers *)

Section Collaborators.

Context {Item : Type}.

(** One awaited call across the process boundary: it consumes one
    answer of the failure oracle and rejects when the oracle says so. *)
Definition io {A} (effect : World Item -> A * World Item) : Async (World Item) A :=
  fun w =>
    let w1 := setIoCount (S (ioCount w)) w in
    if ioFails w (ioCount w)
    then (Thrown, w1)
    else let (a, w2) := effect w1 in (Returned a, w2).

(** [getDoc(doc(db, 'users', uid))], reduced to the controller's field. *)
Definition getDoc (uid : string) : Async (World Item) (option (option (list Item))) :=
  io (fun w => (remote w uid, w)).

(** [setDoc(doc(db, 'users', uid), { field: l }, { merge: true })] *)
Definition setDoc (uid : string) (l : list Item) : Async (World Item) unit :=
  io (fun w =>
        (tt, setRemote (fun u => if (u =? uid)%string
                                 then Some (Some l) else remote w u) w)).

Definition getItem : Async (World Item) (option (list Item)) :=
  io (fun w => (anonymous w, w)).

Definition setItem (l : list Item) : Async (World Item) unit :=
  io (fun w => (tt, setAnonymous (Some l) w)).

Definition removeItem : Async (World Item) unit :=
  io (fun w => (tt, setAnonymous None w)).

Definition alert (title : string) : Async (World Item) unit := modify (pushAlert title).

(** [setTimeout(() => { isUpdatingFromFirestore.current = false }, 100)] *)
Definition scheduleFlagReset : Async (World Item) unit :=
  modify (fun w => setFlagResets (S (flagResets w)) w).

(** One such timer firing. *)
Definition fireFlagReset : Async (World Item) unit :=
  modify (fun w => setFlagResets (pred (flagResets w)) (setUpdating false w)).

(** [docSnap.exists() && docSnap.data().field] *)
Definition fieldOf (docSnap : option (option (list Item))) : option (list Item) :=
  match docSnap with
  | Some (Some l) => Some l
  | _ => None
  end.

(** [auth.currentUser && auth.currentUser.uid === uid] *)
Definition signedInAs (uid : string) (w : World Item) : bool :=
  match currentUser w with
  | Some u => (u =? uid)%string
  | None => false
  end.

End Collaborators.


(** A user id that passes a truthiness test: present and not the empty
    string. *)
Definition truthyId (u : option string) : bool :=
  match u with
  | Some s => negb (isEmpty s)
  | None => false
  end.

Definition isSome {A} (o : option A) : bool :=
  match o with Some _ => true | None => false end.

(** ** The favorites controller *)

Module FavoritesController.

Import Favorites.

Definition loadAnonymousFavorites : Async (World Recipe) (list Recipe) :=
  tryCatch
    (storedFavorites <- getItem ;;
     match storedFavorites with
     | Some parsed => ret parsed
     | None => ret []
     end)
    (ret []).

(** The [onSnapshot] callback installed by [setupFavoritesListener(uid)]. *)
Definition onFavoritesSnapshot (uid : string) (docSnap : option (option (list Recipe)))
  : Async (World Recipe) unit :=
  stillSignedIn <- gets (signedInAs uid) ;;
  if negb stillSignedIn then ret tt
  else
    updating <- gets (@isUpdatingFromFirestore Recipe) ;;
    if updating then ret tt
    else
      (match fieldOf docSnap with
       | Some firestoreFavorites => modify (setItems firestoreFavorites)
       | None =>
           tryFinally
             (tryCatch
                (anonymousFavorites <- loadAnonymousFavorites ;;
                 modify (setUpdating true) ;;
                 setDoc uid anonymousFavorites ;;
                 modify (setItems anonymousFavorites) ;;
                 when (0 <? List.length anonymousFavorites)%nat removeItem)
                (tryCatch (setDoc uid []) (ret tt) ;;
                 modify (setItems [])))
             scheduleFlagReset
       end) ;;
      modify (setLoading false).

(** [setupFavoritesListener(uid)]: the uid the new subscription
    watches, or nothing when the guard at its top returns the no-op. *)
Definition setupFavoritesListener (uid : string)
  : Async (World Recipe) (option string) :=
  user <- gets (@currentUser Recipe) ;;
  if isEmpty uid || negb (isSome user) then ret None else ret (Some uid).

(** [saveFavorites(updatedFavorites)]: replace the pending timer. *)
Definition saveFavorites (updatedFavorites : list Recipe)
  : Async (World Recipe) unit :=
  modify (setPendingSave (Some updatedFavorites)).

(** The body of the 300 ms timer set by [saveFavorites]. *)
Definition performSave (updatedFavorites : list Recipe)
  : Async (World Recipe) unit :=
  tryCatch
    (currentUserId <- gets (@currentUserIdRef Recipe) ;;
     user <- gets (@currentUser Recipe) ;;
     updating <- gets (@isUpdatingFromFirestore Recipe) ;;
     if truthyId currentUserId && isSome user && negb updating
     then
       modify (setUpdating true) ;;
       setDoc (match currentUserId with Some u => u | None => "" end)
              updatedFavorites ;;
       scheduleFlagReset
     else if negb (truthyId currentUserId)
     then setItem updatedFavorites
     else ret tt)
    (modify (setUpdating false) ;;
     user <- gets (@currentUser Recipe) ;;
     when (isSome user) (alert "Error Saving Favorites")).

(** The pending timer, if any, fires. *)
Definition fireSaveTimer : Async (World Recipe) unit :=
  pending <- gets (@pendingSave Recipe) ;;
  match pending with
  | Some updatedFavorites =>
      modify (setPendingSave None) ;; performSave updatedFavorites
  | None => ret tt
  end.

(** A UI call: the updater is applied to the state and its save, if
    any, is scheduled. *)
Definition dispatch (op : FavoritesOp) : Async (World Recipe) unit :=
  current <- gets (@items Recipe) ;;
  let u := match op with
           | AddFavorite r => addFavorite r current
           | RemoveFavorite id => removeFavorite id current
           | ToggleFavorite r => toggleFavorite r current
           end in
  modify (setItems (next u)) ;;
  match saved u with
  | Some (l, _) => saveFavorites l
  | None => ret tt
  end.

(** The [onAuthStateChanged] callback. *)
Definition onFavoritesAuthStateChanged (user : option string)
  : Async (World Recipe) unit :=
  modify (setListener None) ;;
  modify (setPendingSave None) ;;
  modify (setUpdating false) ;;
  match user with
  | Some uid =>
      modify (setCurrentUserIdRef (Some uid)) ;;
      unsubscribeFirestore <- setupFavoritesListener uid ;;
      modify (setListener unsubscribeFirestore)
  | None =>
      modify (setCurrentUserIdRef None) ;;
      tryCatch
        (anonymousFavorites <- loadAnonymousFavorites ;;
         modify (setItems anonymousFavorites))
        (modify (setItems [])) ;;
      modify (setLoading false)
  end.

(** [syncFavorites()] *)
Definition syncFavorites : Async (World Recipe) unit :=
  user <- gets (@currentUser Recipe) ;;
  match user with
  | None => ret tt
  | Some currentUserId =>
      if isEmpty currentUserId then ret tt
      else
        tryFinally
          (tryCatch
             (modify (setLoading true) ;;
              docSnap <- getDoc currentUserId ;;
              let firestoreFavorites :=
                match fieldOf docSnap with Some l => l | None => [] end in
              anonymousFavorites <- loadAnonymousFavorites ;;
              if (List.length anonymousFavorites =? 0)%nat
                 && (0 <? List.length firestoreFavorites)%nat
              then
                modify (setItems firestoreFavorites) ;;
                modify (setLoading false)
              else
                let mergedFavorites :=
                  mergeFavorites firestoreFavorites anonymousFavorites in
                modify (setItems mergedFavorites) ;;
                modify (setUpdating true) ;;
                setDoc currentUserId mergedFavorites ;;
                scheduleFlagReset ;;
                when (0 <? List.length anonymousFavorites)%nat
                     (removeItem ;; alert "Success"))
             (modify (setUpdating false) ;;
              alert "Sync Error"))
          (modify (setLoading false))
  end.

(** What the hosted services do to the controller: the auth service
    switches the session and notifies; the document store pushes the
    current document to the live subscription. *)
Definition favoritesSessionChanges (user : option string) : Async (World Recipe) unit :=
  modify (setCurrentUser user) ;; onFavoritesAuthStateChanged user.

Definition deliverFavoritesSnapshot : Async (World Recipe) unit :=
  watching <- gets (@listener Recipe) ;;
  match watching with
  | Some uid =>
      docSnap <- gets (fun w => remote w uid) ;;
      onFavoritesSnapshot uid docSnap
  | None => ret tt
  end.

End FavoritesController.


(** ** The grocery controller *)

Module GroceryController.

Import Grocery.

Section WithParser.

Context {Js : Engine}.

Variable parseDate : string -> option Z.

(** [list.map(item => ({ ...item, addedAt: safeToDate(item.addedAt) }))],
    the k-th clock reading serving the call that starts at reading [k]. *)
Fixpoint normalizeFrom (clk : nat -> Z) (k : nat) (l : list GroceryItem)
  : list GroceryItem :=
  match l with
  | [] => []
  | item :: rest =>
      setAddedAt (safeToDate parseDate (clk k) (addedAt item)) item
      :: normalizeFrom clk (S k) rest
  end.

Definition withDates (l : list GroceryItem)
  : Async (World GroceryItem) (list GroceryItem) :=
  fun w =>
    (Returned (normalizeFrom (clock w) (clockReads w) l),
     setClockReads (clockReads w + List.length l) w).

Definition loadAnonymousGroceryList
  : Async (World GroceryItem) (list GroceryItem) :=
  tryCatch
    (storedGrocery <- getItem ;;
     match storedGrocery with
     | Some parsedItems => withDates parsedItems
     | None => ret []
     end)
    (ret []).

(** The [onSnapshot] callback installed by [setupGroceryListener(uid)]. *)
Definition onGrocerySnapshot (uid : string)
           (docSnap : option (option (list GroceryItem)))
  : Async (World GroceryItem) unit :=
  updating <- gets (@isUpdatingFromFirestore GroceryItem) ;;
  if updating then ret tt
  else
    stillSignedIn <- gets (signedInAs uid) ;;
    if negb stillSignedIn then ret tt
    else
      match fieldOf docSnap with
      | Some firestoreGrocery =>
          itemsWithDates <- withDates firestoreGrocery ;;
          modify (setItems itemsWithDates) ;;
          modify (setLoading false)
      | None =>
          initialized <- gets (@isInitialized GroceryItem) ;;
          if negb initialized
          then
            modify (setInitialized true) ;;
            tryCatch
              (anonymousItems <- loadAnonymousGroceryList ;;
               modify (setUpdating true) ;;
               tryFinally
                 (setDoc uid anonymousItems ;;
                  modify (setItems anonymousItems) ;;
                  when (0 <? List.length anonymousItems)%nat removeItem)
                 scheduleFlagReset)
              (modify (setUpdating true) ;;
               tryFinally
                 (tryCatch
                    (setDoc uid [] ;; modify (setItems []))
                    (ret tt))
                 scheduleFlagReset) ;;
            modify (setLoading false)
          else ret tt
      end.

(** [setupGroceryListener(uid)]: [null] for an empty uid. *)
Definition setupGroceryListener (uid : string) : option string :=
  if isEmpty uid then None else Some uid.

(** [cleanup()] *)
Definition cleanup : Async (World GroceryItem) unit :=
  modify (setListener None) ;;
  modify (setPendingSave None) ;;
  modify (setUpdating false) ;;
  modify (setInitialized false).

(** The [onAuthStateChanged] callback. *)
Definition onGroceryAuthStateChanged (user : option string)
  : Async (World GroceryItem) unit :=
  cleanup ;;
  match user with
  | Some uid =>
      modify (setCurrentUserIdRef (Some uid)) ;;
      match setupGroceryListener uid with
      | Some unsubscribeFirestore =>
          modify (setListener (Some unsubscribeFirestore))
      | None => ret tt
      end
  | None =>
      modify (setCurrentUserIdRef None) ;;
      anonymousItems <- loadAnonymousGroceryList ;;
      modify (setItems anonymousItems) ;;
      modify (setLoading false)
  end.

(** [syncGroceryList()] *)
Definition syncGroceryList : Async (World GroceryItem) unit :=
  user <- gets (@currentUser GroceryItem) ;;
  match user with
  | None => ret tt
  | Some currentUserId =>
      if isEmpty currentUserId then ret tt
      else
        tryFinally
          (tryCatch
             (modify (setLoading true) ;;
              docSnap <- getDoc currentUserId ;;
              firestoreGrocery <-
                match fieldOf docSnap with
                | Some groceryData => withDates groceryData
                | None => ret []
                end ;;
              anonymousGrocery <- loadAnonymousGroceryList ;;
              if (List.length anonymousGrocery =? 0)%nat
                 && (0 <? List.length firestoreGrocery)%nat
              then
                modify (setItems firestoreGrocery) ;;
                modify (setLoading false)
              else
                let mergedGrocery :=
                  mergeGrocery firestoreGrocery anonymousGrocery in
                modify (setItems mergedGrocery) ;;
                modify (setUpdating true) ;;
                tryFinally (setDoc currentUserId mergedGrocery)
                           scheduleFlagReset ;;
                when (0 <? List.length anonymousGrocery)%nat
                     (removeItem ;; alert "Success"))
             (modify (setUpdating false) ;;
              alert "Sync Error"))
          (modify (setLoading false))
  end.

Definition grocerySessionChanges (user : option string)
  : Async (World GroceryItem) unit :=
  modify (setCurrentUser user) ;; onGroceryAuthStateChanged user.

Definition deliverGrocerySnapshot : Async (World GroceryItem) unit :=
  watching <- gets (@listener GroceryItem) ;;
  match watching with
  | Some uid =>
      docSnap <- gets (fun w => remote w uid) ;;
      onGrocerySnapshot uid docSnap
  | None => ret tt
  end.

End WithParser.

End GroceryController.

(** ** The screens that call the controllers *)

(** The handlers of the grocery screen, of the recipe search screen
    and of the library screen that decide which list operation to
    call.  A screen reads the list of its last render; no update is
    taken to happen between that render and the call, so the list the
    handler reads is the list the updater receives. *)
Module Screens.

Section WithEngine.

Context {Js : Engine}.

Import Favorites Grocery.

(** [isIngredientInGrocery(ingredientName)] of the search and library
    screens: an unchecked item carries the name. *)
Definition isIngredientInGrocery (ingredientName : string)
           (groceryItems : list GroceryItem) : bool :=
  existsb (fun item =>
             (lowerTrim (itemName item) =? lowerTrim ingredientName)%string
             && negb (checked item))
          groceryItems.

(** [handleToggleGroceryItem(ingredientName)] of the same screens. *)
Definition handleToggleGroceryItem (freshId : string) (now : Z)
           (ingredientName : string) (groceryItems : list GroceryItem)
  : Update GroceryItem :=
  let isInGrocery := isIngredientInGrocery ingredientName groceryItems in
  if isInGrocery
  then removeGroceryItemByName ingredientName groceryItems
  else addGroceryItem freshId now ingredientName groceryItems.

(** The recipe a screen has open, as the recipe API returned it:
    [{ id; title; image; instructions?; ... }]. *)
Record SelectedRecipe : Type := mkSelected {
  selectedId : Z;
  selectedTitle : string;
  selectedImage : string;
  selectedInstructions : option string
}.

(** [instructions || fallback]: the fallback replaces a missing and an
    empty text. *)
Definition orElse (instructions : option string) (fallback : string)
  : string :=
  match instructions with
  | Some text => if isEmpty text then fallback else text
  | None => fallback
  end.

(** [saveRecipeToFavorites()] of the search screen: what its heart
    button runs, at once for a logged-in user and after "Continue
    without login" otherwise. *)
Definition saveRecipeToFavorites (selectedRecipe : option SelectedRecipe)
           (favorites : list Recipe) : Update Recipe :=
  match selectedRecipe with
  | None => unchanged favorites
  | Some selected =>
      if isFavorited (selectedId selected) favorites
      then removeFavorite (selectedId selected) favorites
      else addFavorite
             (mkRecipe (selectedId selected) (selectedTitle selected)
                       (orElse (selectedInstructions selected) "")
                       (selectedImage selected))
             favorites
  end.

(** [handleFavoriteToggle()] of the library screen. *)
Definition handleFavoriteToggle (selectedRecipe : option SelectedRecipe)
           (favorites : list Recipe) : Update Recipe :=
  match selectedRecipe with
  | None => unchanged favorites
  | Some selected =>
      let basicRecipe :=
        mkRecipe (selectedId selected) (selectedTitle selected)
                 (orElse (selectedInstructions selected)
                         "No details provided.")
                 (selectedImage selected) in
      toggleFavorite basicRecipe favorites
  end.

(** [handleAddIngredient()] of the grocery screen, [newIngredient]
    being the text typed. *)
Definition handleAddIngredient (freshId : string) (now : Z)
           (newIngredient : string) (groceryItems : list GroceryItem)
  : Update GroceryItem :=
  if negb (isEmpty (trim newIngredient))
  then addGroceryItem freshId now (trim newIngredient) groceryItems
  else unchanged groceryItems.

(** The statistics of the grocery screen. *)
Definition checkedCount (groceryItems : list GroceryItem) : nat :=
  List.length (filter (fun item => checked item) groceryItems).

Definition uncheckedCount (groceryItems : list GroceryItem) : nat :=
  List.length (filter (fun item => negb (checked item)) groceryItems).

(** [handleClearChecked()] of the grocery screen: the confirmation is
    asked only when something is checked; [confirmed] is the button the
    user then presses. *)
Definition handleClearChecked (confirmed : bool)
           (groceryItems : list GroceryItem) : Update GroceryItem :=
  let checkedItems := filter (fun item => checked item) groceryItems in
  if (0 <? List.length checkedItems)%nat
  then if confirmed then clearCheckedItems groceryItems
       else unchanged groceryItems
  else unchanged groceryItems.

(** [handleClearAll()] of the grocery screen. *)
Definition handleClearAll (confirmed : bool)
           (groceryItems : list GroceryItem) : Update GroceryItem :=
  if (0 <? List.length groceryItems)%nat
  then if confirmed then clearAllItems groceryItems
       else unchanged groceryItems
  else unchanged groceryItems.

End WithEngine.

End Screens.

(** ** Saving the grocery list *)

Module GroceryPersistence.

Import Grocery GroceryController.

Section WithDateFormat.

Context {Js : Engine}.

Variable parseDate : string -> option Z.

(** [Date.prototype.toISOString] on a valid time value. *)
Variable toISOString : Z -> string.

(** What [JSON.parse(JSON.stringify(o))] gives for an object [o] with
    the given [toDate] property: for a plain object or a document store
    timestamp, an object without methods. *)
Variable objectThroughJSON : option ToDate -> JsValue.

(** An [addedAt] value after [JSON.stringify] and [JSON.parse]: a valid
    Date becomes its ISO string, an invalid one [null], as do the
    numbers JSON cannot write. *)
Definition throughJSON (v : JsValue) : JsValue :=
  match v with
  | JDate (Some t) => JString (toISOString t)
  | JDate None => JNull
  | JString s => JString s
  | JNumber (NumFinite q) => JNumber (NumFinite q)
  | JNumber NumNaN => JNull
  | JNumber (NumInfinity _) => JNull
  | JBoolean b => JBoolean b
  | JNull => JNull
  | JUndefined => JUndefined
  | JObject o => objectThroughJSON o
  end.

(** The list as it reads back from
    [AsyncStorage.setItem(key, JSON.stringify(list))]. *)
Definition stringified (l : list GroceryItem) : list GroceryItem :=
  map (fun item => setAddedAt (throughJSON (addedAt item)) item) l.

(** [performSave] inside [saveGroceryList], for the validated list the
    closure holds. *)
Definition performGrocerySave (validatedGrocery : list GroceryItem)
  : Async (World GroceryItem) unit :=
  tryCatch
    (currentUserId <- gets (@currentUserIdRef GroceryItem) ;;
     user <- gets (@currentUser GroceryItem) ;;
     updating <- gets (@isUpdatingFromFirestore GroceryItem) ;;
     if truthyId currentUserId && isSome user && negb updating
     then
       modify (setUpdating true) ;;
       tryFinally
         (setDoc (match currentUserId with Some u => u | None => "" end)
                 validatedGrocery)
         scheduleFlagReset
     else if negb (truthyId currentUserId)
     then setItem (stringified validatedGrocery)
     else ret tt)
    (modify (setUpdating false) ;;
     user <- gets (@currentUser GroceryItem) ;;
     when (isSome user) (alert "Save Error")).

(** [saveGroceryList(updatedGrocery, immediate)] *)
Definition saveGroceryList (updatedGrocery : list GroceryItem)
           (immediate : bool) : Async (World GroceryItem) unit :=
  modify (setPendingSave None) ;;
  validatedGrocery <- withDates parseDate updatedGrocery ;;
  if immediate
  then performGrocerySave validatedGrocery
  else modify (setPendingSave (Some validatedGrocery)).

(** The pending 300 ms timer, if any, fires. *)
Definition fireGrocerySaveTimer : Async (World GroceryItem) unit :=
  pending <- gets (@pendingSave GroceryItem) ;;
  match pending with
  | Some validatedGrocery =>
      modify (setPendingSave None) ;; performGrocerySave validatedGrocery
  | None => ret tt
  end.

(** A call of the UI on the grocery list: the updater is applied, its
    save, if any, is made or scheduled; [clearCheckedItems] also sets
    its own 500 ms reset of the flag. *)
Definition dispatchGrocery (op : GroceryOp) : Async (World GroceryItem) unit :=
  current <- gets (@items GroceryItem) ;;
  let u := match op with
           | AddItem freshId now ingredient =>
               addGroceryItem freshId now ingredient current
           | RemoveItem id => removeGroceryItem id current
           | RemoveItemByName name => removeGroceryItemByName name current
           | ToggleItem id => toggleGroceryItem id current
           | ClearChecked => clearCheckedItems current
           | ClearAll => clearAllItems current
           end in
  modify (setItems (next u)) ;;
  match saved u with
  | Some (l, immediate) => saveGroceryList l immediate
  | None => ret tt
  end ;;
  match op with
  | ClearChecked => scheduleFlagReset
  | _ => ret tt
  end.

End WithDateFormat.

End GroceryPersistence.

(** ** Bursts of calls *)

Module Bursts.

Import Favorites FavoritesController.

(** Several calls of the UI in a row, no timer firing in between. *)
Fixpoint favoritesBurst (ops : list FavoritesOp) : Async (World Recipe) unit :=
  match ops with
  | [] => ret tt
  | op :: rest => dispatch op ;; favoritesBurst rest
  end.

End Bursts.


(** * The vocabulary of the properties *)

(** ** Lists and items *)

(** [RemovedWhere P l l']: [l'] is [l] with exactly the elements that
    satisfy [P] taken out, the others kept as they are and in order. *)
Inductive RemovedWhere {A} (P : A -> Prop) : list A -> list A -> Prop :=
| RemovedNil : RemovedWhere P [] []
| RemovedDrop x l l' : P x -> RemovedWhere P l l' -> RemovedWhere P (x :: l) l'
| RemovedKeep x l l' :
    ~ P x -> RemovedWhere P l l' -> RemovedWhere P (x :: l) (x :: l').

(** What reactivating [e] in [before] means for the list [after]: the
    length is kept, the position of [e] holds [e] unchecked, and every
    other position holds what it held. *)
Definition Reactivates (e : GroceryItem) (before after : list GroceryItem) : Prop :=
  List.length after = List.length before
  /\ forall i old,
      nth_error before i = Some old ->
      (old = e -> nth_error after i = Some (Grocery.setChecked false e))
      /\ (old <> e -> nth_error after i = Some old).

(** ** Dates *)

(** Inputs on which the conversion cannot succeed: an invalid Date, a
    string or a number that yields no time value, a value that is
    neither a Date, a string, a number nor an object with a [toDate]
    method, and an object whose [toDate] throws. *)
Definition unparseable (parseDate : string -> option Z) (v : JsValue) : bool :=
  match v with
  | JDate tv => isNaNTime tv
  | JString s => isNaNTime (parseDate s)
  | JNumber n => isNaNTime (timeClip n)
  | JObject (Some (ToDateReturns _)) => false
  | JObject (Some ToDateThrows) => true
  | JObject None => true
  | JBoolean _ => true
  | JNull => true
  | JUndefined => true
  end.

(** What [toDate()], when there is such a method and it returns, hands
    back is a valid Date. *)
Definition toDateReturnsValid (v : JsValue) : bool :=
  match v with
  | JObject (Some (ToDateReturns r)) => isValidDate r
  | _ => true
  end.

(** ** Union by identity *)

Section UnionByKey.

Context {A K : Type}.
Variable key : A -> K.
Variable eqb : K -> K -> bool.

(** One turn of the [forEach] loop of a merge. *)
Definition pushNew (merged : list A) (a : A) : list A :=
  if existsb (fun m => eqb (key m) (key a)) merged
  then merged
  else merged ++ [a].

Definition unionBy (remoteList anonymousList : list A) : list A :=
  fold_left pushNew anonymousList remoteList.

Definition seen (k : K) (keys : list K) : bool :=
  existsb (fun k' => eqb k' k) keys.

(** The entries of a list whose key is neither among [keys] nor carried
    by an earlier entry of the list, in order. *)
Fixpoint firstNew (keys : list K) (l : list A) : list A :=
  match l with
  | [] => []
  | a :: rest =>
      if seen (key a) keys
      then firstNew keys rest
      else a :: firstNew (keys ++ [key a]) rest
  end.

End UnionByKey.

(** ** Worlds *)

(** The list the document [users/uid] holds for the controller, empty
    when there is none. *)
Definition remoteList {Item} (w : World Item) (uid : string) : list Item :=
  match remoteField w uid with
  | Some l => l
  | None => []
  end.

(** What the load of the anonymous list gets from the store when its
    read is I/O call number [n]: nothing if the read is rejected. *)
Definition storedAnonymous {Item} (w : World Item) (n : nat) : list Item :=
  if ioFails w n then [] else anonymousItems w.

(** The test that makes "sync now" adopt the remote list and return
    early, without writing. *)
Definition nothingToSync {Item} (remoteItems anonymousList : list Item) : bool :=
  (List.length anonymousList =? 0)%nat && (0 <? List.length remoteItems)%nat.

(** The remote list and an anonymous list as [syncGroceryList] sees
    them: with their dates normalised, reading the clock in turn. *)
Definition firestoreGrocery (parseDate : string -> option Z)
           (w : World GroceryItem) (uid : string) : list GroceryItem :=
  GroceryController.normalizeFrom parseDate (clock w) (clockReads w)
                                  (remoteList w uid).

Definition anonymousGrocery (parseDate : string -> option Z)
           (w : World GroceryItem) (uid : string) (stored : list GroceryItem)
  : list GroceryItem :=
  GroceryController.normalizeFrom
    parseDate (clock w) (clockReads w + List.length (remoteList w uid)) stored.

(** A device on first launch: nothing in memory, nobody signed in, an
    empty anonymous store, the given remote documents; no I/O call is
    rejected, except those [failing] says, and the clock reads [now]. *)
Definition firstLaunch {Item} (users : string -> option (option (list Item)))
           (failing : nat -> bool) (now : Z) : World Item :=
  mkWorld [] true None false false None None 0
          None users None []
          0 failing 0 (fun _ => now).

(** The document store with one document, [users/uid], whose field
    holds [l]. *)
Definition oneDocument {Item} (uid : string) (l : list Item)
  : string -> option (option (list Item)) :=
  fun u => if (u =? uid)%string then Some (Some l) else None.

(** ** Saves *)

(** Whether [performSave] has a store to write to. *)
Definition writeAttempted {Item} (w : World Item) : bool :=
  (truthyId (currentUserIdRef w) && isSome (currentUser w)
   && negb (isUpdatingFromFirestore w))
  || negb (truthyId (currentUserIdRef w)).

(** Whether a favorites call hands a list to [saveFavorites]: every
    call does, except [addFavorite] of a recipe whose id is in the
    list. *)
Definition callsSave (favs : list Recipe) (op : Favorites.FavoritesOp) : bool :=
  match op with
  | Favorites.AddFavorite recipe => negb (Favorites.hasId (recipeId recipe) favs)
  | Favorites.RemoveFavorite _ => true
  | Favorites.ToggleFavorite _ => true
  end.

(** Whether some call of a burst does, each call seeing the list the
    calls before it left. *)
Fixpoint burstSaves (ops : list Favorites.FavoritesOp) (favs : list Recipe)
  : bool :=
  match ops with
  | [] => false
  | op :: rest =>
      callsSave favs op || burstSaves rest (Favorites.favoritesStep favs op)
  end.

(** Two worlds that differ at most in the Local Cache and the pending
    save: same session, same stores, same notices, same I/O so far. *)
Definition sameStores (w w1 : World Recipe) : Prop :=
  currentUserIdRef w1 = currentUserIdRef w
  /\ currentUser w1 = currentUser w
  /\ isUpdatingFromFirestore w1 = isUpdatingFromFirestore w
  /\ flagResets w1 = flagResets w
  /\ remote w1 = remote w
  /\ anonymous w1 = anonymous w
  /\ alerts w1 = alerts w
  /\ ioCount w1 = ioCount w
  /\ ioFails w1 = ioFails w.


(** An item whose date survives the JSON round trip: a valid Date whose
    ISO string parses back to the same time value. *)
Definition readsBack (parseDate : string -> option Z)
           (toISOString : Z -> string) (item : GroceryItem) : bool :=
  match addedAt item with
  | JDate (Some t) =>
      match parseDate (toISOString t) with
      | Some t' => (t' =? t)%Z
      | None => false
      end
  | _ => false
  end.

(** Whether a single-item call on the grocery list hands a list to
    [saveGroceryList]: the removals and the toggle always do;
    [addGroceryItem] does unless the name is blank or its first match
    in the list is an unchecked item. *)
Definition schedulesSave {Js : Engine} (groceryItems : list GroceryItem)
           (op : Grocery.GroceryOp) : bool :=
  match op with
  | Grocery.AddItem _ _ ingredient =>
      negb (isEmpty ingredient || isEmpty (trim ingredient))
      && match find (Grocery.sameName ingredient) groceryItems with
         | Some existingItem => checked existingItem
         | None => true
         end
  | _ => true
  end.

(** The bulk operations, which [saveGroceryList(..., true)] saves at
    once instead of after the 300 ms delay. *)
Definition savesAtOnce (op : Grocery.GroceryOp) : bool :=
  match op with
  | Grocery.ClearChecked => true
  | Grocery.ClearAll => true
  | _ => false
  end.


(** * Properties *)

Unset Implicit Arguments.

(** ** Strings *)

Module AsciiTextFacts.

Import AsciiText.

Lemma isWhiteSpace_lowerChar (c : ascii) :
  isWhiteSpace (lowerChar c) = isWhiteSpace c.
Proof. destruct c as [[] [] [] [] [] [] [] []]; reflexivity. Qed.

Lemma isEmpty_lower (s : string) :
  isEmpty (lower s) = isEmpty s.
Proof. destruct s; reflexivity. Qed.

Lemma lower_stripStart (s : string) :
  lower (trimStart s) = trimStart (lower s).
Proof.
  induction s as [|c r IH]; simpl; [reflexivity|].
  rewrite isWhiteSpace_lowerChar.
  destruct (isWhiteSpace c); [exact IH | reflexivity].
Qed.

Lemma lower_stripEnd (s : string) :
  lower (trimEnd s) = trimEnd (lower s).
Proof.
  induction s as [|c r IH]; simpl; [reflexivity|].
  rewrite isWhiteSpace_lowerChar, <- IH, isEmpty_lower.
  destruct (isWhiteSpace c && isEmpty (trimEnd r)); simpl; congruence.
Qed.

Lemma lower_strip (s : string) :
  lower (strip s) = strip (lower s).
Proof.
  unfold strip. now rewrite lower_stripEnd, lower_stripStart.
Qed.

(** A string that does not begin with white space. *)
Definition startsClean (s : string) : Prop :=
  match s with
  | EmptyString => True
  | String c _ => isWhiteSpace c = false
  end.

Lemma trimStart_startsClean (s : string) : startsClean (trimStart s).
Proof.
  induction s as [|c r IH]; simpl; [exact I|].
  destruct (isWhiteSpace c) eqn:E; [exact IH | exact E].
Qed.

Lemma trimStart_fixed (s : string) : startsClean s -> trimStart s = s.
Proof. destruct s as [|c r]; simpl; intros H; [reflexivity | now rewrite H]. Qed.

Lemma trimEnd_startsClean (s : string) : startsClean s -> startsClean (trimEnd s).
Proof.
  destruct s as [|c r]; simpl; intros H; [exact I|].
  rewrite H. simpl. exact H.
Qed.

Lemma trimEnd_idempotent (s : string) : trimEnd (trimEnd s) = trimEnd s.
Proof.
  induction s as [|c r IH]; simpl; [reflexivity|].
  destruct (isWhiteSpace c && isEmpty (trimEnd r)) eqn:E; simpl; [reflexivity|].
  now rewrite IH, E.
Qed.

Lemma strip_idempotent (s : string) : strip (strip s) = strip s.
Proof.
  unfold strip.
  rewrite (trimStart_fixed (trimEnd (trimStart s))).
  - apply trimEnd_idempotent.
  - apply trimEnd_startsClean, trimStart_startsClean.
Qed.

Lemma laws : EngineLaws engine.
Proof.
  split.
  - reflexivity.
  - exact strip_idempotent.
  - intros s. cbn [JsString.trim JsString.toLowerCase engine].
    now rewrite lower_strip, strip_idempotent.
Qed.

End AsciiTextFacts.

Module JsStringFacts.

Section WithEngine.

Context {Js : Engine} {JsLaws : EngineLaws Js}.

(** Trimming first does not change the comparison key. *)
Lemma key_of_trimmed (s : string) : lowerTrim (trim s) = lowerTrim s.
Proof. exact (lowerTrim_trim s). Qed.

(** A text that is not blank is not empty. *)
Lemma not_blank_not_empty (s : string) :
  isEmpty (trim s) = false -> isEmpty s = false.
Proof.
  destruct s as [|c r]; [|reflexivity].
  now rewrite trim_empty.
Qed.

End WithEngine.

End JsStringFacts.

(** ** Lists *)

Module ListFacts.

Lemma NoDup_map_filter {A B} (proj : A -> B) (keep : A -> bool) (xs : list A)
      (Hdistinct : NoDup (map proj xs)) :
  NoDup (map proj (filter keep xs)).
Proof.
  induction xs as [|x xs IH]; simpl; [constructor|].
  inversion Hdistinct as [|? ? Hnotin Hrest]; subst.
  destruct (keep x); simpl; [|now apply IH].
  constructor; [|now apply IH].
  intros Hin. apply Hnotin.
  apply in_map_iff in Hin. destruct Hin as [y [Hy Hin]].
  apply filter_In in Hin. apply in_map_iff. exists y. tauto.
Qed.

Lemma NoDup_map_snoc {A B} (f : A -> B) (l : list A) (x : A) :
  NoDup (map f l) -> ~ In (f x) (map f l) -> NoDup (map f (l ++ [x])).
Proof.
  intros Hnd Hnotin. rewrite map_app. simpl.
  apply NoDup_app; [exact Hnd | repeat constructor; intros [] |].
  intros a Ha [Hb|[]]. subst. contradiction.
Qed.

(** Two different positions of a list with distinct keys hold
    different keys. *)
Lemma NoDup_map_positions {A B} (f : A -> B) (l : list A) i j a b :
  NoDup (map f l) -> i <> j ->
  nth_error l i = Some a -> nth_error l j = Some b -> f a <> f b.
Proof.
  intros Hnd Hij Ha Hb Heq. apply Hij.
  rewrite NoDup_nth_error in Hnd. apply Hnd.
  - rewrite length_map. apply nth_error_Some. congruence.
  - rewrite !nth_error_map, Ha, Hb. simpl. now rewrite Heq.
Qed.

End ListFacts.

(** ** Favorites: the dedup invariant *)

Module FavoritesFacts.

Import Favorites ListFacts.

Lemma hasId_false_notin (id : Z) (favs : list Recipe) :
  hasId id favs = false -> ~ In id (map recipeId favs).
Proof.
  unfold hasId. intros H Hin.
  apply in_map_iff in Hin. destruct Hin as [r [Hr Hin]].
  assert (E : existsb (fun fav => (recipeId fav =? id)%Z) favs = true).
  { apply existsb_exists. exists r. split; [exact Hin|]. now apply Z.eqb_eq. }
  congruence.
Qed.

Lemma favorites_step_distinct (favs : list Recipe) (op : FavoritesOp) :
  NoDup (map recipeId favs) -> NoDup (map recipeId (favoritesStep favs op)).
Proof.
  intros Hnd. destruct op as [r|id|r]; simpl.
  - unfold addFavorite. destruct (hasId (recipeId r) favs) eqn:E; simpl.
    + exact Hnd.
    + apply NoDup_map_snoc; [exact Hnd | now apply hasId_false_notin].
  - now apply NoDup_map_filter.
  - unfold toggleFavorite. destruct (hasId (recipeId r) favs) eqn:E; simpl.
    + now apply NoDup_map_filter.
    + apply NoDup_map_snoc; [exact Hnd | now apply hasId_false_notin].
Qed.

Lemma favorites_run_distinct (ops : list FavoritesOp) (favs : list Recipe) :
  NoDup (map recipeId favs) -> NoDup (map recipeId (favoritesRun ops favs)).
Proof.
  unfold favoritesRun. revert favs.
  induction ops as [|op ops IH]; simpl; intros favs Hnd; [exact Hnd|].
  apply IH, favorites_step_distinct, Hnd.
Qed.

End FavoritesFacts.

(** C7. Dedup invariant (favorites): from a list whose ids are pairwise
    distinct, every sequence of [addFavorite], [removeFavorite] and
    [toggleFavorite] calls leaves a list whose ids are pairwise
    distinct: two different positions never hold the same id.  Adding a
    recipe whose id is already present returns the list as it is and
    schedules no save. *)
Theorem favorites_dedup_invariant
        (ops : list Favorites.FavoritesOp) (favs : list Recipe)
        (Hdistinct : NoDup (map recipeId favs)) :
  NoDup (map recipeId (Favorites.favoritesRun ops favs))
  /\ (forall i j a b,
         i <> j ->
         nth_error (Favorites.favoritesRun ops favs) i = Some a ->
         nth_error (Favorites.favoritesRun ops favs) j = Some b ->
         recipeId a <> recipeId b)
  /\ (forall recipe l,
         Favorites.hasId (recipeId recipe) l = true ->
         Favorites.addFavorite recipe l = unchanged l).
Proof.
  pose proof (FavoritesFacts.favorites_run_distinct ops favs Hdistinct) as Hrun.
  split; [exact Hrun|]. split.
  - intros i j a b Hij Ha Hb.
    exact (ListFacts.NoDup_map_positions recipeId _ i j a b Hrun Hij Ha Hb).
  - intros recipe l Hl. unfold Favorites.addFavorite. now rewrite Hl.
Qed.

(** The same at a concrete run: add Soup twice, add Pie, toggle Soup. *)
Lemma favorites_dedup_invariant_witness :
  let soup := mkRecipe 1 "Soup" "" "" in
  let pie := mkRecipe 2 "Pie" "" "" in
  NoDup (map recipeId (@nil Recipe))
  /\ NoDup (map recipeId
               (Favorites.favoritesRun [Favorites.AddFavorite soup; Favorites.AddFavorite soup;
                               Favorites.AddFavorite pie; Favorites.ToggleFavorite soup] [])).
Proof.
  split; [constructor|].
  apply (favorites_dedup_invariant _ []). constructor.
Defined.

(** ** Grocery: the list operations *)

Module GroceryFacts.

Import Grocery ListFacts JsStringFacts.

Section EngineGroceryFacts.

Context {Js : Engine} {JsLaws : EngineLaws Js}.

Lemma NoDup_map_injective {A B} (f : A -> B) (l : list A) (a b : A) :
  NoDup (map f l) -> In a l -> In b l -> f a = f b -> a = b.
Proof.
  induction l as [|x l IH]; simpl; intros Hnd Ha Hb Hab; [contradiction|].
  inversion Hnd as [|? ? Hnotin Hnd']; subst.
  destruct Ha as [Ha|Ha], Hb as [Hb|Hb]; subst.
  - reflexivity.
  - exfalso. apply Hnotin. rewrite Hab. now apply in_map.
  - exfalso. apply Hnotin. rewrite <- Hab. now apply in_map.
  - now apply IH.
Qed.

(** An ingredient that passes the guard of [addGroceryItem]. *)
Lemma guard_passes (ingredient : string) :
  isEmpty (trim ingredient) = false ->
  isEmpty ingredient || isEmpty (trim ingredient) = false.
Proof.
  intros H. now rewrite H, (not_blank_not_empty ingredient H).
Qed.

Lemma sameName_true (s : string) (item : GroceryItem) :
  sameName s item = true <-> key item = lowerTrim s.
Proof. unfold sameName. apply String.eqb_eq. Qed.

Lemma sameName_false (s : string) (item : GroceryItem) :
  sameName s item = false <-> key item <> lowerTrim s.
Proof. unfold sameName. apply String.eqb_neq. Qed.

Lemma map_key_update (f : GroceryItem -> GroceryItem) (l : list GroceryItem) :
  (forall item, key (f item) = key item) ->
  map key (map f l) = map key l.
Proof. intros H. rewrite map_map. apply map_ext. exact H. Qed.

Lemma key_if_setChecked (c : bool) (b : bool) (item : GroceryItem) :
  key (if c then setChecked b item else item) = key item.
Proof. destruct c; reflexivity. Qed.

Lemma find_none_notin (s : string) (l : list GroceryItem) :
  find (sameName s) l = None -> ~ In (lowerTrim s) (map key l).
Proof.
  intros Hnone Hin. apply in_map_iff in Hin. destruct Hin as [x [Hx Hin]].
  pose proof (find_none _ _ Hnone x Hin) as Hf.
  apply sameName_false in Hf. contradiction.
Qed.

Lemma addGroceryItem_distinct freshId now ingredient (l : list GroceryItem) :
  NoDup (map key l) ->
  NoDup (map key (next (addGroceryItem freshId now ingredient l))).
Proof.
  intros Hnd. unfold addGroceryItem.
  destruct (isEmpty ingredient || isEmpty (trim ingredient)); simpl; [exact Hnd|].
  destruct (find (sameName ingredient) l) as [existing|] eqn:Efind.
  - destruct (checked existing); simpl; [|exact Hnd].
    rewrite map_key_update; [exact Hnd|].
    intros item. apply key_if_setChecked.
  - simpl. apply NoDup_map_snoc; [exact Hnd|].
    unfold key at 1. simpl. rewrite key_of_trimmed.
    now apply find_none_notin.
Qed.

Lemma grocery_step_distinct (l : list GroceryItem) (op : GroceryOp) :
  NoDup (map key l) -> NoDup (map key (groceryStep l op)).
Proof.
  intros Hnd.
  destruct op as [freshId now ingredient|id|name|id| |]; simpl.
  - now apply addGroceryItem_distinct.
  - now apply NoDup_map_filter.
  - now apply NoDup_map_filter.
  - rewrite map_key_update; [exact Hnd|].
    intros item. apply key_if_setChecked.
  - now apply NoDup_map_filter.
  - constructor.
Qed.

Lemma grocery_run_distinct (ops : list GroceryOp) (l : list GroceryItem) :
  NoDup (map key l) -> NoDup (map key (groceryRun ops l)).
Proof.
  unfold groceryRun. revert l.
  induction ops as [|op ops IH]; simpl; intros l Hnd; [exact Hnd|].
  apply IH, grocery_step_distinct, Hnd.
Qed.

Lemma removeGroceryItemByName_removed (name : string) (l : list GroceryItem) :
  RemovedWhere (fun item => key item = lowerTrim name) l
               (next (removeGroceryItemByName name l)).
Proof.
  simpl. induction l as [|x l IH]; simpl; [constructor|].
  destruct (sameName name x) eqn:E; simpl.
  - apply RemovedDrop; [now apply sameName_true | exact IH].
  - apply RemovedKeep; [now apply sameName_false | exact IH].
Qed.

End EngineGroceryFacts.

End GroceryFacts.

(** C6. Dedup invariant (grocery): from the empty list, or from any
    list with at most one entry per lowercased trimmed name, every
    sequence of [addGroceryItem], [removeGroceryItem],
    [removeGroceryItemByName], [toggleGroceryItem], [clearCheckedItems]
    and [clearAllItems] calls leaves a list in which two unchecked
    items at different positions never have names that are equal after
    lowercasing and trimming (indeed no two items have). *)
Theorem grocery_dedup_invariant {Js : Engine} {JsLaws : EngineLaws Js}
        (ops : list Grocery.GroceryOp) (items0 : list GroceryItem)
        (Hdistinct : NoDup (map Grocery.key items0)) :
  (forall i j a b,
      i <> j ->
      nth_error (Grocery.groceryRun ops items0) i = Some a ->
      nth_error (Grocery.groceryRun ops items0) j = Some b ->
      checked a = false -> checked b = false ->
      lowerTrim (itemName a) <> lowerTrim (itemName b))
  /\ NoDup (map Grocery.key (Grocery.groceryRun ops items0)).
Proof.
  pose proof (GroceryFacts.grocery_run_distinct ops items0 Hdistinct) as Hrun.
  split; [|exact Hrun].
  intros i j a b Hij Ha Hb _ _.
  exact (ListFacts.NoDup_map_positions Grocery.key _ i j a b Hrun Hij Ha Hb).
Qed.

Section On_grocery_dedup_invariant_witness.

#[local] Existing Instance AsciiText.engine.
#[local] Existing Instance AsciiTextFacts.laws.

(** The same from the empty list: " Milk", "milk" again, toggle, "MILK ". *)
Lemma grocery_dedup_invariant_witness :
  let ops := [Grocery.AddItem "a1" 10 " Milk"; Grocery.AddItem "a2" 20 "milk";
              Grocery.ToggleItem "a1"; Grocery.AddItem "a3" 30 "MILK ";
              Grocery.AddItem "a4" 40 "Eggs"; Grocery.ClearChecked] in
  NoDup (map Grocery.key [])
  /\ NoDup (map Grocery.key (Grocery.groceryRun ops [])).
Proof.
  split; [constructor|].
  apply (grocery_dedup_invariant _ []). constructor.
Defined.

End On_grocery_dedup_invariant_witness.

(** C10. [removeGroceryItemByName(n)] takes out every item, checked or
    not, whose lowercased trimmed name equals the lowercased trimmed
    [n], and keeps all the others unchanged and in their order. *)
Theorem removeGroceryItemByName_spec {Js : Engine}
        (name : string) (items0 : list GroceryItem) :
  let result := next (Grocery.removeGroceryItemByName name items0) in
  RemovedWhere
    (fun item => lowerTrim (itemName item) = lowerTrim name) items0 result
  /\ (forall item,
         In item result <->
         In item items0 /\ lowerTrim (itemName item) <> lowerTrim name)
  /\ (forall item,
         In item items0 -> lowerTrim (itemName item) = lowerTrim name ->
         ~ In item result).
Proof.
  simpl. split; [exact (GroceryFacts.removeGroceryItemByName_removed name items0)|].
  split.
  - intros item. rewrite filter_In, negb_true_iff, GroceryFacts.sameName_false.
    reflexivity.
  - intros item _ Hkey Hin.
    apply filter_In in Hin. destruct Hin as [_ Hin].
    apply negb_true_iff, GroceryFacts.sameName_false in Hin. contradiction.
Qed.

(** ** Grocery: reactivation *)

Module ReactivationFacts.

Import Grocery.

Section EngineReactivation.

Context {Js : Engine}.

(** [find] returns the first item that passes the test. *)
Lemma find_first {A} (p : A -> bool) (before after : list A) (e : A) :
  (forall x, In x before -> p x = false) -> p e = true ->
  find p (before ++ e :: after) = Some e.
Proof.
  intros Hbefore He. induction before as [|x before IH]; simpl.
  - now rewrite He.
  - rewrite (Hbefore x (or_introl eq_refl)).
    apply IH. intros y Hy. apply Hbefore. now right.
Qed.

(** Unchecking by id leaves alone a list none of whose checked items
    has the id. *)
Lemma uncheck_fixed (id : string) (l : list GroceryItem) :
  (forall x, In x l -> checked x = true -> itemId x <> id) ->
  map (fun item => if (itemId item =? id)%string
                   then setChecked false item else item) l = l.
Proof.
  intros Hl. induction l as [|x l IH]; simpl; [reflexivity|].
  rewrite IH by (intros y Hy; apply Hl; now right). f_equal.
  destruct (itemId x =? id)%string eqn:Eid; [|reflexivity].
  apply String.eqb_eq in Eid.
  destruct x as [i n c d]. simpl in *.
  destruct c; [|reflexivity].
  exfalso. exact (Hl _ (or_introl eq_refl) eq_refl Eid).
Qed.

Lemma nth_error_middle {A} (before after : list A) (e e' x : A) (i : nat) :
  nth_error (before ++ e :: after) i = Some x ->
  (i = List.length before /\ x = e
   /\ nth_error (before ++ e' :: after) i = Some e')
  \/ (i <> List.length before
      /\ (In x before \/ In x after)
      /\ nth_error (before ++ e' :: after) i = Some x).
Proof.
  revert i. induction before as [|b before IH]; intros i Hi.
  - destruct i as [|i]; simpl in *.
    + left. inversion Hi. auto.
    + right. split; [discriminate|]. split; [|exact Hi].
      right. eapply nth_error_In; eauto.
  - destruct i as [|i]; simpl in *.
    + right. split; [discriminate|]. inversion Hi. subst. auto.
    + destruct (IH i Hi) as [(-> & -> & H)|(Hne & Hin & H)].
      * left. auto.
      * right. split; [congruence|]. split; [tauto | exact H].
Qed.

End EngineReactivation.

End ReactivationFacts.

Section On_reactivation_law_counterexample.

#[local] Existing Instance AsciiText.engine.

(** C5 as stated fails in three ways.  When an item with the same name
    comes before the checked one, [find] returns that earlier item:
    here it is unchecked, [addGroceryItem] leaves the list alone and
    the checked item stays checked.  When another checked item has the
    id of the checked one, it is unchecked too.  When the name is
    blank, the call returns before looking at the list. *)
Lemma reactivation_law_counterexample :
  (let first := mkItem "a" "milk" false (JDate (Some 1%Z)) in
   let second := mkItem "b" "Milk " true (JDate (Some 2%Z)) in
   let items0 := [first; second] in
   let result := next (Grocery.addGroceryItem "c" 3%Z "milk" items0) in
   In second items0
   /\ checked second = true
   /\ lowerTrim (itemName second) = lowerTrim "milk"
   /\ result = items0
   /\ ~ Reactivates second items0 result)
  /\ (let milk := mkItem "a" "Milk" true (JDate (Some 1%Z)) in
      let eggs := mkItem "a" "Eggs" true (JDate (Some 2%Z)) in
      let items0 := [milk; eggs] in
      let result := next (Grocery.addGroceryItem "c" 3%Z "milk" items0) in
      lowerTrim (itemName milk) = lowerTrim "milk"
      /\ result = [Grocery.setChecked false milk;
                   Grocery.setChecked false eggs]
      /\ ~ Reactivates milk items0 result)
  /\ (let nameless := mkItem "a" " " true (JDate (Some 1%Z)) in
      let items0 := [nameless] in
      let result := next (Grocery.addGroceryItem "c" 3%Z "" items0) in
      lowerTrim (itemName nameless) = lowerTrim ""
      /\ result = items0
      /\ ~ Reactivates nameless items0 result).
Proof.
  cbv zeta. split; [|split].
  - split; [right; left; reflexivity|].
    split; [reflexivity|]. split; [reflexivity|]. split; [reflexivity|].
    intros [_ Hpos].
    destruct (Hpos 1%nat _ eq_refl) as [Hflip _].
    specialize (Hflip eq_refl). vm_compute in Hflip. discriminate Hflip.
  - split; [reflexivity|]. split; [reflexivity|].
    intros [_ Hpos].
    destruct (Hpos 1%nat _ eq_refl) as [_ Hkeep].
    assert (Hne : mkItem "a" "Eggs" true (JDate (Some 2%Z))
                  <> mkItem "a" "Milk" true (JDate (Some 1%Z)))
      by discriminate.
    specialize (Hkeep Hne). vm_compute in Hkeep. discriminate Hkeep.
  - split; [reflexivity|]. split; [reflexivity|].
    intros [_ Hpos].
    destruct (Hpos 0%nat _ eq_refl) as [Hflip _].
    specialize (Hflip eq_refl). vm_compute in Hflip. discriminate Hflip.
Qed.

End On_reactivation_law_counterexample.

(** C5, amended. Reactivation law: for every grocery list and every
    name [n] that is not blank, if the first item of the list whose
    lowercased trimmed name equals that of [n] is checked, and no other
    checked item has the id of that item, then [addGroceryItem(n)] sets
    exactly that item's [checked] to false, changes no other field of
    any item, creates no entry and keeps the length; the changed list
    is handed to the debounced save. *)
Theorem reactivation_law {Js : Engine} {JsLaws : EngineLaws Js}
        freshId now n (before after : list GroceryItem) e
        (Hnonblank : isEmpty (trim n) = false)
        (Hfirst : forall x, In x before ->
                            lowerTrim (itemName x) <> lowerTrim n)
        (Hname : lowerTrim (itemName e) = lowerTrim n)
        (Hchecked : checked e = true)
        (Hid : forall x, In x before \/ In x after ->
                         checked x = true -> itemId x <> itemId e) :
  let items0 := before ++ e :: after in
  let result := next (Grocery.addGroceryItem freshId now n items0) in
  result = before ++ Grocery.setChecked false e :: after
  /\ List.length result = List.length items0
  /\ Reactivates e items0 result
  /\ saved (Grocery.addGroceryItem freshId now n items0)
     = Some (result, false).
Proof.
  intros items0 result.
  assert (Hresult :
            Grocery.addGroceryItem freshId now n items0
            = debounced (before ++ Grocery.setChecked false e :: after)).
  { unfold items0, Grocery.addGroceryItem.
    rewrite (GroceryFacts.guard_passes n Hnonblank).
    rewrite (ReactivationFacts.find_first (Grocery.sameName n) before after e).
    - rewrite Hchecked. f_equal.
      rewrite map_app. simpl. rewrite String.eqb_refl.
      rewrite !ReactivationFacts.uncheck_fixed; [reflexivity| |].
      + intros x Hx. apply Hid. now right.
      + intros x Hx. apply Hid. now left.
    - intros x Hx. apply GroceryFacts.sameName_false. now apply Hfirst.
    - now apply GroceryFacts.sameName_true. }
  unfold result. rewrite Hresult. simpl.
  split; [reflexivity|]. split.
  { unfold items0. now rewrite !length_app. }
  split; [|reflexivity].
  split.
  { unfold items0. now rewrite !length_app. }
  intros i old Hold.
  destruct (ReactivationFacts.nth_error_middle
              before after e (Grocery.setChecked false e) old i Hold)
    as [(_ & -> & Hnew)|(_ & Hin & Hnew)].
  - split; [intros _; exact Hnew | intros Hne; now contradiction Hne].
  - split; [|intros _; exact Hnew].
    intros ->. exfalso. exact (Hid e Hin Hchecked eq_refl).
Qed.

Section On_reactivation_law_witness.

#[local] Existing Instance AsciiText.engine.
#[local] Existing Instance AsciiTextFacts.laws.

(** The law at work: "MILK " reactivates the checked " Milk", which an
    unchecked "Eggs" with the same id precedes and a checked "Rice"
    follows. *)
Lemma reactivation_law_witness :
  let eggs := mkItem "b" "Eggs" false (JDate (Some 1%Z)) in
  let milk := mkItem "b" " Milk" true (JDate (Some 2%Z)) in
  let rice := mkItem "d" "Rice" true (JDate (Some 3%Z)) in
  next (Grocery.addGroceryItem "c" 3%Z "MILK " [eggs; milk; rice])
  = [eggs; Grocery.setChecked false milk; rice].
Proof.
  intros eggs milk rice.
  refine (proj1 (reactivation_law "c" 3%Z "MILK " [eggs] [rice] milk
                                  eq_refl _ eq_refl eq_refl _)).
  - intros x [<-|[]]. vm_compute. discriminate.
  - intros x [[<-|[]]|[<-|[]]]; vm_compute; intros H1 H2; discriminate.
Defined.

End On_reactivation_law_witness.

(** ** Dates *)

Module DatesFacts.

Lemma isValidDate_of_time (tv : option Z) (now : Z) :
  isValidDate (if isNaNTime tv then JDate (Some now) else JDate tv) = true.
Proof. destruct tv; reflexivity. Qed.

(** Outside the [toDate] branch the conversion does what it is for: on
    a Date, a string, a number, [null], [undefined], an object without
    [toDate] or one whose [toDate()] throws, and on one whose
    [toDate()] hands back a valid Date, the result is a valid Date, the
    current time where nothing could be read. *)
Lemma safeToDate_valid_otherwise
      (parseDate : string -> option Z) (now : Z) (v : JsValue) :
  toDateReturnsValid v = true ->
  isValidDate (safeToDate parseDate now v) = true
  /\ (unparseable parseDate v = true ->
      safeToDate parseDate now v = JDate (Some now)).
Proof.
  intros HtoDate.
  destruct v as [tv|s|n|b| | |[[|r]|]]; simpl in *;
    try (split; [reflexivity | reflexivity]).
  - split; [destruct tv; reflexivity|]. intros H. now rewrite H.
  - split; [apply isValidDate_of_time|]. intros H. now rewrite H.
  - split; [apply isValidDate_of_time|]. intros H. now rewrite H.
  - split; [exact HtoDate | discriminate].
Qed.

End DatesFacts.


(** ** The merge of "sync now" *)

Module MergeFacts.

Section UnionFacts.

Context {A K : Type}.
Variable key : A -> K.
Variable eqb : K -> K -> bool.
Hypothesis eqb_spec : forall x y, eqb x y = true <-> x = y.

Lemma seen_map (k : K) (l : list A) :
  existsb (fun m => eqb (key m) k) l = seen eqb k (map key l).
Proof.
  unfold seen. induction l as [|x l IH]; simpl; [reflexivity|].
  now rewrite IH.
Qed.

Lemma unionBy_firstNew (remoteItems anonymousList : list A) :
  unionBy key eqb remoteItems anonymousList
  = remoteItems ++ firstNew key eqb (map key remoteItems) anonymousList.
Proof.
  unfold unionBy. revert remoteItems.
  induction anonymousList as [|a rest IH]; intros remoteItems; simpl.
  - now rewrite app_nil_r.
  - unfold pushNew at 2. rewrite seen_map.
    destruct (seen eqb (key a) (map key remoteItems)).
    + apply IH.
    + rewrite IH, map_app, <- app_assoc. reflexivity.
Qed.

(** When the keys of the list are pairwise distinct, the entries kept
    are just those whose key is not among the keys given. *)
Lemma firstNew_filter (keys keys0 : list K) (l : list A) :
  NoDup (map key l) ->
  (forall a, In a l -> seen eqb (key a) keys = seen eqb (key a) keys0) ->
  firstNew key eqb keys l = filter (fun a => negb (seen eqb (key a) keys0)) l.
Proof.
  revert keys. induction l as [|a rest IH]; intros keys Hnd Hagree; simpl;
    [reflexivity|].
  inversion Hnd as [|? ? Hnotin Hnd']; subst.
  rewrite <- (Hagree a (or_introl eq_refl)).
  destruct (seen eqb (key a) keys) eqn:E; simpl.
  - apply IH; [exact Hnd'|]. intros b Hb. apply Hagree. now right.
  - f_equal. apply IH; [exact Hnd'|].
    intros b Hb. rewrite <- (Hagree b (or_intror Hb)).
    unfold seen. rewrite existsb_app. simpl.
    destruct (eqb (key a) (key b)) eqn:Eab.
    + apply eqb_spec in Eab. exfalso. apply Hnotin. rewrite Eab.
      now apply in_map.
    + now rewrite !orb_false_r.
Qed.

Lemma unionBy_distinct (remoteItems anonymousList : list A) :
  NoDup (map key anonymousList) ->
  unionBy key eqb remoteItems anonymousList
  = remoteItems
      ++ filter (fun a => negb (existsb (fun m => eqb (key m) (key a))
                                        remoteItems))
                anonymousList.
Proof.
  intros Hnd. rewrite unionBy_firstNew. f_equal.
  rewrite (firstNew_filter (map key remoteItems) (map key remoteItems));
    [|exact Hnd | reflexivity].
  apply filter_ext. intros a. now rewrite seen_map.
Qed.

(** Every remote key and every anonymous key is a key of the result. *)
Lemma unionBy_covers_remote (remoteItems anonymousList : list A) (k : K) :
  seen eqb k (map key remoteItems) = true ->
  seen eqb k (map key (unionBy key eqb remoteItems anonymousList)) = true.
Proof.
  intros H. rewrite unionBy_firstNew, map_app. unfold seen in *.
  rewrite existsb_app, H. reflexivity.
Qed.

Lemma unionBy_covers_anonymous (remoteItems anonymousList : list A) (a : A) :
  In a anonymousList ->
  seen eqb (key a) (map key (unionBy key eqb remoteItems anonymousList)) = true.
Proof.
  unfold unionBy. revert remoteItems.
  induction anonymousList as [|b rest IH]; intros remoteItems Hin; simpl;
    [contradiction|].
  destruct Hin as [->|Hin]; [|now apply IH].
  apply (unionBy_covers_remote (pushNew key eqb remoteItems a) rest).
  unfold pushNew. rewrite seen_map.
  destruct (seen eqb (key a) (map key remoteItems)) eqn:E; [exact E|].
  rewrite map_app. unfold seen. rewrite existsb_app. simpl.
  assert (eqb (key a) (key a) = true) as -> by now apply eqb_spec.
  now rewrite orb_true_r.
Qed.

(** Merging entries whose keys are all there already changes nothing. *)
Lemma unionBy_absorbs (merged l : list A) :
  (forall a, In a l -> seen eqb (key a) (map key merged) = true) ->
  unionBy key eqb merged l = merged.
Proof.
  unfold unionBy. induction l as [|a rest IH]; intros H; simpl; [reflexivity|].
  unfold pushNew at 2. rewrite seen_map, (H a (or_introl eq_refl)).
  apply IH. intros b Hb. apply H. now right.
Qed.

Lemma unionBy_idempotent (remoteItems anonymousList : list A) :
  unionBy key eqb (unionBy key eqb remoteItems anonymousList) anonymousList
  = unionBy key eqb remoteItems anonymousList.
Proof.
  apply unionBy_absorbs. intros a Ha. now apply unionBy_covers_anonymous.
Qed.

End UnionFacts.

(** The two merges of the source are this union, by id and by name. *)
Lemma mergeFavorites_unionBy (remoteItems anonymousList : list Recipe) :
  Favorites.mergeFavorites remoteItems anonymousList
  = unionBy recipeId Z.eqb remoteItems anonymousList.
Proof. destruct anonymousList; reflexivity. Qed.

Lemma mergeGrocery_unionBy {Js : Engine} (remoteItems anonymousList : list GroceryItem) :
  Grocery.mergeGrocery remoteItems anonymousList
  = unionBy Grocery.key String.eqb remoteItems anonymousList.
Proof. destruct anonymousList; reflexivity. Qed.

Lemma mergeFavorites_nil_r (remoteItems : list Recipe) :
  Favorites.mergeFavorites remoteItems [] = remoteItems.
Proof. reflexivity. Qed.

Lemma mergeGrocery_nil_r {Js : Engine} (remoteItems : list GroceryItem) :
  Grocery.mergeGrocery remoteItems [] = remoteItems.
Proof. reflexivity. Qed.

End MergeFacts.

(** C2. Idempotent merge: for all remote and anonymous lists, merging
    the result of the merge with the same anonymous list again gives
    that result back, for favorites (identity: id) and for grocery
    items (identity: lowercased trimmed name); and once the first run
    has emptied the anonymous list, merging the result with the empty
    list gives it back as well. *)
Theorem merge_idempotent {Js : Engine} :
  (forall remoteItems anonymousList : list Recipe,
      let first := Favorites.mergeFavorites remoteItems anonymousList in
      Favorites.mergeFavorites first anonymousList = first
      /\ Favorites.mergeFavorites first [] = first)
  /\ (forall remoteItems anonymousList : list GroceryItem,
         let first := Grocery.mergeGrocery remoteItems anonymousList in
         Grocery.mergeGrocery first anonymousList = first
         /\ Grocery.mergeGrocery first [] = first).
Proof.
  split; intros remoteItems anonymousList; simpl; (split; [|reflexivity]).
  - rewrite !MergeFacts.mergeFavorites_unionBy.
    apply MergeFacts.unionBy_idempotent. exact Z.eqb_eq.
  - rewrite !MergeFacts.mergeGrocery_unionBy.
    apply MergeFacts.unionBy_idempotent. exact String.eqb_eq.
Qed.

(** C3 as stated fails: an anonymous entry is compared with the list
    being built, not with the remote list alone, so of two anonymous
    entries with the same key only the first is appended. *)
Lemma merge_precedence_counterexample :
  let cake := mkRecipe 3 "Cake" "" "" in
  let cupcake := mkRecipe 3 "Cupcake" "" "" in
  Favorites.mergeFavorites [] [cake; cupcake] = [cake]
  /\ Favorites.mergeFavorites [] [cake; cupcake]
     <> [] ++ filter (fun a => negb (Favorites.hasId (recipeId a) []))
                     [cake; cupcake].
Proof. cbv zeta. split; [reflexivity | discriminate]. Qed.

(** C3, amended. In the merge of "sync now" the remote entries take
    precedence and come first, exactly as handed to the merge (for
    grocery items that is after the normalisation of [addedAt]); they
    are followed, in their original order, by the anonymous entries
    whose key (id for favorites, lowercased trimmed name for grocery)
    matches no remote entry and no earlier anonymous entry.  When the
    anonymous keys are pairwise distinct these are just the anonymous
    entries whose key matches no remote entry.  Remote [{2, Pie}] merged
    with anonymous [{2, OldPie}; {3, Cake}] gives [{2, Pie}; {3, Cake}]. *)
Theorem merge_precedence {Js : Engine} :
  (forall remoteItems anonymousList : list Recipe,
      Favorites.mergeFavorites remoteItems anonymousList
      = remoteItems
          ++ firstNew recipeId Z.eqb (map recipeId remoteItems) anonymousList)
  /\ (forall remoteItems anonymousList : list GroceryItem,
         Grocery.mergeGrocery remoteItems anonymousList
         = remoteItems
             ++ firstNew Grocery.key String.eqb
                         (map Grocery.key remoteItems) anonymousList)
  /\ (forall remoteItems anonymousList : list Recipe,
         NoDup (map recipeId anonymousList) ->
         Favorites.mergeFavorites remoteItems anonymousList
         = remoteItems
             ++ filter (fun a => negb (Favorites.hasId (recipeId a) remoteItems))
                       anonymousList)
  /\ (forall remoteItems anonymousList : list GroceryItem,
         NoDup (map Grocery.key anonymousList) ->
         Grocery.mergeGrocery remoteItems anonymousList
         = remoteItems
             ++ filter (fun a => negb (existsb (fun item => Grocery.sameName
                                                              (itemName a) item)
                                               remoteItems))
                       anonymousList)
  /\ Favorites.mergeFavorites
       [mkRecipe 2 "Pie" "" ""]
       [mkRecipe 2 "OldPie" "" ""; mkRecipe 3 "Cake" "" ""]
     = [mkRecipe 2 "Pie" "" ""; mkRecipe 3 "Cake" "" ""].
Proof.
  split; [|split; [|split; [|split]]].
  - intros. rewrite MergeFacts.mergeFavorites_unionBy.
    apply MergeFacts.unionBy_firstNew.
  - intros. rewrite MergeFacts.mergeGrocery_unionBy.
    apply MergeFacts.unionBy_firstNew.
  - intros remoteItems anonymousList Hnd.
    rewrite MergeFacts.mergeFavorites_unionBy.
    apply MergeFacts.unionBy_distinct; [exact Z.eqb_eq | exact Hnd].
  - intros remoteItems anonymousList Hnd.
    rewrite MergeFacts.mergeGrocery_unionBy.
    apply MergeFacts.unionBy_distinct; [exact String.eqb_eq | exact Hnd].
  - reflexivity.
Qed.
(** ** The handlers *)

Module HandlerTactics.

Lemma length_normalizeFrom parseDate clk k (l : list GroceryItem) :
  List.length (GroceryController.normalizeFrom parseDate clk k l) = List.length l.
Proof.
  revert k. induction l as [|x l IH]; intros k; simpl; [reflexivity|].
  now rewrite IH.
Qed.

(** Replace the world by its fields, so that every projection computes. *)
Ltac open_world w :=
  destruct w as [its ld cref upd ini lis pend resets cu rem anon al ioc iof cr clk];
  cbn [items loading currentUserIdRef isUpdatingFromFirestore isInitialized
       listener pendingSave flagResets currentUser remote anonymous alerts
       ioCount ioFails clockReads clock] in *.

(** Run the handler as far as the known facts allow. *)
Ltac evaluate :=
  repeat
    (progress
       (cbv -[String.eqb isEmpty Favorites.mergeFavorites Grocery.mergeGrocery
              GroceryController.normalizeFrom List.length Nat.ltb Nat.eqb
              Nat.add app];
        rewrite ?length_normalizeFrom, ?String.eqb_refl;
        cbn [List.length Nat.ltb Nat.leb Nat.eqb andb negb])).

Ltac conjs := repeat match goal with |- _ /\ _ => split end.

(** Case analysis on what blocks the run: an answer of the failure
    oracle, the content of a store, the emptiness of a list under test. *)
Ltac branch :=
  match goal with
  | H : forall n, ?f n = false |- context [if ?f ?n then _ else _] =>
      rewrite (H n)
  | H : ?f ?n = _ |- context [if ?f ?n then _ else _] =>
      rewrite H
  | H : ?x = _ |- context [match ?x with _ => _ end] =>
      rewrite H
  | |- context [if isEmpty ?s then _ else _] =>
      is_var s; destruct (isEmpty s) eqn:?
  | |- context [if ?f ?n then _ else _] =>
      is_var f; destruct (f n) eqn:?
  | |- context [match ?f ?u with _ => _ end] =>
      is_var f; destruct (f u) as [[?|]|] eqn:?
  | |- context [match ?x with _ => _ end] =>
      is_var x; destruct x
  | |- context [match List.length ?l with _ => _ end] =>
      is_var l; destruct l
  | |- context [(0 <? List.length ?l)%nat] =>
      is_var l; destruct l
  | |- context [(List.length ?l =? 0)%nat] =>
      is_var l; destruct l
  end.

Ltac run_handler := evaluate; repeat (branch; evaluate).

End HandlerTactics.

Module FavoritesSyncFacts.

Import Favorites FavoritesController HandlerTactics.

Lemma syncFavorites_returns (w : World Recipe) :
  threw syncFavorites w = false.
Proof. open_world w. run_handler; reflexivity. Qed.

Lemma syncFavorites_items (w : World Recipe) (uid : string) :
  currentUser w = Some uid -> isEmpty uid = false ->
  items (exec syncFavorites w)
  = if ioFails w (ioCount w) then items w
    else mergeFavorites (remoteList w uid) (storedAnonymous w (S (ioCount w))).
Proof.
  intros Huser Huid. open_world w. subst cu.
  run_handler; reflexivity.
Qed.

Lemma syncFavorites_read_rejected (w : World Recipe) (uid : string) :
  currentUser w = Some uid -> isEmpty uid = false ->
  ioFails w (ioCount w) = true ->
  let w' := exec syncFavorites w in
  alerts w' = alerts w ++ ["Sync Error"]
  /\ remote w' = remote w /\ anonymous w' = anonymous w.
Proof.
  intros Huser Huid Hread. open_world w. subst cu.
  run_handler. conjs; reflexivity.
Qed.

Lemma syncFavorites_write_rejected (w : World Recipe) (uid : string) :
  currentUser w = Some uid -> isEmpty uid = false ->
  ioFails w (ioCount w) = false ->
  nothingToSync (remoteList w uid) (storedAnonymous w (S (ioCount w))) = false ->
  ioFails w (S (S (ioCount w))) = true ->
  let w' := exec syncFavorites w in
  alerts w' = alerts w ++ ["Sync Error"]
  /\ remote w' = remote w /\ anonymous w' = anonymous w.
Proof.
  intros Huser Huid Hread Hsync Hwrite. open_world w. subst cu.
  revert Hsync.
  run_handler; intros Hsync; try discriminate Hsync; conjs; reflexivity.
Qed.

Lemma syncFavorites_succeeds (w : World Recipe) (uid : string) :
  currentUser w = Some uid -> isEmpty uid = false ->
  (forall n, ioFails w n = false) ->
  let w' := exec syncFavorites w in
  let merged := mergeFavorites (remoteList w uid) (anonymousItems w) in
  items w' = merged
  /\ remoteList w' uid = merged
  /\ anonymousItems w' = []
  /\ currentUser w' = currentUser w
  /\ ioFails w' = ioFails w
  /\ alerts w' = alerts w
                 ++ (if (0 <? List.length (anonymousItems w))%nat
                     then ["Success"] else []).
Proof.
  intros Huser Huid Hio. open_world w. subst cu.
  run_handler; conjs; rewrite ?app_nil_r; reflexivity.
Qed.

End FavoritesSyncFacts.

Module GrocerySyncFacts.

Import Grocery GroceryController HandlerTactics.

Section SyncWithParser.

Variable parseDate : string -> option Z.

Lemma syncGroceryList_returns {Js : Engine} (w : World GroceryItem) :
  threw (syncGroceryList parseDate) w = false.
Proof. open_world w. run_handler; reflexivity. Qed.

Lemma syncGroceryList_items {Js : Engine} (w : World GroceryItem) (uid : string) :
  currentUser w = Some uid -> isEmpty uid = false ->
  items (exec (syncGroceryList parseDate) w)
  = if ioFails w (ioCount w) then items w
    else mergeGrocery (firestoreGrocery parseDate w uid)
           (anonymousGrocery parseDate w uid (storedAnonymous w (S (ioCount w)))).
Proof.
  intros Huser Huid. open_world w. subst cu.
  run_handler; rewrite ?Nat.add_0_r; reflexivity.
Qed.

Lemma syncGroceryList_read_rejected {Js : Engine} (w : World GroceryItem) (uid : string) :
  currentUser w = Some uid -> isEmpty uid = false ->
  ioFails w (ioCount w) = true ->
  let w' := exec (syncGroceryList parseDate) w in
  alerts w' = alerts w ++ ["Sync Error"]
  /\ remote w' = remote w /\ anonymous w' = anonymous w.
Proof.
  intros Huser Huid Hread. open_world w. subst cu.
  run_handler. conjs; reflexivity.
Qed.

Lemma syncGroceryList_write_rejected {Js : Engine} (w : World GroceryItem) (uid : string) :
  currentUser w = Some uid -> isEmpty uid = false ->
  ioFails w (ioCount w) = false ->
  nothingToSync (firestoreGrocery parseDate w uid)
                (anonymousGrocery parseDate w uid (storedAnonymous w (S (ioCount w))))
  = false ->
  ioFails w (S (S (ioCount w))) = true ->
  let w' := exec (syncGroceryList parseDate) w in
  alerts w' = alerts w ++ ["Sync Error"]
  /\ remote w' = remote w /\ anonymous w' = anonymous w.
Proof.
  intros Huser Huid Hread Hsync Hwrite. open_world w. subst cu.
  revert Hsync.
  run_handler; intros Hsync; try discriminate Hsync; conjs; reflexivity.
Qed.

Lemma syncGroceryList_succeeds {Js : Engine} (w : World GroceryItem) (uid : string) :
  currentUser w = Some uid -> isEmpty uid = false ->
  (forall n, ioFails w n = false) ->
  let w' := exec (syncGroceryList parseDate) w in
  let merged :=
    mergeGrocery (firestoreGrocery parseDate w uid)
                 (anonymousGrocery parseDate w uid (anonymousItems w)) in
  items w' = merged
  /\ anonymousItems w' = []
  /\ alerts w' = alerts w
                 ++ (if (0 <? List.length (anonymousItems w))%nat
                     then ["Success"] else []).
Proof.
  intros Huser Huid Hio. open_world w. subst cu.
  run_handler; conjs; rewrite ?app_nil_r, ?Nat.add_0_r; reflexivity.
Qed.

End SyncWithParser.

End GrocerySyncFacts.

Module SnapshotFacts.

Import HandlerTactics.

Lemma favorites_suppressed (w : World Recipe) uid docSnap :
  isUpdatingFromFirestore w = true ->
  FavoritesController.onFavoritesSnapshot uid docSnap w = (Returned tt, w).
Proof.
  intros Hflag. open_world w. subst upd.
  evaluate. destruct cu as [u|]; [destruct (u =? uid)%string|]; reflexivity.
Qed.

Lemma grocery_suppressed parseDate (w : World GroceryItem) uid docSnap :
  isUpdatingFromFirestore w = true ->
  GroceryController.onGrocerySnapshot parseDate uid docSnap w = (Returned tt, w).
Proof. intros Hflag. open_world w. subst upd. reflexivity. Qed.

Lemma favorites_migration (w : World Recipe) uid :
  isEmpty uid = false ->
  remoteField w uid = None ->
  (forall n, ioFails w n = false) ->
  let w' := exec (FavoritesController.favoritesSessionChanges (Some uid) ;;
                  FavoritesController.deliverFavoritesSnapshot) w in
  items w' = anonymousItems w
  /\ remoteField w' uid = Some (anonymousItems w)
  /\ anonymousItems w' = []
  /\ listener w' = Some uid.
Proof.
  intros Huid Hremote Hio. open_world w. revert Hremote.
  run_handler; intros Hremote; try discriminate Hremote; conjs; reflexivity.
Qed.

Lemma grocery_migration parseDate (w : World GroceryItem) uid :
  isEmpty uid = false ->
  remoteField w uid = None ->
  (forall n, ioFails w n = false) ->
  let w' := exec (GroceryController.grocerySessionChanges parseDate (Some uid) ;;
                  GroceryController.deliverGrocerySnapshot parseDate) w in
  let migrated :=
    GroceryController.normalizeFrom parseDate (clock w) (clockReads w)
                                    (anonymousItems w) in
  items w' = migrated
  /\ remoteField w' uid = Some migrated
  /\ anonymousItems w' = []
  /\ listener w' = Some uid.
Proof.
  intros Huid Hremote Hio. open_world w. revert Hremote.
  run_handler; intros Hremote; try discriminate Hremote; conjs; reflexivity.
Qed.

End SnapshotFacts.

(** Two runs of [syncFavorites] in a row, nothing rejected and no
    mutation in between, show the same list. *)
Lemma syncFavorites_twice (w : World Recipe) (uid : string) :
  currentUser w = Some uid -> isEmpty uid = false ->
  (forall n, ioFails w n = false) ->
  let once := exec FavoritesController.syncFavorites w in
  items (exec FavoritesController.syncFavorites once) = items once.
Proof.
  intros Huser Huid Hio once.
  destruct (FavoritesSyncFacts.syncFavorites_succeeds w uid Huser Huid Hio)
    as (Hitems & Hremote & Hanon & Hcu & Hiof & _).
  fold once in Hitems, Hremote, Hanon, Hcu, Hiof.
  rewrite (FavoritesSyncFacts.syncFavorites_items once uid);
    [|congruence | exact Huid].
  rewrite Hiof, Hio. unfold storedAnonymous. rewrite Hanon, Hremote, Hitems.
  now destruct (ioFails once (S (ioCount once))).
Qed.

(** C1 as stated fails: the merged list is put in the Local Cache
    before the remote write is attempted, so when that write (here the
    third I/O call, after the read of the document and the read of the
    anonymous store) is rejected, the cache already holds the merged
    list. *)
Lemma sync_failure_counterexample :
  let pie := mkRecipe 2 "Pie" "" "" in
  let cake := mkRecipe 3 "Cake" "" "" in
  let before :=
    setCurrentUser (Some "U")
      (setAnonymous (Some [cake])
         (firstLaunch (oneDocument "U" [pie]) (fun n => (n =? 2)%nat) 0)) in
  let after := exec FavoritesController.syncFavorites before in
  items before = []
  /\ alerts after = ["Sync Error"]
  /\ items after = [pie; cake]
  /\ items after <> items before.
Proof. cbv zeta. repeat split; try reflexivity. discriminate. Qed.

(** C1, amended. Sync-now failure: a rejected remote read or remote
    write is surfaced as the "Sync Error" notice.  When the read is
    rejected the Local Cache is what it was before the call.  When the
    write is rejected the Local Cache holds the complete merged list
    (the remote entries followed by the new anonymous ones), never a
    part of it, while the remote document and the Anonymous Store are
    what they were.  For favorites and for grocery items alike. *)
Theorem sync_failure {Js : Engine} :
  (forall (w : World Recipe) (uid : string),
      currentUser w = Some uid -> isEmpty uid = false ->
      let w' := exec FavoritesController.syncFavorites w in
      let remoteItems := remoteList w uid in
      let anonymousList := storedAnonymous w (S (ioCount w)) in
      (ioFails w (ioCount w) = true ->
       items w' = items w /\ alerts w' = alerts w ++ ["Sync Error"])
      /\ (ioFails w (ioCount w) = false ->
          nothingToSync remoteItems anonymousList = false ->
          ioFails w (S (S (ioCount w))) = true ->
          items w' = Favorites.mergeFavorites remoteItems anonymousList
          /\ alerts w' = alerts w ++ ["Sync Error"]
          /\ remote w' = remote w
          /\ anonymous w' = anonymous w))
  /\ (forall parseDate (w : World GroceryItem) (uid : string),
         currentUser w = Some uid -> isEmpty uid = false ->
         let w' := exec (GroceryController.syncGroceryList parseDate) w in
         let remoteItems := firestoreGrocery parseDate w uid in
         let anonymousList :=
           anonymousGrocery parseDate w uid
                            (storedAnonymous w (S (ioCount w))) in
         (ioFails w (ioCount w) = true ->
          items w' = items w /\ alerts w' = alerts w ++ ["Sync Error"])
         /\ (ioFails w (ioCount w) = false ->
             nothingToSync remoteItems anonymousList = false ->
             ioFails w (S (S (ioCount w))) = true ->
             items w' = Grocery.mergeGrocery remoteItems anonymousList
             /\ alerts w' = alerts w ++ ["Sync Error"]
             /\ remote w' = remote w
             /\ anonymous w' = anonymous w)).
Proof.
  split.
  - intros w uid Huser Huid w' remoteItems anonymousList.
    pose proof (FavoritesSyncFacts.syncFavorites_items w uid Huser Huid) as Hitems.
    fold w' in Hitems. split.
    + intros Hread. rewrite Hread in Hitems. split; [exact Hitems|].
      apply (FavoritesSyncFacts.syncFavorites_read_rejected w uid Huser Huid Hread).
    + intros Hread Hsync Hwrite. rewrite Hread in Hitems.
      split; [exact Hitems|].
      exact (FavoritesSyncFacts.syncFavorites_write_rejected
               w uid Huser Huid Hread Hsync Hwrite).
  - intros parseDate w uid Huser Huid w' remoteItems anonymousList.
    pose proof (GrocerySyncFacts.syncGroceryList_items parseDate w uid Huser Huid)
      as Hitems.
    fold w' in Hitems. split.
    + intros Hread. rewrite Hread in Hitems. split; [exact Hitems|].
      apply (GrocerySyncFacts.syncGroceryList_read_rejected
               parseDate w uid Huser Huid Hread).
    + intros Hread Hsync Hwrite. rewrite Hread in Hitems.
      split; [exact Hitems|].
      exact (GrocerySyncFacts.syncGroceryList_write_rejected
               parseDate w uid Huser Huid Hread Hsync Hwrite).
Qed.

(** A rejected read: the list in memory stays [Soup]. *)
Lemma sync_failure_witness :
  let soup := mkRecipe 1 "Soup" "" "" in
  let before :=
    setItems [soup]
      (setCurrentUser (Some "U")
         (firstLaunch (oneDocument "U" [mkRecipe 2 "Pie" "" ""])
                      (fun n => (n =? 0)%nat) 0)) in
  let after := exec FavoritesController.syncFavorites before in
  items after = items before /\ alerts after = alerts before ++ ["Sync Error"].
Proof.
  cbv zeta.
  apply (proj1 (sync_failure (Js := AsciiText.engine))
               (setItems [mkRecipe 1 "Soup" "" ""]
                  (setCurrentUser (Some "U")
                     (firstLaunch (oneDocument "U" [mkRecipe 2 "Pie" "" ""])
                                  (fun n => (n =? 0)%nat) 0)))
               "U"); reflexivity.
Defined.

(** C4 as stated fails in three ways.  An account whose document has
    the field with an empty list holds no items either, but the field
    exists, so the snapshot callback adopts the empty list and
    migrates nothing.  A favorite added just before the sign-in is
    only in the Local Cache: the sign-in cancels its debounced save, the
    Anonymous Store is migrated empty and the favorite is lost.  And
    when the write of the migration is rejected, the controller creates
    the document with an empty list and shows that, while the
    Anonymous Store keeps its items. *)
Lemma migration_on_sign_in_counterexample :
  let soup := mkRecipe 1 "Soup" "" "" in
  (let w := setAnonymous (Some [soup])
              (firstLaunch (oneDocument "U" []) (fun _ => false) 0) in
   let w' := exec (FavoritesController.favoritesSessionChanges (Some "U") ;;
                   FavoritesController.deliverFavoritesSnapshot) w in
   remoteList w "U" = []
   /\ items w' = [] /\ remoteList w' "U" = []
   /\ anonymous w' = Some [soup])
  /\ (let w1 := exec (FavoritesController.favoritesSessionChanges None ;;
                      FavoritesController.dispatch (Favorites.AddFavorite soup))
                     (firstLaunch (fun _ => None) (fun _ => false) 0) in
      let w' := exec (FavoritesController.favoritesSessionChanges (Some "U") ;;
                      FavoritesController.deliverFavoritesSnapshot ;;
                      FavoritesController.fireSaveTimer) w1 in
      items w1 = [soup] /\ remoteField w1 "U" = None
      /\ items w' = [] /\ remoteField w' "U" = Some []
      /\ anonymous w' = None)
  /\ (let w := setAnonymous (Some [soup])
                 (firstLaunch (fun _ => None) (fun n => (n =? 1)%nat) 0) in
      let w' := exec (FavoritesController.favoritesSessionChanges (Some "U") ;;
                      FavoritesController.deliverFavoritesSnapshot) w in
      remoteField w "U" = None
      /\ items w' = [] /\ remoteField w' "U" = Some []
      /\ anonymous w' = Some [soup]).
Proof. cbv zeta. repeat split; reflexivity. Qed.

(** C4, amended. Anonymous-to-account migration: when a sign-in occurs,
    the account's remote document has no field of the controller's
    kind (the document is missing or lacks the field) and no store
    call is rejected, the first snapshot makes the controller write the
    items of the Anonymous Store (for grocery items, with [addedAt]
    normalised as on every load) to the remote document, set the Local
    Cache to exactly those items, and leave the Anonymous Store without
    items.  Starting unauthenticated, adding the favorite [{1, Soup}],
    letting its debounced save reach the Anonymous Store and signing in
    to an account without a favorites field ends with Local Cache and
    remote document both [[{1, Soup}]] and the Anonymous Store
    cleared. *)
Theorem migration_on_sign_in :
  (forall (w : World Recipe) (uid : string),
      isEmpty uid = false ->
      remoteField w uid = None ->
      (forall n, ioFails w n = false) ->
      let w' := exec (FavoritesController.favoritesSessionChanges (Some uid) ;;
                      FavoritesController.deliverFavoritesSnapshot) w in
      items w' = anonymousItems w
      /\ remoteField w' uid = Some (anonymousItems w)
      /\ anonymousItems w' = [])
  /\ (forall parseDate (w : World GroceryItem) (uid : string),
         isEmpty uid = false ->
         remoteField w uid = None ->
         (forall n, ioFails w n = false) ->
         let w' := exec (GroceryController.grocerySessionChanges parseDate (Some uid) ;;
                         GroceryController.deliverGrocerySnapshot parseDate) w in
         let migrated :=
           GroceryController.normalizeFrom parseDate (clock w) (clockReads w)
                                           (anonymousItems w) in
         items w' = migrated
         /\ remoteField w' uid = Some migrated
         /\ anonymousItems w' = [])
  /\ (let soup := mkRecipe 1 "Soup" "" "" in
      let w' :=
        exec (FavoritesController.favoritesSessionChanges None ;;
              FavoritesController.dispatch (Favorites.AddFavorite soup) ;;
              FavoritesController.fireSaveTimer ;;
              FavoritesController.favoritesSessionChanges (Some "U") ;;
              FavoritesController.deliverFavoritesSnapshot)
             (firstLaunch (fun _ => None) (fun _ => false) 0) in
      items w' = [soup]
      /\ remoteField w' "U" = Some [soup]
      /\ anonymous w' = None).
Proof.
  split; [|split].
  - intros w uid Huid Hremote Hio.
    destruct (SnapshotFacts.favorites_migration w uid Huid Hremote Hio)
      as (H1 & H2 & H3 & _).
    repeat split; assumption.
  - intros parseDate w uid Huid Hremote Hio.
    destruct (SnapshotFacts.grocery_migration parseDate w uid Huid Hremote Hio)
      as (H1 & H2 & H3 & _).
    repeat split; assumption.
  - cbv zeta. repeat split; reflexivity.
Qed.

(** A grocery list of one item stored with an ISO string migrates to
    account "U" with the date the parser reads from the string. *)
Lemma migration_on_sign_in_witness :
  let parse := fun s => if (s =? "2024-01-01T00:00:00.000Z")%string
                        then Some 1704067200000%Z else None in
  let stored := mkItem "a1" "Milk" false (JString "2024-01-01T00:00:00.000Z") in
  let before :=
    setAnonymous (Some [stored])
                 (firstLaunch (fun _ => None) (fun _ => false) 5) in
  let after := exec (GroceryController.grocerySessionChanges parse (Some "U") ;;
                     GroceryController.deliverGrocerySnapshot parse) before in
  items after = [mkItem "a1" "Milk" false (JDate (Some 1704067200000%Z))]
  /\ remoteField after "U"
     = Some [mkItem "a1" "Milk" false (JDate (Some 1704067200000%Z))]
  /\ anonymousItems after = [].
Proof.
  cbv zeta.
  apply (proj1 (proj2 migration_on_sign_in)
               (fun s => if (s =? "2024-01-01T00:00:00.000Z")%string
                         then Some 1704067200000%Z else None)
               (setAnonymous
                  (Some [mkItem "a1" "Milk" false
                                (JString "2024-01-01T00:00:00.000Z")])
                  (firstLaunch (fun _ => None) (fun _ => false) 5))
               "U"); reflexivity.
Defined.

(** C9. Echo suppression: while [isUpdatingFromFirestore] is set, the
    snapshot callback of either controller returns at once and leaves
    the world, and so the Local Cache, as it is, whatever the snapshot
    holds; so does the delivery of a snapshot to the live subscription. *)
Theorem echo_suppression :
  (forall (w : World Recipe) uid docSnap,
      isUpdatingFromFirestore w = true ->
      FavoritesController.onFavoritesSnapshot uid docSnap w = (Returned tt, w)
      /\ items (exec (FavoritesController.onFavoritesSnapshot uid docSnap) w) = items w
      /\ items (exec FavoritesController.deliverFavoritesSnapshot w) = items w)
  /\ (forall parseDate (w : World GroceryItem) uid docSnap,
         isUpdatingFromFirestore w = true ->
         GroceryController.onGrocerySnapshot parseDate uid docSnap w = (Returned tt, w)
         /\ items (exec (GroceryController.onGrocerySnapshot parseDate uid docSnap) w)
            = items w
         /\ items (exec (GroceryController.deliverGrocerySnapshot parseDate) w)
            = items w).
Proof.
  split.
  - intros w uid docSnap Hflag.
    pose proof (SnapshotFacts.favorites_suppressed w) as Hsup.
    split; [now apply Hsup|]. split.
    + unfold exec. now rewrite Hsup.
    + unfold exec, FavoritesController.deliverFavoritesSnapshot, bind, gets.
      destruct (listener w); [|reflexivity]. now rewrite Hsup.
  - intros parseDate w uid docSnap Hflag.
    pose proof (SnapshotFacts.grocery_suppressed parseDate w) as Hsup.
    split; [now apply Hsup|]. split.
    + unfold exec. now rewrite Hsup.
    + unfold exec, GroceryController.deliverGrocerySnapshot, bind, gets.
      destruct (listener w); [|reflexivity]. now rewrite Hsup.
Qed.

(** While a write is in flight, a snapshot with another list does not
    reach the list in memory. *)
Lemma echo_suppression_witness :
  let soup := mkRecipe 1 "Soup" "" "" in
  let pie := mkRecipe 2 "Pie" "" "" in
  let w :=
    setUpdating true
      (setItems [soup]
         (setCurrentUser (Some "U")
            (firstLaunch (oneDocument "U" [pie]) (fun _ => false) 0))) in
  isUpdatingFromFirestore w = true
  /\ items (exec (FavoritesController.onFavoritesSnapshot "U" (Some (Some [pie]))) w)
     = [soup].
Proof.
  cbv zeta. split; [reflexivity|].
  apply (proj1 echo_suppression
               (setUpdating true
                  (setItems [mkRecipe 1 "Soup" "" ""]
                     (setCurrentUser (Some "U")
                        (firstLaunch (oneDocument "U" [mkRecipe 2 "Pie" "" ""])
                                     (fun _ => false) 0))))
               "U" (Some (Some [mkRecipe 2 "Pie" "" ""]))).
  reflexivity.
Defined.

(** * Further properties of the list operations *)

Module ListOperationFacts.

Import Grocery Favorites Screens.

Lemma filter_fixed {A} (keep : A -> bool) (xs : list A) :
  (forall x, In x xs -> keep x = true) -> filter keep xs = xs.
Proof.
  induction xs as [|x xs IH]; simpl; intros Hall; [reflexivity|].
  rewrite (Hall x (or_introl eq_refl)). f_equal.
  apply IH. intros y Hy. apply Hall. now right.
Qed.

Lemma filter_twice {A} (keep : A -> bool) (xs : list A) :
  filter keep (filter keep xs) = filter keep xs.
Proof.
  apply filter_fixed. intros x Hx. apply filter_In in Hx. tauto.
Qed.

Lemma filter_removed {A} (drop : A -> bool) (xs : list A) :
  RemovedWhere (fun x => drop x = true) xs (filter (fun x => negb (drop x)) xs).
Proof.
  induction xs as [|x xs IH]; simpl; [constructor|].
  destruct (drop x) eqn:E; simpl.
  - now apply RemovedDrop.
  - apply RemovedKeep; [congruence | exact IH].
Qed.

Lemma filter_partition_length {A} (p : A -> bool) (xs : list A) :
  (List.length (filter p xs) + List.length (filter (fun x => negb (p x)) xs)
   = List.length xs)%nat.
Proof.
  induction xs as [|x xs IH]; simpl; [reflexivity|].
  destruct (p x); simpl; lia.
Qed.

Lemma toggled_twice (id : string) (item : GroceryItem) :
  (fun item0 => if (itemId item0 =? id)%string
                then setChecked (negb (checked item0)) item0 else item0)
    (if (itemId item =? id)%string
     then setChecked (negb (checked item)) item else item)
  = item.
Proof.
  destruct item as [i n c d]. simpl.
  destruct (i =? id)%string eqn:E; simpl; rewrite E; [|reflexivity].
  unfold setChecked. simpl. now rewrite negb_involutive.
Qed.

Lemma sameName_existsb_find {Js : Engine} (s : string) (l : list GroceryItem) :
  find (sameName s) l = None <-> existsb (sameName s) l = false.
Proof.
  induction l as [|x l IH]; simpl; [tauto|].
  destruct (sameName s x); simpl; [split; discriminate | exact IH].
Qed.

End ListOperationFacts.

(** X1. Toggling the same grocery item twice gives the list back as it
    was; one toggle keeps every id and name in place and changes the
    [checked] flag of the items with that id only. *)
Theorem toggleGroceryItem_involutive (id : string) (l : list GroceryItem) :
  next (Grocery.toggleGroceryItem id (next (Grocery.toggleGroceryItem id l))) = l
  /\ map itemId (next (Grocery.toggleGroceryItem id l)) = map itemId l
  /\ map itemName (next (Grocery.toggleGroceryItem id l)) = map itemName l
  /\ (forall item, In item l -> itemId item <> id ->
                   In item (next (Grocery.toggleGroceryItem id l))).
Proof.
  simpl. split; [|split; [|split]].
  - rewrite map_map. rewrite <- (map_id l) at 2. apply map_ext.
    intros item. apply ListOperationFacts.toggled_twice.
  - rewrite map_map. apply map_ext. intros item.
    now destruct (itemId item =? id)%string.
  - rewrite map_map. apply map_ext. intros item.
    now destruct (itemId item =? id)%string.
  - intros item Hin Hne. apply in_map_iff. exists item. split; [|exact Hin].
    apply String.eqb_neq in Hne. now rewrite Hne.
Qed.

(** X2. [removeGroceryItem(id)] takes out every item with that id and
    keeps the others unchanged and in order; when no item has the id
    the list is returned as it is, and removing twice is removing
    once. *)
Theorem removeGroceryItem_spec (id : string) (l : list GroceryItem) :
  let result := next (Grocery.removeGroceryItem id l) in
  RemovedWhere (fun item => itemId item = id) l result
  /\ ((forall item, In item l -> itemId item <> id) -> result = l)
  /\ next (Grocery.removeGroceryItem id result) = result.
Proof.
  simpl. split; [|split].
  - induction l as [|x l IH]; simpl; [constructor|].
    destruct (itemId x =? id)%string eqn:E; simpl.
    + apply RemovedDrop; [now apply String.eqb_eq | exact IH].
    + apply RemovedKeep; [now apply String.eqb_neq | exact IH].
  - intros Habsent. apply ListOperationFacts.filter_fixed.
    intros item Hin. apply negb_true_iff, String.eqb_neq. now apply Habsent.
  - apply ListOperationFacts.filter_twice.
Qed.

(** X3. [clearCheckedItems()] keeps exactly the unchecked items,
    unchanged and in order, and saves at once.  In the statistics of
    the grocery screen the checked count drops to zero and the
    unchecked count stays; the two counts always add up to the length
    of the list.  Clearing twice is clearing once. *)
Theorem clearCheckedItems_spec (l : list GroceryItem) :
  let result := next (Grocery.clearCheckedItems l) in
  RemovedWhere (fun item => checked item = true) l result
  /\ saved (Grocery.clearCheckedItems l) = Some (result, true)
  /\ Screens.checkedCount result = 0%nat
  /\ Screens.uncheckedCount result = Screens.uncheckedCount l
  /\ (Screens.checkedCount l + Screens.uncheckedCount l = List.length l)%nat
  /\ next (Grocery.clearCheckedItems result) = result.
Proof.
  simpl. split; [|split; [|split; [|split; [|split]]]].
  - apply ListOperationFacts.filter_removed.
  - reflexivity.
  - unfold Screens.checkedCount.
    induction l as [|x l IH]; simpl; [reflexivity|].
    destruct (checked x) eqn:E; simpl; [exact IH|]. now rewrite E.
  - unfold Screens.uncheckedCount.
    now rewrite ListOperationFacts.filter_twice.
  - apply (ListOperationFacts.filter_partition_length (fun item => checked item)).
  - apply ListOperationFacts.filter_twice.
Qed.

Module ScreenFacts.

Import Grocery Favorites Screens.

Lemma isIngredientInGrocery_true {Js : Engine} (n : string) (l : list GroceryItem) :
  isIngredientInGrocery n l = true <->
  exists item, In item l /\ lowerTrim (itemName item) = lowerTrim n
               /\ checked item = false.
Proof.
  unfold isIngredientInGrocery. rewrite existsb_exists.
  split; intros [item [Hin H]]; exists item.
  - apply andb_true_iff in H. destruct H as [Hk Hc].
    apply String.eqb_eq in Hk. apply negb_true_iff in Hc. tauto.
  - destruct H as [Hk Hc]. split; [exact Hin|].
    apply andb_true_iff. split; [now apply String.eqb_eq | now rewrite Hc].
Qed.

Lemma isIngredientInGrocery_false {Js : Engine} (n : string) (l : list GroceryItem) :
  isIngredientInGrocery n l = false ->
  forall item, In item l -> lowerTrim (itemName item) = lowerTrim n ->
               checked item = true.
Proof.
  intros Hfalse item Hin Hk.
  destruct (checked item) eqn:Hc; [reflexivity|].
  assert (isIngredientInGrocery n l = true) as Htrue
      by (apply isIngredientInGrocery_true; eauto).
  congruence.
Qed.

Lemma hasId_filter_same (id : Z) (l : list Recipe) :
  hasId id (filter (fun r => negb (recipeId r =? id)%Z) l) = false.
Proof.
  unfold hasId. induction l as [|x l IH]; simpl; [reflexivity|].
  destruct (recipeId x =? id)%Z eqn:E; simpl; [exact IH|].
  now rewrite E.
Qed.

Lemma hasId_filter_other (id id' : Z) (l : list Recipe) :
  id' <> id ->
  hasId id' (filter (fun r => negb (recipeId r =? id)%Z) l) = hasId id' l.
Proof.
  intros Hne. unfold hasId. induction l as [|x l IH]; simpl; [reflexivity|].
  destruct (recipeId x =? id)%Z eqn:E; simpl.
  - apply Z.eqb_eq in E.
    assert ((recipeId x =? id')%Z = false) as -> by (apply Z.eqb_neq; congruence).
    exact IH.
  - now rewrite IH.
Qed.

Lemma hasId_false_filter (id : Z) (l : list Recipe) :
  hasId id l = false -> filter (fun r => negb (recipeId r =? id)%Z) l = l.
Proof.
  intros H. apply ListOperationFacts.filter_fixed. intros x Hx.
  apply negb_true_iff. destruct (recipeId x =? id)%Z eqn:E; [|reflexivity].
  unfold hasId in H.
  assert (existsb (fun fav => (recipeId fav =? id)%Z) l = true)
    by (apply existsb_exists; eauto).
  congruence.
Qed.

Lemma addGroceryItem_fresh {Js : Engine} {JsLaws : EngineLaws Js}
      (freshId : string) (now : Z) (n : string) (l : list GroceryItem) :
  isEmpty (trim n) = false ->
  (forall item, In item l -> lowerTrim (itemName item) <> lowerTrim n) ->
  addGroceryItem freshId now n l
  = debounced (l ++ [mkItem freshId (trim n) false (JDate (Some now))]).
Proof.
  intros Hnonblank Hfresh. unfold addGroceryItem.
  rewrite (GroceryFacts.guard_passes n Hnonblank).
  destruct (find (sameName n) l) as [existing|] eqn:Efind; [|reflexivity].
  apply find_some in Efind. destruct Efind as [Hin Hsame].
  apply GroceryFacts.sameName_true in Hsame.
  exfalso. exact (Hfresh existing Hin Hsame).
Qed.

Lemma toggle_flips {Js : Engine} {JsLaws : EngineLaws Js}
      (freshId : string) (now : Z) (n : string) (l : list GroceryItem) :
  isEmpty (trim n) = false ->
  isIngredientInGrocery n (next (handleToggleGroceryItem freshId now n l))
  = negb (isIngredientInGrocery n l).
Proof.
  intros Hnonblank. unfold handleToggleGroceryItem.
  destruct (isIngredientInGrocery n l) eqn:Hin; simpl.
  - destruct (isIngredientInGrocery
                n (filter (fun item => negb (sameName n item)) l))
      eqn:Hafter; [|reflexivity].
    apply isIngredientInGrocery_true in Hafter.
    destruct Hafter as [item [Hitem [Hk _]]].
    apply filter_In in Hitem. destruct Hitem as [_ Hkeep].
    apply negb_true_iff, GroceryFacts.sameName_false in Hkeep.
    contradiction.
  - apply isIngredientInGrocery_true.
    unfold addGroceryItem.
    rewrite (GroceryFacts.guard_passes n Hnonblank).
    destruct (find (sameName n) l) as [existing|] eqn:Efind.
    + apply find_some in Efind. destruct Efind as [Hex Hsame].
      apply GroceryFacts.sameName_true in Hsame.
      rewrite (isIngredientInGrocery_false n l Hin existing Hex Hsame).
      simpl. exists (setChecked false existing).
      split; [|split; [exact Hsame | reflexivity]].
      apply in_map_iff. exists existing. split; [|exact Hex].
      now rewrite String.eqb_refl.
    + simpl. exists (mkItem freshId (trim n) false (JDate (Some now))).
      split; [apply in_or_app; right; left; reflexivity|].
      split; [apply JsStringFacts.key_of_trimmed | reflexivity].
Qed.

End ScreenFacts.

(** X4. Adding an ingredient whose name is not blank and matches no
    item of the list appends exactly one item: unchecked, named by the
    trimmed text, dated now, with the fresh id; the new list goes to the
    debounced save, and the name the user typed now counts as being in
    the grocery list. *)
Theorem addGroceryItem_new {Js : Engine} {JsLaws : EngineLaws Js}
        (freshId : string) (now : Z) (n : string) (l : list GroceryItem)
        (Hnonblank : isEmpty (trim n) = false)
        (Hfresh : forall item, In item l ->
                               lowerTrim (itemName item) <> lowerTrim n) :
  Grocery.addGroceryItem freshId now n l
  = debounced (l ++ [mkItem freshId (trim n) false (JDate (Some now))])
  /\ Screens.isIngredientInGrocery
       n (next (Grocery.addGroceryItem freshId now n l)) = true.
Proof.
  pose proof (ScreenFacts.addGroceryItem_fresh freshId now n l Hnonblank Hfresh)
    as Hadd.
  split; [exact Hadd|]. rewrite Hadd. simpl.
  apply ScreenFacts.isIngredientInGrocery_true.
  exists (mkItem freshId (trim n) false (JDate (Some now))).
  split; [apply in_or_app; right; left; reflexivity|].
  split; [apply JsStringFacts.key_of_trimmed | reflexivity].
Qed.

Section On_addGroceryItem_new_witness.

#[local] Existing Instance AsciiText.engine.
#[local] Existing Instance AsciiTextFacts.laws.

Lemma addGroceryItem_new_witness :
  let eggs := mkItem "a" "Eggs" true (JDate (Some 1%Z)) in
  next (Grocery.addGroceryItem "b" 2%Z "  Oat Milk " [eggs])
  = [eggs; mkItem "b" "Oat Milk" false (JDate (Some 2%Z))].
Proof.
  cbv zeta.
  refine (f_equal (@next GroceryItem)
            (proj1 (addGroceryItem_new
                      "b" 2%Z "  Oat Milk "
                      [mkItem "a" "Eggs" true (JDate (Some 1%Z))]
                      eq_refl _))).
  intros item [<-|[]]. vm_compute. discriminate.
Defined.

End On_addGroceryItem_new_witness.

(** X5. Adding a name that is blank, or a name whose first match in
    the list is an unchecked item, changes nothing and schedules no
    save. *)
Theorem addGroceryItem_no_op {Js : Engine}
        (freshId : string) (now : Z) (n : string) :
  (forall l, isEmpty (trim n) = true ->
             Grocery.addGroceryItem freshId now n l = unchanged l)
  /\ (forall before e after,
         (forall x, In x before -> lowerTrim (itemName x) <> lowerTrim n) ->
         lowerTrim (itemName e) = lowerTrim n ->
         checked e = false ->
         Grocery.addGroceryItem freshId now n (before ++ e :: after)
         = unchanged (before ++ e :: after)).
Proof.
  unfold Grocery.addGroceryItem. split.
  - intros l Hblank. rewrite Hblank, orb_true_r. reflexivity.
  - intros before e after Hfirst Hname Hunchecked.
    destruct (isEmpty n || isEmpty (trim n)); [reflexivity|].
    rewrite (ReactivationFacts.find_first (Grocery.sameName n) before after e).
    + now rewrite Hunchecked.
    + intros x Hx. apply GroceryFacts.sameName_false. now apply Hfirst.
    + now apply GroceryFacts.sameName_true.
Qed.

Section On_addGroceryItem_no_op_witness.

#[local] Existing Instance AsciiText.engine.

(** " milk" on a list where an unchecked "Milk" comes before a checked
    "MILK", and a blank name. *)
Lemma addGroceryItem_no_op_witness :
  let eggs := mkItem "e" "Eggs" true (JDate (Some 0%Z)) in
  let milk := mkItem "a" "Milk" false (JDate (Some 1%Z)) in
  let other := mkItem "c" "MILK" true (JDate (Some 2%Z)) in
  Grocery.addGroceryItem "b" 2%Z " milk" [eggs; milk; other]
  = unchanged [eggs; milk; other]
  /\ Grocery.addGroceryItem "b" 2%Z "   " [milk] = unchanged [milk].
Proof.
  cbv zeta. split.
  - refine (proj2 (addGroceryItem_no_op "b" 2%Z " milk")
                  [mkItem "e" "Eggs" true (JDate (Some 0%Z))]
                  (mkItem "a" "Milk" false (JDate (Some 1%Z)))
                  [mkItem "c" "MILK" true (JDate (Some 2%Z))]
                  _ eq_refl eq_refl).
    intros x [<-|[]]. vm_compute. discriminate.
  - apply (proj1 (addGroceryItem_no_op "b" 2%Z "   ")). reflexivity.
Defined.

End On_addGroceryItem_no_op_witness.

(** X6. The ingredient button of the recipe screens is a switch: for a
    name that is not blank, after [handleToggleGroceryItem(name)] the
    answer of [isIngredientInGrocery(name)] is the opposite of what it
    was, whatever the list. *)
Theorem handleToggleGroceryItem_flips {Js : Engine} {JsLaws : EngineLaws Js}
        (freshId : string) (now : Z) (n : string) (l : list GroceryItem)
        (Hnonblank : isEmpty (trim n) = false) :
  Screens.isIngredientInGrocery
    n (next (Screens.handleToggleGroceryItem freshId now n l))
  = negb (Screens.isIngredientInGrocery n l).
Proof. exact (ScreenFacts.toggle_flips freshId now n l Hnonblank). Qed.

Section On_handleToggleGroceryItem_flips_witness.

#[local] Existing Instance AsciiText.engine.
#[local] Existing Instance AsciiTextFacts.laws.

Lemma handleToggleGroceryItem_flips_witness :
  let milk := mkItem "a" "Milk" true (JDate (Some 1%Z)) in
  Screens.isIngredientInGrocery "milk" [milk] = false
  /\ Screens.isIngredientInGrocery
       "milk" (next (Screens.handleToggleGroceryItem "b" 2%Z "milk" [milk]))
     = true.
Proof.
  cbv zeta. split; [reflexivity|].
  exact (handleToggleGroceryItem_flips
           "b" 2%Z "milk" [mkItem "a" "Milk" true (JDate (Some 1%Z))]
           eq_refl).
Defined.

End On_handleToggleGroceryItem_flips_witness.

(** X7. Pressing the ingredient button twice for a name that is not
    blank and that no item carries gives the list back as it was: the
    item added by the first press is the one the second removes. *)
Theorem handleToggleGroceryItem_twice {Js : Engine} {JsLaws : EngineLaws Js}
        (id1 id2 : string) (t1 t2 : Z) (n : string) (l : list GroceryItem)
        (Hnonblank : isEmpty (trim n) = false)
        (Hfresh : forall item, In item l ->
                               lowerTrim (itemName item) <> lowerTrim n) :
  next (Screens.handleToggleGroceryItem
          id2 t2 n (next (Screens.handleToggleGroceryItem id1 t1 n l)))
  = l.
Proof.
  assert (Hout : Screens.isIngredientInGrocery n l = false).
  { destruct (Screens.isIngredientInGrocery n l) eqn:E; [|reflexivity].
    apply ScreenFacts.isIngredientInGrocery_true in E.
    destruct E as [item [Hin [Hk _]]]. exfalso. exact (Hfresh item Hin Hk). }
  pose proof (ScreenFacts.toggle_flips id1 t1 n l Hnonblank) as Hflip.
  rewrite Hout in Hflip. simpl in Hflip.
  unfold Screens.handleToggleGroceryItem at 1. rewrite Hflip.
  unfold Screens.handleToggleGroceryItem. rewrite Hout.
  rewrite (ScreenFacts.addGroceryItem_fresh id1 t1 n l Hnonblank Hfresh). simpl.
  rewrite filter_app. simpl.
  assert (Grocery.sameName n (mkItem id1 (trim n) false (JDate (Some t1))) = true)
    as -> by (apply GroceryFacts.sameName_true, JsStringFacts.key_of_trimmed).
  simpl. rewrite app_nil_r.
  apply ListOperationFacts.filter_fixed. intros item Hin.
  apply negb_true_iff, GroceryFacts.sameName_false. now apply Hfresh.
Qed.

Section On_handleToggleGroceryItem_twice_witness.

#[local] Existing Instance AsciiText.engine.
#[local] Existing Instance AsciiTextFacts.laws.

Lemma handleToggleGroceryItem_twice_witness :
  let eggs := mkItem "a" "Eggs" false (JDate (Some 1%Z)) in
  next (Screens.handleToggleGroceryItem
          "c" 3%Z "Milk"
          (next (Screens.handleToggleGroceryItem "b" 2%Z "Milk" [eggs])))
  = [eggs].
Proof.
  cbv zeta.
  apply (handleToggleGroceryItem_twice
           "b" "c" 2%Z 3%Z "Milk" [mkItem "a" "Eggs" false (JDate (Some 1%Z))]).
  - reflexivity.
  - intros item [<-|[]]. vm_compute. discriminate.
Defined.

End On_handleToggleGroceryItem_twice_witness.

(** X8. [saveRecipeToFavorites] of the search screen and
    [handleFavoriteToggle] of the library screen, on the same open
    recipe and the same list: with no recipe open both do nothing;
    when the recipe's id is in the list both take out every entry with
    that id and schedule the same save; when it is not, both append
    one entry with the recipe's id, title and image, and the two
    entries are the same exactly when the recipe has instructions that
    are not empty, for otherwise the search screen stores the empty
    text as details and the library screen "No details provided.".  In
    every case the two resulting lists hold the same ids in the same
    order. *)
Theorem saveRecipeToFavorites_and_handleFavoriteToggle
        (selectedRecipe : option Screens.SelectedRecipe)
        (favorites : list Recipe) :
  let search := Screens.saveRecipeToFavorites selectedRecipe favorites in
  let library := Screens.handleFavoriteToggle selectedRecipe favorites in
  map recipeId (next search) = map recipeId (next library)
  /\ (selectedRecipe = None ->
      search = unchanged favorites /\ library = unchanged favorites)
  /\ (forall selected,
         selectedRecipe = Some selected ->
         Favorites.isFavorited (Screens.selectedId selected) favorites = true ->
         search = library
         /\ search
            = debounced
                (filter (fun r => negb (recipeId r
                                        =? Screens.selectedId selected)%Z)
                        favorites))
  /\ (forall selected,
         selectedRecipe = Some selected ->
         Favorites.isFavorited (Screens.selectedId selected) favorites = false ->
         let entry details :=
           mkRecipe (Screens.selectedId selected)
                    (Screens.selectedTitle selected) details
                    (Screens.selectedImage selected) in
         search
         = debounced
             (favorites
                ++ [entry (Screens.orElse
                             (Screens.selectedInstructions selected) "")])
         /\ library
            = debounced
                (favorites
                   ++ [entry (Screens.orElse
                                (Screens.selectedInstructions selected)
                                "No details provided.")])
         /\ (search = library
             <-> exists text,
                 Screens.selectedInstructions selected = Some text
                 /\ isEmpty text = false)).
Proof.
  cbv zeta.
  destruct selectedRecipe as [[id title image instructions]|].
  2: { split; [reflexivity|]. split; [now split|].
       split; intros selected Hsel; discriminate Hsel. }
  unfold Screens.saveRecipeToFavorites, Screens.handleFavoriteToggle,
    Favorites.toggleFavorite, Favorites.addFavorite, Favorites.removeFavorite.
  cbn [Screens.selectedId Screens.selectedTitle Screens.selectedImage
       Screens.selectedInstructions recipeId].
  change (Favorites.hasId id favorites)
    with (Favorites.isFavorited id favorites).
  destruct (Favorites.isFavorited id favorites) eqn:Hfav.
  - split; [reflexivity|]. split; [discriminate|]. split.
    + intros selected Hsel _. inversion Hsel. subst selected.
      now split.
    + intros selected Hsel Hnot. inversion Hsel. subst selected.
      cbn in Hnot. congruence.
  - split.
    { cbn [next debounced]. now rewrite !map_app. }
    split; [discriminate|]. split.
    + intros selected Hsel Hyes. inversion Hsel. subst selected.
      cbn in Hyes. congruence.
    + intros selected Hsel _. inversion Hsel. subst selected.
      cbn [Screens.selectedId Screens.selectedTitle Screens.selectedImage
           Screens.selectedInstructions].
      split; [reflexivity|]. split; [reflexivity|].
      destruct instructions as [[|c text]|]; cbn [Screens.orElse isEmpty].
      * split.
        -- intros Heq. apply (f_equal (@next Recipe)) in Heq.
           cbn [next debounced] in Heq. apply app_inv_head in Heq.
           discriminate Heq.
        -- intros (text & Htext & Hnonempty). inversion Htext. subst text.
           discriminate Hnonempty.
      * split; [|reflexivity].
        intros _. exists (String c text). now split.
      * split.
        -- intros Heq. apply (f_equal (@next Recipe)) in Heq.
           cbn [next debounced] in Heq. apply app_inv_head in Heq.
           discriminate Heq.
        -- intros (text & Htext & _). discriminate Htext.
Qed.

(** X9. Trimming the typed text before calling [addGroceryItem], as
    the grocery screen does, makes no difference: [handleAddIngredient]
    on a text is [addGroceryItem] on that text. *)
Theorem handleAddIngredient_is_addGroceryItem {Js : Engine} {JsLaws : EngineLaws Js}
        (freshId : string) (now : Z) (text : string) (l : list GroceryItem) :
  Screens.handleAddIngredient freshId now text l
  = Grocery.addGroceryItem freshId now text l.
Proof.
  unfold Screens.handleAddIngredient, Grocery.addGroceryItem.
  destruct (isEmpty (trim text)) eqn:Hblank; simpl.
  - now rewrite orb_true_r.
  - pose proof (GroceryFacts.guard_passes text Hblank) as Hguard.
    rewrite Hblank in Hguard. rewrite Hguard.
    rewrite trim_idempotent, Hblank. simpl.
    unfold Grocery.sameName. rewrite JsStringFacts.key_of_trimmed.
    reflexivity.
Qed.

Section On_handleAddIngredient_is_addGroceryItem_witness.

#[local] Existing Instance AsciiText.engine.
#[local] Existing Instance AsciiTextFacts.laws.

(** Typing "  Oat Milk " into the grocery screen adds "Oat Milk". *)
Lemma handleAddIngredient_is_addGroceryItem_witness :
  next (Screens.handleAddIngredient "b" 2%Z "  Oat Milk " [])
  = [mkItem "b" "Oat Milk" false (JDate (Some 2%Z))].
Proof.
  exact (eq_trans
           (f_equal (@next GroceryItem)
                    (handleAddIngredient_is_addGroceryItem
                       "b" 2%Z "  Oat Milk " []))
           eq_refl).
Defined.

End On_handleAddIngredient_is_addGroceryItem_witness.

(** X10. After [toggleFavorite(recipe)] the answer of [isFavorited] for
    the recipe's id is the opposite of what it was, and the answer for
    every other id is what it was. *)
Theorem toggleFavorite_flips (recipe : Recipe) (favorites : list Recipe) :
  let result := next (Favorites.toggleFavorite recipe favorites) in
  Favorites.isFavorited (recipeId recipe) result
  = negb (Favorites.isFavorited (recipeId recipe) favorites)
  /\ (forall id, id <> recipeId recipe ->
                 Favorites.isFavorited id result
                 = Favorites.isFavorited id favorites).
Proof.
  change Favorites.isFavorited with Favorites.hasId.
  unfold Favorites.toggleFavorite.
  destruct (Favorites.hasId (recipeId recipe) favorites) eqn:E; simpl.
  - split; [apply ScreenFacts.hasId_filter_same|].
    intros id Hne. now apply ScreenFacts.hasId_filter_other.
  - unfold Favorites.hasId in *. split.
    + rewrite existsb_app, E. simpl. now rewrite Z.eqb_refl.
    + intros id Hne. rewrite existsb_app. simpl.
      assert ((recipeId recipe =? id)%Z = false) as ->
          by (apply Z.eqb_neq; congruence).
      now rewrite !orb_false_r.
Qed.

(** X11. Toggling a recipe that is not a favorite twice gives the list
    back, and so does adding it and removing its id.  Toggling twice a
    recipe whose id is in the list does not: every entry with the id is
    taken out and the recipe passed to the call is put at the end. *)
Theorem toggleFavorite_twice (recipe : Recipe) (favorites : list Recipe) :
  (Favorites.hasId (recipeId recipe) favorites = false ->
   next (Favorites.toggleFavorite
           recipe (next (Favorites.toggleFavorite recipe favorites)))
   = favorites
   /\ next (Favorites.removeFavorite
              (recipeId recipe) (next (Favorites.addFavorite recipe favorites)))
      = favorites)
  /\ (Favorites.hasId (recipeId recipe) favorites = true ->
      next (Favorites.toggleFavorite
              recipe (next (Favorites.toggleFavorite recipe favorites)))
      = filter (fun r => negb (recipeId r =? recipeId recipe)%Z) favorites
          ++ [recipe]).
Proof.
  split; intros Hid.
  - assert (Hfilter :
              filter (fun r => negb (recipeId r =? recipeId recipe)%Z)
                     (favorites ++ [recipe]) = favorites).
    { rewrite filter_app. simpl. rewrite Z.eqb_refl. simpl.
      rewrite app_nil_r. now apply ScreenFacts.hasId_false_filter. }
    split.
    + unfold Favorites.toggleFavorite at 2. rewrite Hid. simpl.
      unfold Favorites.toggleFavorite, Favorites.hasId.
      rewrite existsb_app. simpl. rewrite Z.eqb_refl, orb_true_r. simpl.
      exact Hfilter.
    + unfold Favorites.addFavorite. rewrite Hid. simpl. exact Hfilter.
  - unfold Favorites.toggleFavorite at 2. rewrite Hid. simpl.
    unfold Favorites.toggleFavorite.
    now rewrite ScreenFacts.hasId_filter_same.
Qed.

Lemma toggleFavorite_twice_witness :
  let soup := mkRecipe 1 "Soup" "" "" in
  let pie := mkRecipe 2 "Pie" "" "" in
  next (Favorites.toggleFavorite
          pie (next (Favorites.toggleFavorite pie [soup])))
  = [soup].
Proof.
  cbv zeta.
  apply (proj1 (toggleFavorite_twice (mkRecipe 2 "Pie" "" "")
                                     [mkRecipe 1 "Soup" "" ""])).
  reflexivity.
Defined.

(** * Further properties of the merge and of the date normalisation *)

Module UnionInvariants.

Section ByKey.

Context {A K : Type}.
Variable key : A -> K.
Variable eqb : K -> K -> bool.
Hypothesis eqb_spec : forall x y, eqb x y = true <-> x = y.

Lemma seen_In (k : K) (keys : list K) : seen eqb k keys = true <-> In k keys.
Proof.
  unfold seen. rewrite existsb_exists. split.
  - intros [k' [Hin Hk]]. apply eqb_spec in Hk. now subst.
  - intros Hin. exists k. split; [exact Hin | now apply eqb_spec].
Qed.

Lemma pushNew_distinct (merged : list A) (a : A) :
  NoDup (map key merged) -> NoDup (map key (pushNew key eqb merged a)).
Proof.
  intros Hnd. unfold pushNew. rewrite MergeFacts.seen_map.
  destruct (seen eqb (key a) (map key merged)) eqn:E; [exact Hnd|].
  apply ListFacts.NoDup_map_snoc; [exact Hnd|].
  intros Hin. apply seen_In in Hin. congruence.
Qed.

Lemma unionBy_keeps_distinct (remoteItems anonymousList : list A) :
  NoDup (map key remoteItems) ->
  NoDup (map key (unionBy key eqb remoteItems anonymousList)).
Proof.
  unfold unionBy. revert remoteItems.
  induction anonymousList as [|a rest IH]; intros remoteItems Hnd; simpl;
    [exact Hnd|].
  apply IH, pushNew_distinct, Hnd.
Qed.

Lemma firstNew_length (keys : list K) (l : list A) :
  (List.length (firstNew key eqb keys l) <= List.length l)%nat.
Proof.
  revert keys. induction l as [|a rest IH]; intros keys; simpl; [lia|].
  destruct (seen eqb (key a) keys); simpl.
  - specialize (IH keys). lia.
  - specialize (IH (keys ++ [key a])). lia.
Qed.

Lemma firstNew_incl (keys : list K) (l : list A) (x : A) :
  In x (firstNew key eqb keys l) -> In x l.
Proof.
  revert keys. induction l as [|a rest IH]; intros keys; simpl; [tauto|].
  destruct (seen eqb (key a) keys); simpl.
  - intros H. right. exact (IH keys H).
  - intros [H|H]; [now left | right; exact (IH _ H)].
Qed.

Lemma unionBy_bounds (remoteItems anonymousList : list A) :
  let merged := unionBy key eqb remoteItems anonymousList in
  (List.length remoteItems <= List.length merged
   <= List.length remoteItems + List.length anonymousList)%nat
  /\ (forall a, In a anonymousList -> In (key a) (map key merged))
  /\ (forall x, In x merged -> In x remoteItems \/ In x anonymousList).
Proof.
  simpl. split; [|split].
  - rewrite MergeFacts.unionBy_firstNew, length_app.
    pose proof (firstNew_length (map key remoteItems) anonymousList). lia.
  - intros a Ha. apply seen_In.
    now apply MergeFacts.unionBy_covers_anonymous.
  - intros x. rewrite MergeFacts.unionBy_firstNew, in_app_iff.
    intros [H|H]; [now left | right; exact (firstNew_incl _ _ _ H)].
Qed.

End ByKey.

End UnionInvariants.

(** X12. The merge of "sync now" keeps the dedup invariant and loses
    nothing: if no two remote entries share a key, no two entries of
    the result do; the result has at least the remote entries and at
    most one entry more per anonymous entry; every anonymous key is a
    key of the result; and every entry of the result is a remote or an
    anonymous entry.  For favorites (by id) and grocery items (by
    lowercased trimmed name). *)
Theorem merge_keeps_invariant {Js : Engine} :
  (forall remoteItems anonymousList : list Recipe,
      let merged := Favorites.mergeFavorites remoteItems anonymousList in
      (NoDup (map recipeId remoteItems) -> NoDup (map recipeId merged))
      /\ (List.length remoteItems <= List.length merged
          <= List.length remoteItems + List.length anonymousList)%nat
      /\ (forall a, In a anonymousList ->
                    In (recipeId a) (map recipeId merged))
      /\ (forall x, In x merged -> In x remoteItems \/ In x anonymousList))
  /\ (forall remoteItems anonymousList : list GroceryItem,
         let merged := Grocery.mergeGrocery remoteItems anonymousList in
         (NoDup (map Grocery.key remoteItems) -> NoDup (map Grocery.key merged))
         /\ (List.length remoteItems <= List.length merged
             <= List.length remoteItems + List.length anonymousList)%nat
         /\ (forall a, In a anonymousList ->
                       In (Grocery.key a) (map Grocery.key merged))
         /\ (forall x, In x merged -> In x remoteItems \/ In x anonymousList)).
Proof.
  split; intros remoteItems anonymousList; cbv zeta.
  - rewrite MergeFacts.mergeFavorites_unionBy.
    split; [apply UnionInvariants.unionBy_keeps_distinct; exact Z.eqb_eq|].
    apply (UnionInvariants.unionBy_bounds recipeId Z.eqb Z.eqb_eq).
  - rewrite MergeFacts.mergeGrocery_unionBy.
    split; [apply UnionInvariants.unionBy_keeps_distinct; exact String.eqb_eq|].
    apply (UnionInvariants.unionBy_bounds Grocery.key String.eqb String.eqb_eq).
Qed.

Module NormalizeFacts.

Import GroceryController.

Lemma safeToDate_valid_fixed parseDate (now : Z) (d : JsValue) :
  isValidDate d = true -> safeToDate parseDate now d = d.
Proof. destruct d as [[t|]|s|n|b| | |o]; simpl; intros H; congruence. Qed.

Lemma safeToDate_makes_valid parseDate (now : Z) (v : JsValue) :
  toDateReturnsValid v = true -> isValidDate (safeToDate parseDate now v) = true.
Proof.
  destruct v as [[t|]|s|n|b| | |[[|r]|]]; simpl; intros H;
    try reflexivity; try exact H.
  - now destruct (parseDate s).
  - now destruct (timeClip n).
Qed.

Lemma normalizeFrom_fields parseDate clk k (l : list GroceryItem) :
  map itemId (normalizeFrom parseDate clk k l) = map itemId l
  /\ map itemName (normalizeFrom parseDate clk k l) = map itemName l
  /\ map checked (normalizeFrom parseDate clk k l) = map checked l.
Proof.
  revert k. induction l as [|x l IH]; intros k; simpl; [repeat split|].
  destruct (IH (S k)) as (H1 & H2 & H3). now rewrite H1, H2, H3.
Qed.

Lemma normalizeFrom_valid_fixed parseDate clk k (l : list GroceryItem) :
  Forall (fun item => isValidDate (addedAt item) = true) l ->
  normalizeFrom parseDate clk k l = l.
Proof.
  revert k. induction l as [|x l IH]; intros k Hall; simpl; [reflexivity|].
  inversion Hall as [|? ? Hx Hl]; subst.
  rewrite (IH (S k) Hl), (safeToDate_valid_fixed parseDate (clk k) _ Hx).
  now destruct x.
Qed.

Lemma normalizeFrom_makes_valid parseDate clk k (l : list GroceryItem) :
  Forall (fun item => toDateReturnsValid (addedAt item) = true) l ->
  Forall (fun item => isValidDate (addedAt item) = true)
         (normalizeFrom parseDate clk k l).
Proof.
  revert k. induction l as [|x l IH]; intros k Hall; simpl; constructor.
  - inversion Hall; subst. simpl.
    now apply safeToDate_makes_valid.
  - inversion Hall; subst. now apply IH.
Qed.

End NormalizeFacts.

(** X13. The date normalisation applied to every loaded list,
    [list.map(item => ({...item, addedAt: safeToDate(item.addedAt)}))],
    keeps the ids, the names, the [checked] flags and the order; it
    leaves a list whose dates are valid as it is; and when no [toDate()]
    hands back an invalid value, every date is valid afterwards and a
    second normalisation, at any later clock reading, changes nothing. *)
Theorem normalizeFrom_spec
        (parseDate : string -> option Z) (clk clk' : nat -> Z) (k k' : nat)
        (l : list GroceryItem) :
  let normalized := GroceryController.normalizeFrom parseDate clk k l in
  map itemId normalized = map itemId l
  /\ map itemName normalized = map itemName l
  /\ map checked normalized = map checked l
  /\ (Forall (fun item => isValidDate (addedAt item) = true) l ->
      normalized = l)
  /\ (Forall (fun item => toDateReturnsValid (addedAt item) = true) l ->
      Forall (fun item => isValidDate (addedAt item) = true) normalized
      /\ GroceryController.normalizeFrom parseDate clk' k' normalized
         = normalized).
Proof.
  cbv zeta.
  destruct (NormalizeFacts.normalizeFrom_fields parseDate clk k l)
    as (H1 & H2 & H3).
  split; [exact H1|]. split; [exact H2|]. split; [exact H3|]. split.
  - apply NormalizeFacts.normalizeFrom_valid_fixed.
  - intros Hall.
    pose proof (NormalizeFacts.normalizeFrom_makes_valid parseDate clk k l Hall)
      as Hvalid.
    split; [exact Hvalid|].
    now apply NormalizeFacts.normalizeFrom_valid_fixed.
Qed.

(** * Further properties of the handlers *)

Module HandlerFacts.

Import HandlerTactics.
Import Favorites FavoritesController Grocery GroceryController GroceryPersistence.

(** Case analysis on a comparison of two user ids. *)
Ltac branch_on_ids :=
  match goal with
  | |- context [if (?a =? ?b)%string then _ else _] =>
      destruct (a =? b)%string eqn:?
  end.

Ltac run_all := evaluate; repeat (first [branch | branch_on_ids]; evaluate).

Lemma syncFavorites_never_throws (w : World Recipe) :
  threw syncFavorites w = false.
Proof. open_world w. run_all; reflexivity. Qed.

Lemma onFavoritesSnapshot_never_throws uid docSnap (w : World Recipe) :
  threw (onFavoritesSnapshot uid docSnap) w = false.
Proof.
  open_world w. destruct docSnap as [[l|]|]; run_all; reflexivity.
Qed.

Lemma performSave_never_throws l (w : World Recipe) :
  threw (performSave l) w = false.
Proof. open_world w. run_all; reflexivity. Qed.

Lemma dispatch_never_throws op (w : World Recipe) :
  threw (dispatch op) w = false.
Proof.
  open_world w. destruct op as [r|id|r]; cbv [threw dispatch bind gets modify ret fst items next saved setItems
    addFavorite removeFavorite toggleFavorite unchanged debounced saveFavorites].
  - destruct (hasId (recipeId r) its); reflexivity.
  - reflexivity.
  - destruct (hasId (recipeId r) its); reflexivity.
Qed.

Lemma favoritesSessionChanges_never_throws user (w : World Recipe) :
  threw (favoritesSessionChanges user) w = false.
Proof.
  open_world w. destruct user as [uid|]; run_all; reflexivity.
Qed.

Section Grocery.

Variable parseDate : string -> option Z.
Variable toISOString : Z -> string.
Variable objectThroughJSON : option ToDate -> JsValue.

Lemma syncGroceryList_never_throws {Js : Engine} (w : World GroceryItem) :
  threw (syncGroceryList parseDate) w = false.
Proof. open_world w. run_all; reflexivity. Qed.

Lemma onGrocerySnapshot_never_throws uid docSnap (w : World GroceryItem) :
  threw (onGrocerySnapshot parseDate uid docSnap) w = false.
Proof.
  open_world w. destruct docSnap as [[l|]|]; run_all; reflexivity.
Qed.

Lemma performGrocerySave_never_throws l (w : World GroceryItem) :
  threw (performGrocerySave toISOString objectThroughJSON l) w = false.
Proof. open_world w. run_all; reflexivity. Qed.

Lemma saveGroceryList_never_throws l immediate (w : World GroceryItem) :
  threw (saveGroceryList parseDate toISOString objectThroughJSON l immediate) w
  = false.
Proof. open_world w. destruct immediate; run_all; reflexivity. Qed.

Lemma grocerySessionChanges_never_throws user (w : World GroceryItem) :
  threw (grocerySessionChanges parseDate user) w = false.
Proof.
  open_world w. destruct user as [uid|]; run_all; reflexivity.
Qed.

End Grocery.

End HandlerFacts.

(** X14. No rejected I/O call escapes a handler: whatever the document
    store and the local store answer, "sync now", the snapshot
    callbacks, the saves and the session callbacks of both controllers
    return normally. *)
Theorem handlers_never_throw {Js : Engine} :
  (forall (w : World Recipe) uid docSnap l op user,
      threw FavoritesController.syncFavorites w = false
      /\ threw (FavoritesController.onFavoritesSnapshot uid docSnap) w = false
      /\ threw (FavoritesController.performSave l) w = false
      /\ threw (FavoritesController.dispatch op) w = false
      /\ threw (FavoritesController.favoritesSessionChanges user) w = false)
  /\ (forall parseDate toISOString objectThroughJSON
             (w : World GroceryItem) uid docSnap l immediate user,
         threw (GroceryController.syncGroceryList parseDate) w = false
         /\ threw (GroceryController.onGrocerySnapshot parseDate uid docSnap) w
            = false
         /\ threw (GroceryPersistence.performGrocerySave
                     toISOString objectThroughJSON l) w = false
         /\ threw (GroceryPersistence.saveGroceryList
                     parseDate toISOString objectThroughJSON l immediate) w
            = false
         /\ threw (GroceryController.grocerySessionChanges parseDate user) w
            = false).
Proof.
  split.
  - intros. repeat split.
    + apply HandlerFacts.syncFavorites_never_throws.
    + apply HandlerFacts.onFavoritesSnapshot_never_throws.
    + apply HandlerFacts.performSave_never_throws.
    + apply HandlerFacts.dispatch_never_throws.
    + apply HandlerFacts.favoritesSessionChanges_never_throws.
  - intros. repeat split.
    + apply HandlerFacts.syncGroceryList_never_throws.
    + apply HandlerFacts.onGrocerySnapshot_never_throws.
    + apply HandlerFacts.performGrocerySave_never_throws.
    + apply HandlerFacts.saveGroceryList_never_throws.
    + apply HandlerFacts.grocerySessionChanges_never_throws.
Qed.

Module SessionFacts.

Import HandlerTactics HandlerFacts.
Import Favorites FavoritesController Grocery GroceryController GroceryPersistence.

Lemma favorites_sign_out (w : World Recipe) :
  let w' := exec (favoritesSessionChanges None) w in
  items w' = storedAnonymous w (ioCount w)
  /\ listener w' = None /\ pendingSave w' = None
  /\ currentUserIdRef w' = None /\ isUpdatingFromFirestore w' = false
  /\ loading w' = false
  /\ remote w' = remote w /\ anonymous w' = anonymous w.
Proof. open_world w. run_all; conjs; reflexivity. Qed.

Lemma grocery_sign_out parseDate (w : World GroceryItem) :
  let w' := exec (grocerySessionChanges parseDate None) w in
  items w' = normalizeFrom parseDate (clock w) (clockReads w)
                           (storedAnonymous w (ioCount w))
  /\ listener w' = None /\ pendingSave w' = None
  /\ currentUserIdRef w' = None /\ isUpdatingFromFirestore w' = false
  /\ loading w' = false
  /\ remote w' = remote w /\ anonymous w' = anonymous w.
Proof. open_world w. run_all; conjs; reflexivity. Qed.

Lemma favorites_session_cancels_save user (w : World Recipe) :
  let w' := exec (favoritesSessionChanges user ;; fireSaveTimer) w in
  remote w' = remote w /\ anonymous w' = anonymous w
  /\ pendingSave w' = None.
Proof.
  open_world w. destruct user as [uid|]; run_all; conjs; reflexivity.
Qed.

Lemma grocery_session_cancels_save
      parseDate toISOString objectThroughJSON user (w : World GroceryItem) :
  let w' := exec (grocerySessionChanges parseDate user ;;
                  fireGrocerySaveTimer toISOString objectThroughJSON) w in
  remote w' = remote w /\ anonymous w' = anonymous w
  /\ pendingSave w' = None.
Proof.
  open_world w. destruct user as [uid|]; run_all; conjs; reflexivity.
Qed.

Lemma favorites_adopts (w : World Recipe) uid l :
  signedInAs uid w = true -> isUpdatingFromFirestore w = false ->
  onFavoritesSnapshot uid (Some (Some l)) w
  = (Returned tt, setLoading false (setItems l w)).
Proof.
  intros Hsigned Hflag. open_world w. subst upd. revert Hsigned.
  run_all; intros Hsigned; try discriminate Hsigned; reflexivity.
Qed.

Lemma grocery_adopts parseDate (w : World GroceryItem) uid l :
  signedInAs uid w = true -> isUpdatingFromFirestore w = false ->
  onGrocerySnapshot parseDate uid (Some (Some l)) w
  = (Returned tt,
     setLoading false
       (setItems (normalizeFrom parseDate (clock w) (clockReads w) l)
                 (setClockReads (clockReads w + List.length l) w))).
Proof.
  intros Hsigned Hflag. open_world w. subst upd. revert Hsigned.
  run_all; intros Hsigned; try discriminate Hsigned; reflexivity.
Qed.

Lemma favorites_ignores_stale (w : World Recipe) uid docSnap :
  signedInAs uid w = false ->
  onFavoritesSnapshot uid docSnap w = (Returned tt, w).
Proof.
  intros Hsigned. open_world w. revert Hsigned.
  run_all; intros Hsigned; try discriminate Hsigned; reflexivity.
Qed.

Lemma grocery_ignores_stale parseDate (w : World GroceryItem) uid docSnap :
  signedInAs uid w = false ->
  onGrocerySnapshot parseDate uid docSnap w = (Returned tt, w).
Proof.
  intros Hsigned. open_world w. revert Hsigned.
  run_all; intros Hsigned; try discriminate Hsigned; reflexivity.
Qed.

Lemma grocery_initialized_once parseDate (w : World GroceryItem) uid docSnap :
  isInitialized w = true -> fieldOf docSnap = None ->
  onGrocerySnapshot parseDate uid docSnap w = (Returned tt, w).
Proof.
  intros Hini Hfield. open_world w. subst ini.
  destruct docSnap as [[l|]|]; try discriminate Hfield;
    run_all; reflexivity.
Qed.

Lemma grocery_marks_initialized parseDate (w : World GroceryItem) uid docSnap :
  signedInAs uid w = true -> isUpdatingFromFirestore w = false ->
  fieldOf docSnap = None ->
  isInitialized (exec (onGrocerySnapshot parseDate uid docSnap) w) = true.
Proof.
  intros Hsigned Hflag Hfield. open_world w. subst upd. revert Hsigned.
  destruct docSnap as [[l|]|]; try discriminate Hfield;
    run_all; intros Hsigned; try discriminate Hsigned;
    try reflexivity; destruct ini; reflexivity.
Qed.

Lemma grocery_session_resets_mark parseDate user (w : World GroceryItem) :
  isInitialized (exec (grocerySessionChanges parseDate user) w) = false.
Proof.
  open_world w. destruct user as [u|]; run_all; reflexivity.
Qed.

End SessionFacts.

(** X15. Sign-out: the session callback of either controller removes
    the subscription, cancels the pending save, clears the echo flag
    and the owner, and shows the list of the Anonymous Store (for
    grocery items with [addedAt] normalised), or the empty list when
    that store cannot be read; it writes nothing. *)
Theorem sign_out_shows_anonymous_list :
  (forall w : World Recipe,
      let w' := exec (FavoritesController.favoritesSessionChanges None) w in
      items w' = storedAnonymous w (ioCount w)
      /\ listener w' = None /\ pendingSave w' = None
      /\ currentUserIdRef w' = None /\ isUpdatingFromFirestore w' = false
      /\ loading w' = false
      /\ remote w' = remote w /\ anonymous w' = anonymous w)
  /\ (forall parseDate (w : World GroceryItem),
         let w' := exec (GroceryController.grocerySessionChanges parseDate None)
                        w in
         items w' = GroceryController.normalizeFrom
                      parseDate (clock w) (clockReads w)
                      (storedAnonymous w (ioCount w))
         /\ listener w' = None /\ pendingSave w' = None
         /\ currentUserIdRef w' = None /\ isUpdatingFromFirestore w' = false
         /\ loading w' = false
         /\ remote w' = remote w /\ anonymous w' = anonymous w).
Proof.
  split.
  - exact SessionFacts.favorites_sign_out.
  - exact SessionFacts.grocery_sign_out.
Qed.

(** X16. Cancellation: a debounced save that is pending when the
    session changes (sign-in, sign-out or switch of account) is never
    written; when its timer would have fired, neither the remote
    documents nor the Anonymous Store have changed. *)
Theorem session_change_cancels_pending_save :
  (forall user (w : World Recipe),
      let w' := exec (FavoritesController.favoritesSessionChanges user ;;
                      FavoritesController.fireSaveTimer) w in
      remote w' = remote w /\ anonymous w' = anonymous w
      /\ pendingSave w' = None)
  /\ (forall parseDate toISOString objectThroughJSON user
             (w : World GroceryItem),
         let w' :=
           exec (GroceryController.grocerySessionChanges parseDate user ;;
                 GroceryPersistence.fireGrocerySaveTimer
                   toISOString objectThroughJSON) w in
         remote w' = remote w /\ anonymous w' = anonymous w
         /\ pendingSave w' = None).
Proof.
  split.
  - exact SessionFacts.favorites_session_cancels_save.
  - exact SessionFacts.grocery_session_cancels_save.
Qed.

(** X17. A snapshot that holds items, received while the account it
    belongs to is signed in and no write is in flight, replaces the
    Local Cache by the items of the document (for grocery items with
    [addedAt] normalised) and ends the loading state; nothing else
    changes and no I/O call is made. *)
Theorem snapshot_adopted :
  (forall (w : World Recipe) uid l,
      signedInAs uid w = true -> isUpdatingFromFirestore w = false ->
      FavoritesController.onFavoritesSnapshot uid (Some (Some l)) w
      = (Returned tt, setLoading false (setItems l w)))
  /\ (forall parseDate (w : World GroceryItem) uid l,
         signedInAs uid w = true -> isUpdatingFromFirestore w = false ->
         GroceryController.onGrocerySnapshot parseDate uid (Some (Some l)) w
         = (Returned tt,
            setLoading false
              (setItems (GroceryController.normalizeFrom
                           parseDate (clock w) (clockReads w) l)
                        (setClockReads (clockReads w + List.length l) w)))).
Proof.
  split.
  - exact SessionFacts.favorites_adopts.
  - exact SessionFacts.grocery_adopts.
Qed.

Lemma snapshot_adopted_witness :
  let pie := mkRecipe 2 "Pie" "" "" in
  let w := setItems [mkRecipe 1 "Soup" "" ""]
             (setCurrentUser (Some "U")
                (firstLaunch (oneDocument "U" [pie]) (fun _ => false) 0)) in
  items (exec (FavoritesController.onFavoritesSnapshot "U" (Some (Some [pie]))) w)
  = [pie].
Proof.
  cbv zeta. unfold exec.
  rewrite (proj1 snapshot_adopted
                 (setItems [mkRecipe 1 "Soup" "" ""]
                    (setCurrentUser (Some "U")
                       (firstLaunch (oneDocument "U" [mkRecipe 2 "Pie" "" ""])
                                    (fun _ => false) 0)))
                 "U" [mkRecipe 2 "Pie" "" ""] eq_refl eq_refl).
  reflexivity.
Defined.

(** X18. A snapshot that arrives for an account that is not the one
    signed in (after a sign-out or a switch) is ignored by either
    controller: nothing changes, whatever the snapshot holds. *)
Theorem stale_snapshot_ignored :
  (forall (w : World Recipe) uid docSnap,
      signedInAs uid w = false ->
      FavoritesController.onFavoritesSnapshot uid docSnap w = (Returned tt, w))
  /\ (forall parseDate (w : World GroceryItem) uid docSnap,
         signedInAs uid w = false ->
         GroceryController.onGrocerySnapshot parseDate uid docSnap w
         = (Returned tt, w)).
Proof.
  split.
  - exact SessionFacts.favorites_ignores_stale.
  - exact SessionFacts.grocery_ignores_stale.
Qed.

Lemma stale_snapshot_ignored_witness :
  let w := setItems [mkRecipe 1 "Soup" "" ""]
             (setCurrentUser (Some "V")
                (firstLaunch (fun _ => None) (fun _ => false) 0)) in
  items (exec (FavoritesController.onFavoritesSnapshot
                 "U" (Some (Some [mkRecipe 2 "Pie" "" ""]))) w)
  = [mkRecipe 1 "Soup" "" ""].
Proof.
  cbv zeta. unfold exec.
  rewrite (proj1 stale_snapshot_ignored
                 (setItems [mkRecipe 1 "Soup" "" ""]
                    (setCurrentUser (Some "V")
                       (firstLaunch (fun _ => None) (fun _ => false) 0)))
                 "U" (Some (Some [mkRecipe 2 "Pie" "" ""])) eq_refl).
  reflexivity.
Defined.

(** X19. The grocery controller migrates at most once per activation:
    the first snapshot without a grocery list marks the controller as
    initialised, and once it is, a snapshot without a grocery list
    changes nothing (no write, no change of the Local Cache), until the
    next session change resets the mark. *)
Theorem grocery_migrates_once :
  forall parseDate (w : World GroceryItem) uid docSnap,
    fieldOf docSnap = None ->
    (isInitialized w = true ->
     GroceryController.onGrocerySnapshot parseDate uid docSnap w
     = (Returned tt, w))
    /\ (signedInAs uid w = true -> isUpdatingFromFirestore w = false ->
        isInitialized
          (exec (GroceryController.onGrocerySnapshot parseDate uid docSnap) w)
        = true)
    /\ (forall user,
           isInitialized
             (exec (GroceryController.grocerySessionChanges parseDate user) w)
           = false).
Proof.
  intros parseDate w uid docSnap Hfield. split; [|split].
  - intros Hini. now apply SessionFacts.grocery_initialized_once.
  - intros Hsigned Hflag. now apply SessionFacts.grocery_marks_initialized.
  - intros user. apply SessionFacts.grocery_session_resets_mark.
Qed.

Lemma grocery_migrates_once_witness :
  let w := setInitialized true
             (setItems [mkItem "a" "Milk" false (JDate (Some 1%Z))]
                (setCurrentUser (Some "U")
                   (firstLaunch (fun _ => None) (fun _ => false) 0))) in
  items (exec (GroceryController.onGrocerySnapshot (fun _ => None) "U" None) w)
  = [mkItem "a" "Milk" false (JDate (Some 1%Z))].
Proof.
  cbv zeta. unfold exec.
  rewrite (proj1 (grocery_migrates_once
                    (fun _ => None)
                    (setInitialized true
                       (setItems [mkItem "a" "Milk" false (JDate (Some 1%Z))]
                          (setCurrentUser (Some "U")
                             (firstLaunch (fun _ => None) (fun _ => false) 0))))
                    "U" None eq_refl) eq_refl).
  reflexivity.
Defined.

Module SaveFacts.

Import HandlerTactics HandlerFacts.
Import Favorites FavoritesController Grocery GroceryController GroceryPersistence.
Import Bursts.

Lemma performSave_dropped l (w : World Recipe) :
  truthyId (currentUserIdRef w) = true ->
  isSome (currentUser w) && negb (isUpdatingFromFirestore w) = false ->
  performSave l w = (Returned tt, w).
Proof.
  intros Hid Hbusy. open_world w. revert Hid Hbusy.
  destruct cref as [[|c u]|], cu as [v|], upd;
    cbv -[String.eqb]; intros Hid Hbusy;
    try discriminate Hid; try discriminate Hbusy; reflexivity.
Qed.

Lemma performGrocerySave_dropped toISOString objectThroughJSON l
      (w : World GroceryItem) :
  truthyId (currentUserIdRef w) = true ->
  isSome (currentUser w) && negb (isUpdatingFromFirestore w) = false ->
  performGrocerySave toISOString objectThroughJSON l w = (Returned tt, w).
Proof.
  intros Hid Hbusy. open_world w. revert Hid Hbusy.
  destruct cref as [[|c u]|], cu as [v|], upd;
    cbv -[String.eqb]; intros Hid Hbusy;
    try discriminate Hid; try discriminate Hbusy; reflexivity.
Qed.

Lemma clearAll_dropped {Js : Engine} parseDate toISOString objectThroughJSON
      (w : World GroceryItem) :
  truthyId (currentUserIdRef w) = true ->
  isSome (currentUser w) && negb (isUpdatingFromFirestore w) = false ->
  exec (dispatchGrocery parseDate toISOString objectThroughJSON ClearAll) w
  = setPendingSave None (setItems [] w).
Proof.
  intros Hid Hbusy. open_world w. revert Hid Hbusy.
  destruct cref as [[|c u]|], cu as [v|], upd;
    cbv -[String.eqb Nat.add]; intros Hid Hbusy;
    try discriminate Hid; try discriminate Hbusy;
    rewrite Nat.add_0_r; reflexivity.
Qed.

Lemma performSave_rejected l (w : World Recipe) :
  ioFails w (ioCount w) = true -> writeAttempted w = true ->
  let w' := exec (performSave l) w in
  items w' = items w /\ remote w' = remote w /\ anonymous w' = anonymous w
  /\ isUpdatingFromFirestore w' = false
  /\ flagResets w' = flagResets w
  /\ alerts w' = alerts w
                 ++ (if isSome (currentUser w)
                     then ["Error Saving Favorites"] else []).
Proof.
  intros Hfail Hattempt. open_world w. revert Hattempt.
  destruct cref as [[|c u]|], cu as [v|], upd;
    cbv -[String.eqb app]; rewrite ?Hfail; intros Hattempt;
    try discriminate Hattempt; conjs; rewrite ?app_nil_r; reflexivity.
Qed.

Lemma performGrocerySave_rejected toISOString objectThroughJSON l
      (w : World GroceryItem) :
  ioFails w (ioCount w) = true -> writeAttempted w = true ->
  let w' := exec (performGrocerySave toISOString objectThroughJSON l) w in
  items w' = items w /\ remote w' = remote w /\ anonymous w' = anonymous w
  /\ isUpdatingFromFirestore w' = false
  /\ alerts w' = alerts w
                 ++ (if isSome (currentUser w) then ["Save Error"] else []).
Proof.
  intros Hfail Hattempt. open_world w. revert Hattempt.
  destruct cref as [[|c u]|], cu as [v|], upd;
    cbv -[String.eqb app]; rewrite ?Hfail; intros Hattempt;
    try discriminate Hattempt; conjs; rewrite ?app_nil_r; reflexivity.
Qed.

End SaveFacts.

(** X20. A save that comes while the controller is signed in and a
    write is in flight (the echo flag is set), or while the session is
    being torn down (the owner is recorded but nobody is signed in), is
    dropped: [performSave] writes neither to the remote document nor to
    the Anonymous Store, raises no notice and schedules nothing.  So
    [clearAllItems()] in that state empties the Local Cache and cancels
    the pending save, and the stores keep the old list. *)
Theorem save_dropped_while_writing {Js : Engine} :
  (forall l (w : World Recipe),
      truthyId (currentUserIdRef w) = true ->
      isSome (currentUser w) && negb (isUpdatingFromFirestore w) = false ->
      FavoritesController.performSave l w = (Returned tt, w))
  /\ (forall parseDate toISOString objectThroughJSON l (w : World GroceryItem),
         truthyId (currentUserIdRef w) = true ->
         isSome (currentUser w) && negb (isUpdatingFromFirestore w) = false ->
         GroceryPersistence.performGrocerySave toISOString objectThroughJSON l w
         = (Returned tt, w)
         /\ exec (GroceryPersistence.dispatchGrocery
                    parseDate toISOString objectThroughJSON Grocery.ClearAll) w
            = setPendingSave None (setItems [] w)).
Proof.
  split.
  - exact SaveFacts.performSave_dropped.
  - intros parseDate toISOString objectThroughJSON l w Hid Hbusy. split.
    + now apply SaveFacts.performGrocerySave_dropped.
    + now apply SaveFacts.clearAll_dropped.
Qed.

Section On_save_dropped_while_writing_witness.

#[local] Existing Instance AsciiText.engine.
#[local] Existing Instance AsciiTextFacts.laws.

Lemma save_dropped_while_writing_witness :
  let pie := mkRecipe 2 "Pie" "" "" in
  let w := setUpdating true
             (setCurrentUserIdRef (Some "U")
                (setCurrentUser (Some "U")
                   (firstLaunch (oneDocument "U" [pie]) (fun _ => false) 0))) in
  remoteField (exec (FavoritesController.performSave [] ) w) "U" = Some [pie].
Proof.
  cbv zeta. unfold exec.
  rewrite (proj1 save_dropped_while_writing []
                 (setUpdating true
                    (setCurrentUserIdRef (Some "U")
                       (setCurrentUser (Some "U")
                          (firstLaunch (oneDocument "U" [mkRecipe 2 "Pie" "" ""])
                                       (fun _ => false) 0))))
                 eq_refl eq_refl).
  reflexivity.
Defined.

End On_save_dropped_while_writing_witness.

(** X21. When the write of a save is rejected, nothing is rolled back
    and nothing is stored: the Local Cache keeps the unsaved list, the
    remote document and the Anonymous Store keep the old one, the echo
    flag is cleared, and the notice ("Error Saving Favorites", "Save
    Error") is raised only if somebody is signed in, so a rejected
    write to the Anonymous Store fails silently. *)
Theorem save_rejected :
  (forall l (w : World Recipe),
      ioFails w (ioCount w) = true -> writeAttempted w = true ->
      let w' := exec (FavoritesController.performSave l) w in
      items w' = items w /\ remote w' = remote w /\ anonymous w' = anonymous w
      /\ isUpdatingFromFirestore w' = false
      /\ alerts w' = alerts w
                     ++ (if isSome (currentUser w)
                         then ["Error Saving Favorites"] else []))
  /\ (forall toISOString objectThroughJSON l (w : World GroceryItem),
         ioFails w (ioCount w) = true -> writeAttempted w = true ->
         let w' := exec (GroceryPersistence.performGrocerySave
                           toISOString objectThroughJSON l) w in
         items w' = items w /\ remote w' = remote w
         /\ anonymous w' = anonymous w
         /\ isUpdatingFromFirestore w' = false
         /\ alerts w' = alerts w
                        ++ (if isSome (currentUser w)
                            then ["Save Error"] else [])).
Proof.
  split.
  - intros l w Hfail Hattempt.
    destruct (SaveFacts.performSave_rejected l w Hfail Hattempt)
      as (H1 & H2 & H3 & H4 & _ & H5).
    repeat split; assumption.
  - intros toISOString objectThroughJSON l w Hfail Hattempt.
    exact (SaveFacts.performGrocerySave_rejected
             toISOString objectThroughJSON l w Hfail Hattempt).
Qed.

Lemma save_rejected_witness :
  let soup := mkRecipe 1 "Soup" "" "" in
  let w := setItems [soup] (firstLaunch (fun _ => None) (fun _ => true) 0) in
  let w' := exec (FavoritesController.performSave [soup]) w in
  items w' = [soup] /\ anonymous w' = None /\ alerts w' = [].
Proof.
  cbv zeta.
  destruct (proj1 save_rejected
                  [mkRecipe 1 "Soup" "" ""]
                  (setItems [mkRecipe 1 "Soup" "" ""]
                            (firstLaunch (fun _ => None) (fun _ => true) 0))
                  eq_refl eq_refl)
    as (H1 & _ & H3 & _ & H5).
  repeat split; assumption.
Defined.

Module BurstFacts.

Import HandlerTactics HandlerFacts.
Import Favorites FavoritesController Bursts.

Lemma dispatch_step op (w : World Recipe) :
  exists w1,
    dispatch op w = (Returned tt, w1)
    /\ items w1 = favoritesStep (items w) op
    /\ pendingSave w1
       = (if callsSave (items w) op then Some (items w1) else pendingSave w)
    /\ (callsSave (items w) op = false -> items w1 = items w)
    /\ sameStores w w1.
Proof.
  destruct w as [its ld cref upd ini lis pend resets cu rem anon al ioc iof cr clk].
  destruct op as [r|id|r];
    cbv [dispatch bind gets modify ret items next saved setItems
         addFavorite removeFavorite toggleFavorite unchanged debounced
         saveFavorites favoritesStep setPendingSave pendingSave loading
         currentUserIdRef isUpdatingFromFirestore isInitialized listener
         flagResets currentUser remote anonymous alerts ioCount ioFails
         clockReads clock callsSave];
    try destruct (hasId (recipeId r) its);
    eexists; (split; [reflexivity|]); cbn;
      (split; [reflexivity|]); (split; [reflexivity|]);
      (split; [try discriminate; reflexivity | repeat split]).
Qed.

Lemma burst_run (ops : list FavoritesOp) :
  forall w : World Recipe,
  exists w1,
    favoritesBurst ops w = (Returned tt, w1)
    /\ items w1 = favoritesRun ops (items w)
    /\ pendingSave w1
       = (if burstSaves ops (items w) then Some (items w1) else pendingSave w)
    /\ (burstSaves ops (items w) = false -> items w1 = items w)
    /\ sameStores w w1.
Proof.
  induction ops as [|op rest IH]; intros w.
  - exists w. split; [reflexivity|]. split; [reflexivity|].
    split; [reflexivity|]. split; [reflexivity | repeat split].
  - destruct (dispatch_step op w) as (wa & Hrun & Hitems & Hpend & Hkeep & Hsame).
    destruct (IH wa) as (w1 & Hrun1 & Hitems1 & Hpend1 & Hkeep1 & Hsame1).
    exists w1. split; [|split; [|split; [|split]]].
    + simpl. unfold bind. now rewrite Hrun.
    + rewrite Hitems1, Hitems. reflexivity.
    + simpl. rewrite <- Hitems, Hpend1, Hpend.
      destruct (burstSaves rest (items wa)) eqn:Hrest.
      * now rewrite orb_true_r.
      * rewrite orb_false_r, (Hkeep1 eq_refl).
        now destruct (callsSave (items w) op).
    + simpl. rewrite <- Hitems. intros Hnone. apply orb_false_iff in Hnone.
      destruct Hnone as [Hop Hrest].
      rewrite (Hkeep1 Hrest). now apply Hkeep.
    + unfold sameStores in *. intuition congruence.
Qed.

Lemma timer_writes_anonymous l (w : World Recipe) :
  pendingSave w = Some l -> truthyId (currentUserIdRef w) = false ->
  ioFails w (ioCount w) = false ->
  exec fireSaveTimer w
  = setAnonymous (Some l) (setIoCount (S (ioCount w)) (setPendingSave None w)).
Proof.
  intros Hpend Hid Hio. open_world w. subst pend. revert Hid.
  destruct cref as [[|c u]|]; cbv -[String.eqb]; rewrite ?Hio;
    intros Hid; try discriminate Hid; reflexivity.
Qed.

Lemma timer_writes_remote l uid (w : World Recipe) :
  pendingSave w = Some l ->
  currentUserIdRef w = Some uid -> isEmpty uid = false ->
  isSome (currentUser w) = true -> isUpdatingFromFirestore w = false ->
  ioFails w (ioCount w) = false ->
  let w' := exec fireSaveTimer w in
  remoteField w' uid = Some l
  /\ (forall other, other <> uid -> remote w' other = remote w other)
  /\ anonymous w' = anonymous w
  /\ ioCount w' = S (ioCount w)
  /\ isUpdatingFromFirestore w' = true
  /\ flagResets w' = S (flagResets w)
  /\ pendingSave w' = None
  /\ items w' = items w.
Proof.
  intros Hpend Href Huid Hcu Hflag Hio. open_world w. subst pend cref upd.
  destruct cu as [v|]; [|discriminate Hcu].
  destruct uid as [|c u]; [discriminate Huid|].
  cbv -[String.eqb]. rewrite Hio. cbv -[String.eqb].
  rewrite String.eqb_refl. conjs; try reflexivity.
  intros other Hne. apply String.eqb_neq in Hne. now rewrite Hne.
Qed.

Lemma timer_idle (w : World Recipe) :
  pendingSave w = None -> fireSaveTimer w = (Returned tt, w).
Proof. intros Hpend. open_world w. subst pend. reflexivity. Qed.

End BurstFacts.

(** X22. Debounce, signed out: a burst of favorites calls with no
    timer firing in between makes no I/O call at all.  If some call of
    the burst handed a list to [saveFavorites] (every call does, except
    [addFavorite] of an id already in the list; [removeFavorite] of an
    absent id does, though it changes nothing), then when the timer
    fires there is exactly one write, of the list as it is after the
    last call, to the Anonymous Store, and a following sign-out
    callback (or launch) shows that same list again.  If no call did,
    the list is what it was, nothing is pending and the timer does
    nothing. *)
Theorem favorites_burst_saved_once
        (ops : list Favorites.FavoritesOp) (w : World Recipe)
        (Hpending : pendingSave w = None)
        (Hsignedout : truthyId (currentUserIdRef w) = false)
        (Hio : forall n, ioFails w n = false) :
  let w1 := exec (Bursts.favoritesBurst ops) w in
  let w2 := exec FavoritesController.fireSaveTimer w1 in
  let w3 := exec (FavoritesController.favoritesSessionChanges None) w2 in
  items w1 = Favorites.favoritesRun ops (items w)
  /\ sameStores w w1
  /\ pendingSave w1
     = (if burstSaves ops (items w) then Some (items w1) else None)
  /\ (burstSaves ops (items w) = false -> items w1 = items w /\ w2 = w1)
  /\ (burstSaves ops (items w) = true ->
      anonymous w2 = Some (items w1)
      /\ ioCount w2 = S (ioCount w)
      /\ remote w2 = remote w
      /\ pendingSave w2 = None
      /\ items w3 = items w1).
Proof.
  destruct (BurstFacts.burst_run ops w)
    as (w1 & Hrun & Hitems & Hpend & Hkeep & Hsame).
  assert (Hexec : exec (Bursts.favoritesBurst ops) w = w1)
    by (unfold exec; now rewrite Hrun).
  cbv zeta. rewrite !Hexec. rewrite Hpending in Hpend.
  split; [exact Hitems|]. split; [exact Hsame|]. split; [exact Hpend|].
  destruct Hsame as (Href & Hcu & Hflag & Hres & Hrem & Hanon & Hal & Hioc & Hiof).
  split.
  - intros Hnone. rewrite Hnone in Hpend. split; [now apply Hkeep|].
    unfold exec. now rewrite (BurstFacts.timer_idle w1 Hpend).
  - intros Hsome. rewrite Hsome in Hpend.
    rewrite (BurstFacts.timer_writes_anonymous (items w1) w1 Hpend);
      [|congruence | rewrite Hiof; apply Hio].
    split; [reflexivity|]. split; [simpl; congruence|].
    split; [simpl; congruence|]. split; [reflexivity|].
    destruct (SessionFacts.favorites_sign_out
                (setAnonymous (Some (items w1))
                   (setIoCount (S (ioCount w1)) (setPendingSave None w1))))
      as (Hloaded & _).
    rewrite Hloaded.
    unfold storedAnonymous. simpl. now rewrite Hiof, Hio.
Qed.

(** Removing an id that is not there keeps the empty list and still
    writes it. *)
Lemma favorites_burst_saved_once_witness :
  let w := firstLaunch (fun _ => None) (fun _ => false) 0 in
  let w1 := exec (Bursts.favoritesBurst [Favorites.RemoveFavorite 7%Z]) w in
  let w2 := exec FavoritesController.fireSaveTimer w1 in
  items w1 = items w /\ pendingSave w1 = Some []
  /\ anonymous w = None /\ anonymous w2 = Some [] /\ ioCount w2 = 1%nat.
Proof.
  cbv zeta.
  destruct (favorites_burst_saved_once
              [Favorites.RemoveFavorite 7%Z]
              (firstLaunch (fun _ => None) (fun _ => false) 0)
              eq_refl eq_refl (fun _ => eq_refl))
    as (Hitems & _ & Hpend & _ & Hwrite).
  destruct (Hwrite eq_refl) as (Hanon & Hcount & _).
  split; [exact Hitems|]. split; [exact Hpend|]. split; [reflexivity|].
  split; [exact Hanon | exact Hcount].
Defined.

(** X23. Debounce, signed in: with an owner recorded, somebody signed
    in and no write in flight, a burst of favorites calls followed by
    the firing of the timer makes one I/O call if some call of the
    burst handed a list to [saveFavorites], and none otherwise.  The
    one call is the write of the list as it is after the last call to
    the owner's document, other documents and the Anonymous Store
    being left alone; the echo flag is then set and one reset of it is
    scheduled. *)
Theorem favorites_burst_one_remote_write
        (ops : list Favorites.FavoritesOp) (w : World Recipe) (uid : string)
        (Hpending : pendingSave w = None)
        (Howner : currentUserIdRef w = Some uid)
        (Huid : isEmpty uid = false)
        (Hsignedin : isSome (currentUser w) = true)
        (Hidle : isUpdatingFromFirestore w = false)
        (Hio : ioFails w (ioCount w) = false) :
  let w1 := exec (Bursts.favoritesBurst ops) w in
  let w2 := exec FavoritesController.fireSaveTimer w1 in
  items w1 = Favorites.favoritesRun ops (items w)
  /\ sameStores w w1
  /\ ioCount w2
     = (ioCount w + (if burstSaves ops (items w) then 1 else 0))%nat
  /\ (burstSaves ops (items w) = false -> items w1 = items w /\ w2 = w1)
  /\ (burstSaves ops (items w) = true ->
      remoteField w2 uid = Some (items w1)
      /\ (forall other, other <> uid -> remote w2 other = remote w other)
      /\ anonymous w2 = anonymous w
      /\ isUpdatingFromFirestore w2 = true
      /\ flagResets w2 = S (flagResets w)
      /\ pendingSave w2 = None
      /\ items w2 = items w1).
Proof.
  destruct (BurstFacts.burst_run ops w)
    as (w1 & Hrun & Hitems & Hpend & Hkeep & Hsame).
  assert (Hexec : exec (Bursts.favoritesBurst ops) w = w1)
    by (unfold exec; now rewrite Hrun).
  cbv zeta. rewrite !Hexec. rewrite Hpending in Hpend.
  split; [exact Hitems|]. split; [exact Hsame|].
  destruct Hsame as (Href & Hcu & Hflag & Hres & Hrem & Hanon & Hal & Hioc & Hiof).
  destruct (burstSaves ops (items w)) eqn:Hsaves.
  - destruct (BurstFacts.timer_writes_remote (items w1) uid w1 Hpend)
      as (H1 & H2 & H3 & H4 & H5 & H6 & H7 & H8);
      try congruence.
    split; [rewrite H4, Hioc; lia|]. split; [discriminate|].
    intros _.
    split; [exact H1|]. split; [intros o Ho; rewrite (H2 o Ho); congruence|].
    repeat split; congruence.
  - assert (Hidle2 : exec FavoritesController.fireSaveTimer w1 = w1)
      by (unfold exec; now rewrite (BurstFacts.timer_idle w1 Hpend)).
    rewrite Hidle2.
    split; [rewrite Hioc; lia|].
    split; [intros _; split; [now apply Hkeep | reflexivity]|].
    discriminate.
Qed.

(** Add Soup, add Pie, remove Soup, and the timer: one write, of
    [Pie]. *)
Lemma favorites_burst_one_remote_write_witness :
  let soup := mkRecipe 1 "Soup" "" "" in
  let pie := mkRecipe 2 "Pie" "" "" in
  let ops := [Favorites.AddFavorite soup; Favorites.AddFavorite pie;
              Favorites.RemoveFavorite 1%Z] in
  let w := setCurrentUserIdRef (Some "U")
             (setCurrentUser (Some "U")
                (firstLaunch (fun _ => None) (fun _ => false) 0)) in
  let w2 := exec FavoritesController.fireSaveTimer
                 (exec (Bursts.favoritesBurst ops) w) in
  ioCount w2 = 1%nat /\ remoteField w2 "U" = Some [pie].
Proof.
  cbv zeta.
  destruct (favorites_burst_one_remote_write
              [Favorites.AddFavorite (mkRecipe 1 "Soup" "" "");
               Favorites.AddFavorite (mkRecipe 2 "Pie" "" "");
               Favorites.RemoveFavorite 1%Z]
              (setCurrentUserIdRef (Some "U")
                 (setCurrentUser (Some "U")
                    (firstLaunch (fun _ => None) (fun _ => false) 0)))
              "U" eq_refl eq_refl eq_refl eq_refl eq_refl eq_refl)
    as (_ & _ & Hcount & _ & Hwrite).
  destruct (Hwrite eq_refl) as (Hremote & _).
  split; [exact Hcount | exact Hremote].
Defined.

Module StoreFacts.

Import HandlerTactics HandlerFacts.
Import Favorites FavoritesController Grocery GroceryController GroceryPersistence.

Lemma favorites_merge_covers (remoteItems anonymousList : list Recipe) a :
  In a anonymousList ->
  In (recipeId a) (map recipeId (mergeFavorites remoteItems anonymousList)).
Proof.
  rewrite MergeFacts.mergeFavorites_unionBy.
  apply (UnionInvariants.unionBy_bounds recipeId Z.eqb Z.eqb_eq).
Qed.

Lemma normalizeFrom_keys {Js : Engine} parseDate clk k (l : list GroceryItem) :
  map key (normalizeFrom parseDate clk k l) = map key l.
Proof.
  revert k. induction l as [|x l IH]; intros k; simpl; [reflexivity|].
  now rewrite IH.
Qed.

Lemma grocery_merge_covers {Js : Engine} parseDate clk k
      (remoteItems anonymousList : list GroceryItem) a :
  In a anonymousList ->
  In (key a)
     (map key (mergeGrocery remoteItems
                            (normalizeFrom parseDate clk k anonymousList))).
Proof.
  intros Hin.
  assert (Hk : In (key a) (map key (normalizeFrom parseDate clk k anonymousList))).
  { rewrite normalizeFrom_keys. now apply in_map. }
  apply in_map_iff in Hk. destruct Hk as [a' [Hk Hin']]. rewrite <- Hk.
  rewrite MergeFacts.mergeGrocery_unionBy.
  now apply (UnionInvariants.unionBy_bounds key String.eqb String.eqb_eq).
Qed.

Lemma favorites_snapshot_keeps_anonymous uid docSnap (w : World Recipe) :
  let w' := exec (onFavoritesSnapshot uid docSnap) w in
  anonymous w' = anonymous w
  \/ (anonymous w' = None
      /\ remoteField w' uid = Some (anonymousItems w)
      /\ items w' = anonymousItems w).
Proof.
  open_world w. destruct docSnap as [[l|]|];
    run_all; first [left; reflexivity | right; conjs; reflexivity].
Qed.

Lemma favorites_sync_keeps_anonymous (w : World Recipe) :
  let w' := exec syncFavorites w in
  anonymous w' = anonymous w
  \/ (anonymous w' = None
      /\ (exists uid, currentUser w = Some uid
                      /\ remoteField w' uid = Some (items w'))
      /\ forall a, In a (anonymousItems w) ->
                   In (recipeId a) (map recipeId (items w'))).
Proof.
  open_world w.
  run_all;
    first [left; reflexivity
          | right; split; [reflexivity|]; split;
            [eexists; split; [reflexivity|]; evaluate; reflexivity
            | match goal with
              | |- context [mergeFavorites ?r ?l] =>
                  intros a Ha; exact (favorites_merge_covers r l a Ha)
              end]].
Qed.

Lemma grocery_snapshot_migrates parseDate uid docSnap
      (w : World GroceryItem) :
  let w' := exec (onGrocerySnapshot parseDate uid docSnap) w in
  anonymous w' = anonymous w
  \/ (anonymous w' = None
      /\ remoteField w' uid = Some (items w')
      /\ items w'
         = normalizeFrom parseDate (clock w) (clockReads w) (anonymousItems w)).
Proof.
  open_world w. destruct docSnap as [[l|]|];
    run_all; first [left; reflexivity | right; conjs; reflexivity].
Qed.

Lemma grocery_snapshot_keeps_anonymous {Js : Engine} parseDate uid docSnap
      (w : World GroceryItem) :
  let w' := exec (onGrocerySnapshot parseDate uid docSnap) w in
  anonymous w' = anonymous w
  \/ (anonymous w' = None
      /\ remoteField w' uid = Some (items w')
      /\ map key (items w') = map key (anonymousItems w)).
Proof.
  intros w'.
  destruct (grocery_snapshot_migrates parseDate uid docSnap w)
    as [Hsame | (Hnone & Hremote & Hitems)]; [now left | right].
  fold w' in Hnone, Hremote, Hitems.
  repeat split; trivial.
  rewrite Hitems. apply normalizeFrom_keys.
Qed.

Lemma grocery_sync_merges {Js : Engine} parseDate (w : World GroceryItem) :
  let w' := exec (syncGroceryList parseDate) w in
  anonymous w' = anonymous w
  \/ (anonymous w' = None
      /\ (exists uid, currentUser w = Some uid
                      /\ remoteField w' uid = Some (items w'))
      /\ exists remoteItems k,
           items w'
           = mergeGrocery remoteItems
               (normalizeFrom parseDate (clock w) k (anonymousItems w))).
Proof.
  open_world w.
  run_all;
    first [left; reflexivity
          | right; split; [reflexivity|]; split;
            [eexists; split; [reflexivity|]; evaluate; reflexivity
            | eexists; eexists; reflexivity]].
Qed.

Lemma grocery_sync_keeps_anonymous {Js : Engine} parseDate (w : World GroceryItem) :
  let w' := exec (syncGroceryList parseDate) w in
  anonymous w' = anonymous w
  \/ (anonymous w' = None
      /\ (exists uid, currentUser w = Some uid
                      /\ remoteField w' uid = Some (items w'))
      /\ forall a, In a (anonymousItems w) ->
                   In (key a) (map key (items w'))).
Proof.
  intros w'.
  destruct (grocery_sync_merges parseDate w)
    as [Hsame | (Hnone & Hremote & r & k & Hitems)]; [now left | right].
  fold w' in Hnone, Hremote, Hitems.
  repeat split; trivial.
  intros a Ha. rewrite Hitems. now apply grocery_merge_covers.
Qed.

End StoreFacts.

(** X24. The Anonymous Store is emptied only once its content has
    reached the remote document.  Whatever the failure oracle answers,
    after a snapshot callback or a "sync now" of either controller the
    Anonymous Store is either untouched, or it is empty and then the
    remote document of the signed-in user holds the list the Local
    Cache shows, which contains every anonymous entry (for favorites by
    id, for grocery by lowercased trimmed name). *)
Theorem anonymous_store_cleared_after_upload {Js : Engine} :
  (forall uid docSnap (w : World Recipe),
      let w' := exec (FavoritesController.onFavoritesSnapshot uid docSnap) w in
      anonymous w' = anonymous w
      \/ (anonymous w' = None
          /\ remoteField w' uid = Some (anonymousItems w)
          /\ items w' = anonymousItems w))
  /\ (forall (w : World Recipe),
         let w' := exec FavoritesController.syncFavorites w in
         anonymous w' = anonymous w
         \/ (anonymous w' = None
             /\ (exists uid, currentUser w = Some uid
                             /\ remoteField w' uid = Some (items w'))
             /\ forall a, In a (anonymousItems w) ->
                          In (recipeId a) (map recipeId (items w'))))
  /\ (forall parseDate uid docSnap (w : World GroceryItem),
         let w' := exec (GroceryController.onGrocerySnapshot
                           parseDate uid docSnap) w in
         anonymous w' = anonymous w
         \/ (anonymous w' = None
             /\ remoteField w' uid = Some (items w')
             /\ map Grocery.key (items w')
                = map Grocery.key (anonymousItems w)))
  /\ (forall parseDate (w : World GroceryItem),
         let w' := exec (GroceryController.syncGroceryList parseDate) w in
         anonymous w' = anonymous w
         \/ (anonymous w' = None
             /\ (exists uid, currentUser w = Some uid
                             /\ remoteField w' uid = Some (items w'))
             /\ forall a, In a (anonymousItems w) ->
                          In (Grocery.key a)
                             (map Grocery.key (items w')))).
Proof.
  split; [exact StoreFacts.favorites_snapshot_keeps_anonymous|].
  split; [exact StoreFacts.favorites_sync_keeps_anonymous|].
  split; [exact StoreFacts.grocery_snapshot_keeps_anonymous|].
  exact StoreFacts.grocery_sync_keeps_anonymous.
Qed.

Module RoundTripFacts.

Import HandlerTactics HandlerFacts.
Import Grocery GroceryController GroceryPersistence.

Section WithDateFormat.

Variable parseDate : string -> option Z.
Variable toISOString : Z -> string.
Variable objectThroughJSON : option ToDate -> JsValue.

Lemma stringified_fields (l : list GroceryItem) :
  map itemId (stringified toISOString objectThroughJSON l) = map itemId l
  /\ map itemName (stringified toISOString objectThroughJSON l)
     = map itemName l
  /\ map checked (stringified toISOString objectThroughJSON l)
     = map checked l.
Proof.
  unfold stringified. rewrite !map_map. repeat split; reflexivity.
Qed.

Lemma readsBack_valid (l : list GroceryItem) :
  forallb (readsBack parseDate toISOString) l = true ->
  Forall (fun item => isValidDate (addedAt item) = true) l.
Proof.
  intros Hall. apply Forall_forall. intros item Hin.
  rewrite forallb_forall in Hall. specialize (Hall item Hin).
  unfold readsBack in Hall.
  now destruct (addedAt item) as [[t|]|s|n|b| | |o].
Qed.

Lemma stringified_reads_back clk k (l : list GroceryItem) :
  forallb (readsBack parseDate toISOString) l = true ->
  normalizeFrom parseDate clk k
                (stringified toISOString objectThroughJSON l) = l.
Proof.
  revert k. induction l as [|x l IH]; intros k Hall; [reflexivity|].
  simpl in Hall. apply andb_true_iff in Hall. destruct Hall as [Hx Hl].
  change (stringified toISOString objectThroughJSON (x :: l))
    with (setAddedAt (throughJSON toISOString objectThroughJSON (addedAt x)) x
            :: stringified toISOString objectThroughJSON l).
  simpl. rewrite (IH (S k) Hl). f_equal.
  destruct x as [i n c d]. unfold readsBack in Hx. simpl in *.
  destruct d as [[t|]|s|m|b| | |o]; try discriminate Hx. simpl.
  destruct (parseDate (toISOString t)) as [t'|]; [|discriminate Hx].
  apply Z.eqb_eq in Hx. now subst t'.
Qed.

Lemma save_then_load l (w : World GroceryItem) :
  truthyId (currentUserIdRef w) = false ->
  ioFails w (ioCount w) = false ->
  ioFails w (S (ioCount w)) = false ->
  let stored :=
    stringified toISOString objectThroughJSON
                (normalizeFrom parseDate (clock w) (clockReads w) l) in
  let w1 := exec (saveGroceryList parseDate toISOString objectThroughJSON
                                  l true) w in
  anonymous w1 = Some stored
  /\ fst (loadAnonymousGroceryList parseDate w1)
     = Returned (normalizeFrom parseDate (clock w)
                               (clockReads w + List.length l) stored).
Proof.
  intros Hid Hwrite Hread. open_world w. revert Hid.
  destruct cref as [[|c u]|];
    cbv -[normalizeFrom stringified List.length Nat.add];
    intros Hid; try discriminate Hid;
    rewrite Hwrite;
    cbv -[normalizeFrom stringified List.length Nat.add];
    rewrite Hread; split; reflexivity.
Qed.

End WithDateFormat.

End RoundTripFacts.

(** X25. The grocery list of a signed-out user survives the round trip
    through the Anonymous Store.  When nobody owns the session and
    neither call is rejected, an immediate [saveGroceryList(list)]
    followed by [loadAnonymousGroceryList()] gives back a list with the
    same ids, names and [checked] flags in the same order; and when
    every date of the list is a valid Date whose ISO string parses back
    to the same instant, it gives back the list itself. *)
Theorem anonymous_grocery_round_trip
        (parseDate : string -> option Z) (toISOString : Z -> string)
        (objectThroughJSON : option ToDate -> JsValue)
        (l : list GroceryItem) (w : World GroceryItem) :
  truthyId (currentUserIdRef w) = false ->
  ioFails w (ioCount w) = false ->
  ioFails w (S (ioCount w)) = false ->
  let w1 := exec (GroceryPersistence.saveGroceryList
                    parseDate toISOString objectThroughJSON l true) w in
  exists loaded,
    fst (GroceryController.loadAnonymousGroceryList parseDate w1)
    = Returned loaded
    /\ map itemId loaded = map itemId l
    /\ map itemName loaded = map itemName l
    /\ map checked loaded = map checked l
    /\ (forallb (readsBack parseDate toISOString) l = true -> loaded = l).
Proof.
  intros Hid Hwrite Hread w1.
  destruct (RoundTripFacts.save_then_load
              parseDate toISOString objectThroughJSON l w Hid Hwrite Hread)
    as [_ Hload].
  fold w1 in Hload. eexists. split; [exact Hload|].
  destruct (NormalizeFacts.normalizeFrom_fields
              parseDate (clock w) (clockReads w + List.length l)
              (GroceryPersistence.stringified
                 toISOString objectThroughJSON
                 (GroceryController.normalizeFrom
                    parseDate (clock w) (clockReads w) l)))
    as (H1 & H2 & H3).
  destruct (RoundTripFacts.stringified_fields
              toISOString objectThroughJSON
              (GroceryController.normalizeFrom
                 parseDate (clock w) (clockReads w) l))
    as (S1 & S2 & S3).
  destruct (NormalizeFacts.normalizeFrom_fields
              parseDate (clock w) (clockReads w) l) as (N1 & N2 & N3).
  split; [congruence|]. split; [congruence|]. split; [congruence|].
  intros Hback.
  rewrite (NormalizeFacts.normalizeFrom_valid_fixed
             parseDate (clock w) (clockReads w) l
             (RoundTripFacts.readsBack_valid parseDate toISOString l Hback)).
  now apply RoundTripFacts.stringified_reads_back.
Qed.

Lemma anonymous_grocery_round_trip_witness :
  let parseDate := fun s : string => if (s =? "1970-01-01T00:00:00.007Z")%string
                                     then Some 7%Z else None in
  let toISOString := fun _ : Z => "1970-01-01T00:00:00.007Z" in
  let milk := mkItem "a" "Milk" false (JDate (Some 7%Z)) in
  let w := firstLaunch (fun _ => None) (fun _ => false) 0 in
  let w1 := exec (GroceryPersistence.saveGroceryList
                    parseDate toISOString (fun _ => JNull) [milk] true) w in
  exists loaded,
    fst (GroceryController.loadAnonymousGroceryList parseDate w1)
    = Returned loaded
    /\ loaded = [milk].
Proof.
  cbv zeta.
  destruct (anonymous_grocery_round_trip
              (fun s : string => if (s =? "1970-01-01T00:00:00.007Z")%string
                                 then Some 7%Z else None)
              (fun _ : Z => "1970-01-01T00:00:00.007Z")
              (fun _ => JNull)
              [mkItem "a" "Milk" false (JDate (Some 7%Z))]
              (firstLaunch (fun _ => None) (fun _ => false) 0)
              eq_refl eq_refl eq_refl)
    as (loaded & Hload & _ & _ & _ & Hsame).
  exists loaded. split; [exact Hload|]. apply Hsame. reflexivity.
Defined.

Module SyncNowFacts.

Import HandlerTactics HandlerFacts.
Import Favorites FavoritesController Grocery GroceryController.

Lemma syncFavorites_signed_out (w : World Recipe) :
  currentUser w = None -> syncFavorites w = (Returned tt, w).
Proof. intros Huser. open_world w. subst cu. reflexivity. Qed.

Lemma syncGroceryList_signed_out {Js : Engine} parseDate (w : World GroceryItem) :
  currentUser w = None -> syncGroceryList parseDate w = (Returned tt, w).
Proof. intros Huser. open_world w. subst cu. reflexivity. Qed.

Lemma syncFavorites_done (w : World Recipe) (uid : string) :
  currentUser w = Some uid -> isEmpty uid = false ->
  (forall n, ioFails w n = false) ->
  let w' := exec syncFavorites w in
  loading w' = false /\ pendingSave w' = pendingSave w.
Proof.
  intros Huser Huid Hio. open_world w. subst cu.
  run_handler; conjs; reflexivity.
Qed.

Lemma syncGroceryList_stores {Js : Engine} parseDate (w : World GroceryItem) (uid : string) :
  currentUser w = Some uid -> isEmpty uid = false ->
  (forall n, ioFails w n = false) ->
  let w' := exec (syncGroceryList parseDate) w in
  remoteList w' uid
  = (if nothingToSync (remoteList w uid) (anonymousItems w)
     then remoteList w uid else items w')
  /\ loading w' = false /\ pendingSave w' = pendingSave w.
Proof.
  intros Huser Huid Hio. open_world w. subst cu.
  run_handler; conjs; rewrite ?Nat.add_0_r; reflexivity.
Qed.

End SyncNowFacts.

(** X26. "Sync now" when no call is rejected.  For a signed-in user
    the Local Cache and the remote document both end up holding the
    merge of the remote list with the anonymous list, the Anonymous
    Store is empty, the loading indicator is off, and the "Success"
    notice is raised exactly when there were anonymous items (never
    "Sync Error").  The one exception: when there is nothing to
    upload (no anonymous item, a remote list that is not empty)
    [syncGroceryList] writes nothing, so the remote document keeps its
    list as stored while the Local Cache shows it with normalised
    dates.  When nobody is signed in the call returns at once and
    changes nothing. *)
Theorem sync_now_succeeds {Js : Engine} :
  (forall (w : World Recipe) (uid : string),
      currentUser w = Some uid -> isEmpty uid = false ->
      (forall n, ioFails w n = false) ->
      let w' := exec FavoritesController.syncFavorites w in
      let merged :=
        Favorites.mergeFavorites (remoteList w uid) (anonymousItems w) in
      items w' = merged
      /\ remoteList w' uid = merged
      /\ anonymousItems w' = []
      /\ loading w' = false
      /\ alerts w' = alerts w
                     ++ (if (0 <? List.length (anonymousItems w))%nat
                         then ["Success"] else []))
  /\ (forall parseDate (w : World GroceryItem) (uid : string),
         currentUser w = Some uid -> isEmpty uid = false ->
         (forall n, ioFails w n = false) ->
         let w' := exec (GroceryController.syncGroceryList parseDate) w in
         let merged :=
           Grocery.mergeGrocery
             (firestoreGrocery parseDate w uid)
             (anonymousGrocery parseDate w uid (anonymousItems w)) in
         items w' = merged
         /\ remoteList w' uid
            = (if nothingToSync (remoteList w uid) (anonymousItems w)
               then remoteList w uid else merged)
         /\ anonymousItems w' = []
         /\ loading w' = false
         /\ alerts w' = alerts w
                        ++ (if (0 <? List.length (anonymousItems w))%nat
                            then ["Success"] else []))
  /\ (forall (w : World Recipe),
         currentUser w = None ->
         FavoritesController.syncFavorites w = (Returned tt, w))
  /\ (forall parseDate (w : World GroceryItem),
         currentUser w = None ->
         GroceryController.syncGroceryList parseDate w = (Returned tt, w)).
Proof.
  split; [|split; [|split]].
  - intros w uid Huser Huid Hio.
    destruct (FavoritesSyncFacts.syncFavorites_succeeds w uid Huser Huid Hio)
      as (H1 & H2 & H3 & _ & _ & H6).
    destruct (SyncNowFacts.syncFavorites_done w uid Huser Huid Hio)
      as (H7 & _).
    repeat split; assumption.
  - intros parseDate w uid Huser Huid Hio.
    destruct (GrocerySyncFacts.syncGroceryList_succeeds
                parseDate w uid Huser Huid Hio) as (H1 & H2 & H3).
    destruct (SyncNowFacts.syncGroceryList_stores
                parseDate w uid Huser Huid Hio) as (H4 & H5 & _).
    cbv zeta in *. repeat split; try assumption. now rewrite <- H1.
  - exact SyncNowFacts.syncFavorites_signed_out.
  - exact SyncNowFacts.syncGroceryList_signed_out.
Qed.

Section On_sync_now_succeeds_witness.

#[local] Existing Instance AsciiText.engine.
#[local] Existing Instance AsciiTextFacts.laws.

Lemma sync_now_succeeds_witness :
  let pie := mkRecipe 2 "Pie" "" "" in
  let cake := mkRecipe 3 "Cake" "" "" in
  let w := setAnonymous (Some [cake])
             (setCurrentUser (Some "U")
                (firstLaunch (oneDocument "U" [pie]) (fun _ => false) 0)) in
  let w' := exec FavoritesController.syncFavorites w in
  items w' = [pie; cake] /\ remoteList w' "U" = [pie; cake]
  /\ anonymousItems w' = [] /\ alerts w' = ["Success"].
Proof.
  cbv zeta.
  destruct (proj1 sync_now_succeeds
                  (setAnonymous (Some [mkRecipe 3 "Cake" "" ""])
                     (setCurrentUser (Some "U")
                        (firstLaunch
                           (oneDocument "U" [mkRecipe 2 "Pie" "" ""])
                           (fun _ => false) 0)))
                  "U" eq_refl eq_refl (fun _ => eq_refl))
    as (H1 & H2 & H3 & _ & H5).
  repeat split; assumption.
Defined.

End On_sync_now_succeeds_witness.

Module GrocerySaveFacts.

Import HandlerTactics HandlerFacts.
Import Grocery GroceryController GroceryPersistence.

Section WithDateFormat.

Variable parseDate : string -> option Z.
Variable toISOString : Z -> string.
Variable objectThroughJSON : option ToDate -> JsValue.

Ltac run_dispatch :=
  cbv [exec dispatchGrocery bind gets modify ret snd fst
       unchanged debounced immediately next saved
       saveGroceryList withDates groceryStep
       removeGroceryItem removeGroceryItemByName toggleGroceryItem
       clearCheckedItems clearAllItems
       setItems setPendingSave setClockReads
       items loading currentUserIdRef isUpdatingFromFirestore isInitialized
       listener pendingSave flagResets currentUser remote anonymous alerts
       ioCount ioFails clockReads clock].

Lemma single_item_op_waits {Js : Engine} op (w : World GroceryItem) :
  savesAtOnce op = false ->
  let w' := exec (dispatchGrocery parseDate toISOString objectThroughJSON op)
                 w in
  items w' = groceryStep (items w) op
  /\ ioCount w' = ioCount w
  /\ remote w' = remote w
  /\ anonymous w' = anonymous w
  /\ alerts w' = alerts w
  /\ pendingSave w'
     = (if schedulesSave (items w) op
        then Some (normalizeFrom parseDate (clock w) (clockReads w) (items w'))
        else pendingSave w)
  /\ (schedulesSave (items w) op = false -> items w' = items w).
Proof.
  intros Hop. open_world w.
  destruct op as [freshId now ingredient|id|name|id| |];
    try discriminate Hop; clear Hop.
  - run_dispatch. cbv [addGroceryItem schedulesSave].
    destruct (isEmpty ingredient || isEmpty (trim ingredient));
      [|destruct (find (sameName ingredient) its) as [e|]; cbv beta iota;
        [destruct (checked e)|]];
      run_dispatch; cbn [negb andb]; conjs; try reflexivity;
        discriminate.
  - run_dispatch; cbv [schedulesSave]; conjs; try reflexivity; discriminate.
  - run_dispatch; cbv [schedulesSave]; conjs; try reflexivity; discriminate.
  - run_dispatch; cbv [schedulesSave]; conjs; try reflexivity; discriminate.
Qed.

Lemma bulk_op_writes_anonymous {Js : Engine} op (w : World GroceryItem) :
  savesAtOnce op = true ->
  truthyId (currentUserIdRef w) = false ->
  ioFails w (ioCount w) = false ->
  let w' := exec (dispatchGrocery parseDate toISOString objectThroughJSON op)
                 w in
  items w' = groceryStep (items w) op
  /\ pendingSave w' = None
  /\ anonymous w'
     = Some (stringified toISOString objectThroughJSON
               (normalizeFrom parseDate (clock w) (clockReads w) (items w')))
  /\ remote w' = remote w
  /\ alerts w' = alerts w.
Proof.
  intros Hop Hid Hio. open_world w. revert Hid.
  destruct op as [freshId now ingredient|id|name|id| |];
    try discriminate Hop; clear Hop;
    destruct cref as [[|c u]|];
    cbv -[normalizeFrom stringified List.length Nat.add filter];
    intros Hid; try discriminate Hid;
    rewrite Hio; conjs; reflexivity.
Qed.

Lemma bulk_op_writes_remote {Js : Engine} op uid (w : World GroceryItem) :
  savesAtOnce op = true ->
  currentUserIdRef w = Some uid -> isEmpty uid = false ->
  isSome (currentUser w) = true ->
  isUpdatingFromFirestore w = false ->
  ioFails w (ioCount w) = false ->
  let w' := exec (dispatchGrocery parseDate toISOString objectThroughJSON op)
                 w in
  items w' = groceryStep (items w) op
  /\ pendingSave w' = None
  /\ remoteField w' uid
     = Some (normalizeFrom parseDate (clock w) (clockReads w) (items w'))
  /\ anonymous w' = anonymous w
  /\ isUpdatingFromFirestore w' = true
  /\ alerts w' = alerts w.
Proof.
  intros Hop Hid Huid Huser Hupd Hio. open_world w. subst cref upd.
  destruct cu as [v|]; [clear Huser | discriminate Huser].
  destruct op as [freshId now ingredient|id|name|id| |];
    try discriminate Hop; clear Hop;
    cbv -[normalizeFrom stringified List.length Nat.add filter
          String.eqb isEmpty];
    rewrite Huid;
    cbv -[normalizeFrom stringified List.length Nat.add filter
          String.eqb isEmpty];
    rewrite Hio, ?String.eqb_refl; conjs; reflexivity.
Qed.

End WithDateFormat.

End GrocerySaveFacts.

(** X27. When the grocery controller saves.  A single-item operation
    (add, remove, remove by name, toggle) performs no I/O and raises no
    notice.  If it hands a list to [saveGroceryList] (the removals and
    the toggle always do, also when they change nothing;
    [addGroceryItem] does unless the name is blank or its first match
    is unchecked) it arms the 300 ms timer with the new list,
    date-normalised, in place of whatever was pending; if it does not,
    the list and the pending save are what they were.  A bulk operation
    ([clearCheckedItems], [clearAllItems]) cancels the pending save and
    writes at once: with no session owner the Anonymous Store then
    holds the new list as JSON writes it; with a signed-in owner and no
    write in flight the remote document holds it and the echo flag is
    set. *)
Theorem grocery_save_timing {Js : Engine}
        (parseDate : string -> option Z) (toISOString : Z -> string)
        (objectThroughJSON : option ToDate -> JsValue) :
  (forall op (w : World GroceryItem),
      savesAtOnce op = false ->
      let w' := exec (GroceryPersistence.dispatchGrocery
                        parseDate toISOString objectThroughJSON op) w in
      items w' = Grocery.groceryStep (items w) op
      /\ ioCount w' = ioCount w
      /\ remote w' = remote w
      /\ anonymous w' = anonymous w
      /\ alerts w' = alerts w
      /\ pendingSave w'
         = (if schedulesSave (items w) op
            then Some (GroceryController.normalizeFrom
                         parseDate (clock w) (clockReads w) (items w'))
            else pendingSave w)
      /\ (schedulesSave (items w) op = false -> items w' = items w))
  /\ (forall op (w : World GroceryItem),
         savesAtOnce op = true ->
         truthyId (currentUserIdRef w) = false ->
         ioFails w (ioCount w) = false ->
         let w' := exec (GroceryPersistence.dispatchGrocery
                           parseDate toISOString objectThroughJSON op) w in
         items w' = Grocery.groceryStep (items w) op
         /\ pendingSave w' = None
         /\ anonymous w'
            = Some (GroceryPersistence.stringified
                      toISOString objectThroughJSON
                      (GroceryController.normalizeFrom
                         parseDate (clock w) (clockReads w) (items w')))
         /\ remote w' = remote w
         /\ alerts w' = alerts w)
  /\ (forall op uid (w : World GroceryItem),
         savesAtOnce op = true ->
         currentUserIdRef w = Some uid -> isEmpty uid = false ->
         isSome (currentUser w) = true ->
         isUpdatingFromFirestore w = false ->
         ioFails w (ioCount w) = false ->
         let w' := exec (GroceryPersistence.dispatchGrocery
                           parseDate toISOString objectThroughJSON op) w in
         items w' = Grocery.groceryStep (items w) op
         /\ pendingSave w' = None
         /\ remoteField w' uid
            = Some (GroceryController.normalizeFrom
                      parseDate (clock w) (clockReads w) (items w'))
         /\ anonymous w' = anonymous w
         /\ isUpdatingFromFirestore w' = true
         /\ alerts w' = alerts w).
Proof.
  split; [|split].
  - exact (GrocerySaveFacts.single_item_op_waits
             parseDate toISOString objectThroughJSON).
  - exact (GrocerySaveFacts.bulk_op_writes_anonymous
             parseDate toISOString objectThroughJSON).
  - exact (GrocerySaveFacts.bulk_op_writes_remote
             parseDate toISOString objectThroughJSON).
Qed.

Section On_grocery_save_timing_witness.

#[local] Existing Instance AsciiText.engine.
#[local] Existing Instance AsciiTextFacts.laws.

(** Clearing the checked items writes at once in place of the pending
    save; removing an id that is not there changes nothing and still
    re-arms the timer, with the list as it is. *)
Lemma grocery_save_timing_witness :
  let milk := mkItem "a" "Milk" true (JDate (Some 7%Z)) in
  let eggs := mkItem "b" "Eggs" false (JDate (Some 8%Z)) in
  let w := setPendingSave (Some [milk])
             (setItems [milk; eggs]
                (firstLaunch (fun _ => None) (fun _ => false) 0)) in
  let cleared := exec (GroceryPersistence.dispatchGrocery
                         (fun _ => None) (fun _ => "T") (fun _ => JNull)
                         Grocery.ClearChecked) w in
  let removed := exec (GroceryPersistence.dispatchGrocery
                         (fun _ => None) (fun _ => "T") (fun _ => JNull)
                         (Grocery.RemoveItem "zz")) w in
  (items cleared = [eggs] /\ pendingSave cleared = None
   /\ anonymous cleared = Some [mkItem "b" "Eggs" false (JString "T")])
  /\ (items removed = [milk; eggs]
      /\ pendingSave removed = Some [milk; eggs]
      /\ anonymous removed = None).
Proof.
  cbv zeta. split.
  - destruct (proj1 (proj2 (grocery_save_timing
                              (fun _ => None) (fun _ => "T") (fun _ => JNull)))
                    Grocery.ClearChecked
                    (setPendingSave
                       (Some [mkItem "a" "Milk" true (JDate (Some 7%Z))])
                       (setItems [mkItem "a" "Milk" true (JDate (Some 7%Z));
                                  mkItem "b" "Eggs" false (JDate (Some 8%Z))]
                          (firstLaunch (fun _ => None) (fun _ => false) 0)))
                    eq_refl eq_refl eq_refl)
      as (H1 & H2 & H3 & _).
    repeat split; assumption.
  - destruct (proj1 (grocery_save_timing
                       (fun _ => None) (fun _ => "T") (fun _ => JNull))
                    (Grocery.RemoveItem "zz")
                    (setPendingSave
                       (Some [mkItem "a" "Milk" true (JDate (Some 7%Z))])
                       (setItems [mkItem "a" "Milk" true (JDate (Some 7%Z));
                                  mkItem "b" "Eggs" false (JDate (Some 8%Z))]
                          (firstLaunch (fun _ => None) (fun _ => false) 0)))
                    eq_refl)
      as (H1 & _ & _ & H4 & _ & H6 & _).
    repeat split; assumption.
Defined.

End On_grocery_save_timing_witness.
